(** * crypto-scanner-bot: the risk classifier, pair selector, address
      checks and mention counter of [bot.py], embedded and verified.

    Python values parsed from JSON are modelled as a tree type [json].
    A finite number is a rational ([Q]): every comparison the program
    makes is against another number or a constant, and Python compares
    ints and finite floats by their exact values.  The one arithmetic
    operation ([market_cap * 2]) is exact on an int and on a float
    below 2^1023 in magnitude; on a larger float it overflows to an
    infinity.  The floats that are not finite (NaN and the infinities,
    which [json.loads] builds from [NaN] and [Infinity]) are values of
    their own.  A call that raises is modelled by the [Raise]
    outcome. *)

From Stdlib Require Import Ascii QArith.
From stdpp Require Import gmap strings list fin_maps.

Local Open Scope string_scope.
Local Open Scope list_scope.

Definition Qltb (a b : Q) : bool := negb (Qle_bool b a).

Infix "<?" := Qltb (at level 70) : Q_scope.
Infix "<=?" := Qle_bool (at level 70) : Q_scope.

(** ** Python values and exceptions *)

Module Py.

(** The exception classes the modelled code can meet.  All of them
    derive from [Exception], so an [except Exception] clause catches
    every value of this type. *)
Inductive exn :=
| AttributeError
| TypeError
| IndexError
| OtherException (what : string).

Inductive outcome (A : Type) :=
| Return (a : A)
| Raise (e : exn).
Arguments Return {A} a.
Arguments Raise {A} e.

#[global] Instance outcome_ret : MRet outcome := λ A a, Return a.
#[global] Instance outcome_bind : MBind outcome := λ A B k m,
  match m with
  | Return a => k a
  | Raise e => Raise e
  end.

Definition raised {A} (m : outcome A) : bool :=
  match m with Return _ => false | Raise _ => true end.

(** A [float]: a finite double, an infinity or NaN.  A finite double
    is a rational; the model does not single out the rationals that
    are doubles, since no operation of the program rounds one. *)
Inductive float :=
| Finite (q : Q)
| Infinity (negative : bool)
| NaN.

(** What [json.loads] builds: [None], [bool], numbers, [str], [list]
    and [dict] with string keys.  [JNum q] is a number on which the
    program computes exactly: an [int], of any size, or a [float] below
    2^1023 in magnitude (its comparisons and its product do not tell
    the two apart).  [JFloat x] is a [float] of any size or kind. *)
#[local] Set Warnings "-register-all".
Inductive json :=
| JNull
| JBool (b : bool)
| JNum (q : Q)
| JFloat (x : float)
| JStr (s : string)
| JArr (items : list json)
| JObj (fields : gmap string json).

(** [d.get(key, default)]: only a [dict] has the method. *)
Definition get (d : json) (key : string) (default : json) : outcome json :=
  match d with
  | JObj fields =>
      match fields !! key with
      | Some v => Return v
      | None => Return default
      end
  | _ => Raise AttributeError
  end.

(** A number as the program's comparisons and its one product see
    it: one it computes with exactly, or a [float]. *)
Inductive num :=
| Exact (q : Q)
| Float (x : float).

(** The operand of an order comparison with a number.  [bool] is a
    subclass of [int]; every other class raises [TypeError] when it is
    compared with a number. *)
Definition number (v : json) : outcome num :=
  match v with
  | JNum q => Return (Exact q)
  | JFloat x => Return (Float x)
  | JBool true => Return (Exact 1%Q)
  | JBool false => Return (Exact 0%Q)
  | _ => Raise TypeError
  end.

(** Comparisons go by value, whether the operands are ints, floats or
    one of each. *)
Definition value (n : num) : float :=
  match n with
  | Exact q => Finite q
  | Float x => x
  end.

(** [x < y]: false as soon as one operand is NaN. *)
Definition lt (x y : float) : bool :=
  match x, y with
  | NaN, _ | _, NaN => false
  | Finite a, Finite b => (a <? b)%Q
  | Finite _, Infinity negative => negb negative
  | Infinity negative, Finite _ => negative
  | Infinity a, Infinity b => a && negb b
  end.

(** [x <= y]: false as soon as one operand is NaN. *)
Definition le (x y : float) : bool :=
  match x, y with
  | NaN, _ | _, NaN => false
  | Finite a, Finite b => (a <=? b)%Q
  | Finite _, Infinity negative => negb negative
  | Infinity negative, Finite _ => negative
  | Infinity a, Infinity b => a || negb b
  end.

(** The least magnitude of a float whose product with 2 is out of the
    range of floats. *)
Definition overflow_bound : Q := inject_Z (2 ^ 1023).

Definition overflows (q : Q) : bool :=
  (overflow_bound <=? q)%Q || (q <=? - overflow_bound)%Q.

(** [x * 2]: the exact product, but for a float so large that the
    product is out of range, which gives the infinity of its sign; an
    infinity and NaN stay what they are. *)
Definition times_two (n : num) : float :=
  match n with
  | Exact q => Finite (q * 2)
  | Float (Finite q) =>
      if overflows q then Infinity (q <? 0)%Q else Finite (q * 2)
  | Float x => x
  end.

(** A key of the sort, which orders the finite numbers (see
    [Sorted.sorted_reverse]). *)
Definition rational (v : json) : outcome Q :=
  n ← number v;
  match value n with
  | Finite q => Return q
  | _ => Raise TypeError
  end.

(** Truth value of an object ([if not x]). *)
Definition truthy (v : json) : bool :=
  match v with
  | JNull => false
  | JBool b => b
  | JNum q => negb (Qeq_bool q 0)
  | JFloat (Finite q) => negb (Qeq_bool q 0)
  | JFloat _ => true
  | JStr s => negb (String.eqb s "")
  | JArr items => match items with [] => false | _ => true end
  | JObj fields => negb (bool_decide (fields = ∅))
  end.

End Py.

Import Py.

Coercion Py.value : num >-> float.
Coercion Py.Finite : Q >-> float.

Declare Scope float_scope.
Infix "<?" := Py.lt (at level 70) : float_scope.
Infix "<=?" := Py.le (at level 70) : float_scope.

(** ** The risk classifier ([analyze_rug_pull_risk]) *)

Inductive tier := Low | Moderate | High | Critical | Extreme | LowToModerate.

Inductive level := LevelLow | LevelMedium | LevelHigh.
Inductive price_level := Stable | Volatile | Negative.
Inductive fdv_relation := Balanced | FdvLower | FdvHigher.

(** The returned text is one of six templates filled with the four
    numbers and the four derived levels; the record keeps exactly what
    the text is built from. *)
Record verdict := {
  risk : tier;
  liquidity_usd : num;
  liquidity_level : level;
  market_cap_usd : num;
  market_cap_level : level;
  price_change_percentage : num;
  price_change_level : price_level;
  fdv_vs_market_cap : fdv_relation
}.

(** The label each template opens with. *)
Definition risk_label (t : tier) : string :=
  match t with
  | Low => "Low Risk"
  | Moderate => "Moderate Risk"
  | High => "High Risk"
  | Critical => "Critical Risk"
  | Extreme => "Extreme Risk"
  | LowToModerate => "Low to Moderate Risk"
  end.

Section RiskCalculation.
Local Open Scope Q_scope.
Local Open Scope float_scope.
Variables liquidity price_change market_cap fdv : num.

Definition key_factor_liquidity : level :=
  if 25000 <? liquidity then LevelHigh
  else if 10000 <=? liquidity then LevelMedium
  else LevelLow.

Definition key_factor_market_cap : level :=
  if 250000 <? market_cap then LevelHigh
  else if 100000 <=? market_cap then LevelMedium
  else LevelLow.

Definition key_factor_price_change : price_level :=
  if 500 <? price_change then Volatile
  else if price_change <=? 0 then Negative
  else Stable.

Definition key_factor_fdv : fdv_relation :=
  if fdv <? market_cap then FdvLower
  else if market_cap <? fdv then FdvHigher
  else Balanced.

(** The chain of [if ...: return ...] statements, in program order. *)
Definition risk_calculation : tier :=
  if (25000 <? liquidity) && (250000 <? market_cap) && (price_change <=? 50)
  then Low
  else if (10000 <=? liquidity) && (liquidity <=? 20000)
          && ((50 <? price_change) || (market_cap <? 100000))
  then Moderate
  else if (liquidity <? 10000) || (price_change <=? 0)
  then High
  else if (liquidity <? 5000) || (fdv <? market_cap)
  then Critical
  else if (1000 <? price_change) || (times_two market_cap <? fdv)
  then Extreme
  else LowToModerate.

Definition make_verdict : verdict :=
  {| risk := risk_calculation;
     liquidity_usd := liquidity;
     liquidity_level := key_factor_liquidity;
     market_cap_usd := market_cap;
     market_cap_level := key_factor_market_cap;
     price_change_percentage := price_change;
     price_change_level := key_factor_price_change;
     fdv_vs_market_cap := key_factor_fdv |}.
End RiskCalculation.

(** The four reads at the top of the function, then the comparisons.
    All four values meet a comparison with a number before the first
    [return] (the key-factor blocks), so a value that is not a number
    raises [TypeError] whatever the tier would have been. *)
Definition analyze_rug_pull_risk (preferred_pair : json) : outcome verdict :=
  liquidity_d ← Py.get preferred_pair "liquidity" (JObj ∅);
  liquidity ← Py.get liquidity_d "usd" (JNum 0);
  price_change_d ← Py.get preferred_pair "priceChange" (JObj ∅);
  h24 ← Py.get price_change_d "h24" (JNum 0);
  price_change ← Py.get price_change_d "percent" h24;
  market_cap ← Py.get preferred_pair "marketCap" (JNum 0);
  fdv ← Py.get preferred_pair "fdv" (JNum 0);
  liquidity ← Py.number liquidity;
  market_cap ← Py.number market_cap;
  price_change ← Py.number price_change;
  fdv ← Py.number fdv;
  Return (make_verdict liquidity price_change market_cap fdv).

(** ** Regular expressions ([re.match]) *)

Module Re.

(** The fragment of the pattern language the program uses. *)
Inductive regex :=
| Bol                                     (* ^ *)
| Eol                                     (* $ *)
| Chr (c : ascii)                         (* a literal character *)
| Class (ranges : list (ascii * ascii))   (* [a-fA-F0-9] *)
| Cat (r1 r2 : regex)                     (* r1 r2 *)
| Alt (r1 r2 : regex)                     (* r1|r2 *)
| Rep (r : regex) (lo hi : nat).          (* r{lo,hi} *)

Definition in_range (c : ascii) (rg : ascii * ascii) : bool :=
  (N_of_ascii rg.1 <=? N_of_ascii c)%N && (N_of_ascii c <=? N_of_ascii rg.2)%N.

Definition in_class (ranges : list (ascii * ascii)) (c : ascii) : bool :=
  existsb (in_range c) ranges.

(** A position in the subject: how many characters lie behind it and
    the characters ahead. *)
Definition position : Type := nat * list ascii.

Definition newline : ascii := "010"%char.

(** [r{lo,hi}]: between [lo] and [hi] rounds of [step], longest first. *)
Fixpoint iterate (step : position → list position) (lo hi : nat)
    (p : position) : list position :=
  match hi with
  | 0 => []
  | S hi' => step p ≫= iterate step (pred lo) hi'
  end ++ (if lo is 0 then [p] else []).

(** Every position at which a match of [r] starting at [p] can end.
    Without [re.MULTILINE], [^] holds at the start of the subject only
    and [$] at its end or just before a newline that ends it. *)
Fixpoint run (r : regex) (p : position) : list position :=
  match r with
  | Bol => if p.1 is 0 then [p] else []
  | Eol => match p.2 with
           | [] => [p]
           | [c] => if Ascii.eqb c newline then [p] else []
           | _ => []
           end
  | Chr c => match p.2 with
             | a :: rest => if Ascii.eqb a c then [(S p.1, rest)] else []
             | [] => []
             end
  | Class ranges => match p.2 with
                    | a :: rest => if in_class ranges a then [(S p.1, rest)] else []
                    | [] => []
                    end
  | Cat r1 r2 => run r1 p ≫= run r2
  | Alt r1 r2 => run r1 p ++ run r2 p
  | Rep r lo hi => iterate (run r) lo hi p
  end.

(** [re.match(pattern, subject)] as a truth value. *)
Definition matches (pattern : regex) (subject : string) : bool :=
  match run pattern (0, String.list_ascii_of_string subject) with
  | [] => false
  | _ :: _ => true
  end.

End Re.

Import Re.

Definition hex_digit : regex :=
  Class [("a", "f"); ("A", "F"); ("0", "9")]%char.

Definition base58_like : regex :=
  Class [("1", "9"); ("A", "H"); ("J", "N"); ("P", "Z"); ("a", "k"); ("m", "z")]%char.

Definition alphanumeric : regex :=
  Class [("a", "z"); ("A", "Z"); ("0", "9")]%char.

(** [^0x[a-fA-F0-9]{40}$] *)
Definition ethereum_pattern : regex :=
  Cat Bol (Cat (Chr "0") (Cat (Chr "x") (Cat (Rep hex_digit 40 40) Eol))).

(** [^[1-9A-HJ-NP-Za-km-z]{32,44}$] *)
Definition solana_pattern : regex :=
  Cat Bol (Cat (Rep base58_like 32 44) Eol).

(** [^[a-zA-Z0-9]{42}$] *)
Definition binance_pattern : regex :=
  Cat Bol (Cat (Rep alphanumeric 42 42) Eol).

(** The fourth branch repeats the first pattern. *)
Definition polygon_pattern : regex :=
  Cat Bol (Cat (Chr "0") (Cat (Chr "x") (Cat (Rep hex_digit 40 40) Eol))).

(** [^0x[a-fA-F0-9]{40}$|^[1-9A-HJ-NP-Za-km-z]{32,44}$] *)
Definition address_format : regex :=
  Alt (Cat Bol (Cat (Chr "0") (Cat (Chr "x") (Cat (Rep hex_digit 40 40) Eol))))
      (Cat Bol (Cat (Rep base58_like 32 44) Eol)).

Definition detect_blockchain (token_address : string) : string :=
  if Re.matches ethereum_pattern token_address then "Ethereum"
  else if Re.matches solana_pattern token_address then "Solana"
  else if Re.matches binance_pattern token_address then "Binance"
  else if Re.matches polygon_pattern token_address then "Polygon"
  else "Unknown".

(** ** [sorted(pairs, key=..., reverse=True)] *)

Module Sorted.
Section Keyed.
Context {A : Type}.

(** One step of a stable descending sort: the new item comes from
    earlier in the input than everything in [l], so it goes in front
    of the first item whose key is not larger. *)
Fixpoint insert (k : Q) (x : A) (l : list (Q * A)) : list (Q * A) :=
  match l with
  | [] => [(k, x)]
  | (k', y) :: l' =>
      if (k' <=? k)%Q then (k, x) :: (k', y) :: l'
      else (k', y) :: insert k x l'
  end.

Definition descending (keyed : list (Q * A)) : list (Q * A) :=
  foldr (λ kx acc, insert kx.1 kx.2 acc) [] keyed.

(** The keys have all been computed when sorting starts.  A list of
    fewer than two items is returned without any comparison.  Longer
    lists compare keys with [<]: numbers order among themselves, and
    a key of another class met by a number raises [TypeError].
    The model orders the finite numbers.  (Python also orders [str]
    with [str] and [list] with [list], the infinities with the
    numbers, and NaN keys in an order its algorithm fixes; a list of
    two or more with such a key is reported as [TypeError] here.) *)
Definition sorted_reverse (keys : list json) (items : list A)
    : outcome (list A) :=
  match items with
  | [] | [_] => Return items
  | _ =>
      numbers ← mapM Py.rational keys;
      Return ((descending (zip numbers items)).*2)
  end.
End Keyed.
End Sorted.

(** ** The pair selector ([get_preferred_dex]) *)

(** [lambda x: x.get("liquidity", {}).get("usd", 0)] *)
Definition liquidity_key (x : json) : outcome json :=
  liquidity ← Py.get x "liquidity" (JObj ∅);
  Py.get liquidity "usd" (JNum 0).

(** The argument is what [data.get("pairs", [])] gave: a list as a rule,
    [None] when the service answers [null].  A non-empty [str] or [dict]
    iterates over [str] items, which have no [get]; a number or [True]
    is not iterable. *)
Definition get_preferred_dex (pairs : json) : outcome json :=
  if negb (Py.truthy pairs) then Return (JObj ∅)
  else
    match pairs with
    | JArr items =>
        keys ← mapM liquidity_key items;
        sorted_pairs ← Sorted.sorted_reverse keys items;
        match sorted_pairs with
        | first :: _ => Return first
        | [] => Return (JObj ∅)
        end
    | JStr _ | JObj _ => Raise AttributeError
    | _ => Raise TypeError
    end.

(** The same function over a store of objects, where a list holds
    references and two references to one object are the same pair. *)
Module Store.

Definition loc := positive.

Inductive object :=
| ListObj (items : list loc)
| Obj (v : json).

Abbreviation heap := (gmap loc object).

(** A new object never takes the place of an existing one. *)
Definition alloc (o : object) (h : heap) : loc * heap :=
  let l := fresh (dom h) in (l, <[l := o]> h).

Definition key_of (h : heap) (x : loc) : outcome json :=
  match h !! x with
  | Some (Obj v) => liquidity_key v
  | Some (ListObj _) => Raise AttributeError
  | None => Raise (OtherException "dangling reference")
  end.

Definition get_preferred_dex (pairs : loc) (h : heap) : outcome loc * heap :=
  match h !! pairs with
  | Some (ListObj []) =>
      let '(empty, h') := alloc (Obj (JObj ∅)) h in (Return empty, h')
  | Some (ListObj items) =>
      match keys ← mapM (key_of h) items; Sorted.sorted_reverse keys items with
      | Return sorted_items =>
          let '(sorted_pairs, h') := alloc (ListObj sorted_items) h in
          match sorted_items with
          | first :: _ => (Return first, h')
          | [] => let '(empty, h'') := alloc (Obj (JObj ∅)) h' in (Return empty, h'')
          end
      | Raise e => (Raise e, h)
      end
  | Some (Obj v) =>
      if negb (Py.truthy v) then
        let '(empty, h') := alloc (Obj (JObj ∅)) h in (Return empty, h')
      else
        match v with
        | JStr _ | JObj _ => (Raise AttributeError, h)
        | _ => (Raise TypeError, h)
        end
  | None => (Raise (OtherException "dangling reference"), h)
  end.

(** What a reference stands for, read out of the store. *)
Definition content (h : heap) (l : loc) : option json :=
  match h !! l with
  | Some (Obj v) => Some v
  | Some (ListObj items) =>
      JArr <$> mapM (λ x, match h !! x with Some (Obj v) => Some v | _ => None end) items
  | None => None
  end.

End Store.

(** ** [str.strip()] *)

(** A Python [str] is a sequence of code points; the model holds its
    UTF-8 bytes.  The characters [str.isspace] accepts are U+0009-000D,
    U+001C-0020, U+0085, U+00A0, U+1680, U+2000-200A, U+2028, U+2029,
    U+202F, U+205F and U+3000, of one, two or three bytes each. *)
Module Strip.

Definition byte (c : ascii) : N := N_of_ascii c.

Definition space1 (a : ascii) : bool :=
  ((9 <=? byte a) && (byte a <=? 13) || (28 <=? byte a) && (byte a <=? 32))%N.

Definition space2 (a b : ascii) : bool :=
  ((byte a =? 194) && ((byte b =? 133) || (byte b =? 160)))%N.

Definition space3 (a b c : ascii) : bool :=
  ((byte a =? 225) && (byte b =? 154) && (byte c =? 128)
   || (byte a =? 226) && (byte b =? 128)
      && ((128 <=? byte c) && (byte c <=? 138)
          || (byte c =? 168) || (byte c =? 169) || (byte c =? 175))
   || (byte a =? 226) && (byte b =? 129) && (byte c =? 159)
   || (byte a =? 227) && (byte b =? 128) && (byte c =? 128))%N.

(** Drop white space from the front.  [backwards] reads a reversed
    string, whose multi-byte characters come last byte first. *)
Fixpoint drop_space (backwards : bool) (s : list ascii) : list ascii :=
  match s with
  | [] => []
  | a :: s1 =>
      if space1 a then drop_space backwards s1
      else
        match s1 with
        | [] => s
        | b :: s2 =>
            if (if backwards then space2 b a else space2 a b)
            then drop_space backwards s2
            else
              match s2 with
              | [] => s
              | c :: s3 =>
                  if (if backwards then space3 c b a else space3 a b c)
                  then drop_space backwards s3
                  else s
              end
        end
  end.

Definition strip (s : string) : string :=
  String.string_of_list_ascii
    (rev (drop_space true (rev (drop_space false (String.list_ascii_of_string s))))).

End Strip.

(** ** The mention counter ([fetch_social_media_mentions]) *)

Inductive log_record :=
| LogError (message : string) (e : exn).

Section Mentions.
Context {tweet post : Type}.

(** [twitter_client.search_recent_tweets(query=..., max_results=...)]:
    the [data] of the response ([None] or a list), or the exception
    the call raised. *)
Variable search_recent_tweets : string → nat → outcome (option (list tweet)).

(** [reddit_client.subreddit("all").search(..., limit=...)] is
    consumed by a [for] loop: the posts the iterator yields, and the
    exception that ended the iteration, if one did. *)
Variable subreddit_all_search : string → nat → list post * option exn.

Definition fetch_social_media_mentions (token_address : string)
    : gmap string nat * list log_record :=
  let mentions_count : gmap string nat := <["Twitter" := 0]> (<["Reddit" := 0]> ∅) in
  let '(mentions_count, twitter_log) :=
    match search_recent_tweets token_address 5 with
    | Return data =>
        (<["Twitter" := match data with
                        | Some (t :: ts) => length (t :: ts)
                        | _ => 0
                        end]> mentions_count, [])
    | Raise e => (mentions_count, [LogError "Error fetching Twitter mentions" e])
    end in
  let '(posts, failure) := subreddit_all_search token_address 5 in
  let mentions_count :=
    foldl (λ counts _, alter S "Reddit" counts) mentions_count posts in
  let reddit_log :=
    match failure with
    | Some e => [LogError "Error fetching Reddit mentions" e]
    | None => []
    end in
  (mentions_count, (twitter_log ++ reddit_log)%list).
End Mentions.

(** ** The message handler ([handle_token_address]) *)

Inductive pipeline_step :=
| FetchDexscreenerData
| GetPreferredDex
| AnalyzeRugPullRisk
| FetchSocialMediaMentions.

(** What [reply_text] is given.  The reports carry the values their
    text is formatted from. *)
Inductive message :=
| InvalidAddressFormat
| Analyzing (token_address : string)
| AnalysisReport (token_address : string)
    (dex price liquidity market_cap fdv : json) (price_change : option json)
    (url : json) (rug_pull_risk : verdict) (mentions : gmap string nat)
| CheckingRugPull (token_address : string)
| RugPullReport (token_address : string) (rug_pull_risk : verdict)
    (dex price liquidity market_cap : json) (mentions : gmap string nat).

Inductive event :=
| ReplyText (m : message)
| Call (step : pipeline_step)
| Log (r : log_record).

Record session := {
  user_data : gmap string string;
  events : list event
}.

(** Handlers run in a session, may raise, and leave a trail of events. *)
Definition io (A : Type) : Type := session → outcome A * session.

#[global] Instance io_ret : MRet io := λ A a s, (Return a, s).
#[global] Instance io_bind : MBind io := λ A B k m s,
  match m s with
  | (Return a, s') => k a s'
  | (Raise e, s') => (Raise e, s')
  end.

Definition emit (evs : list event) : io unit := λ s,
  (Return (), {| user_data := user_data s; events := (events s ++ evs)%list |}).

Definition lift {A} (m : outcome A) : io A := λ s, (m, s).

Definition store_user_data (key value : string) : io unit := λ s,
  (Return (), {| user_data := <[key := value]> (user_data s); events := events s |}).

Definition read_user_data (key : string) : io (option string) := λ s,
  (Return (user_data s !! key), s).

Section Bot.
Context {tweet post : Type}.

(** [requests.get(url)], [raise_for_status()] and [response.json()]:
    the decoded body, or the exception one of the three raised. *)
Variable requests_get_json : string → outcome json.
Variable search_recent_tweets : string → nat → outcome (option (list tweet)).
Variable subreddit_all_search : string → nat → list post * option exn.

Definition fetch_dexscreener_data (token_address : string)
    : json * list log_record :=
  let url := "https://api.dexscreener.com/latest/dex/tokens/" +:+ token_address in
  match data ← requests_get_json url; Py.get data "pairs" (JArr []) with
  | Return pairs => (pairs, [])
  | Raise e => (JArr [], [LogError "Error fetching data from Dexscreener" e])
  end.

Definition call_fetch_dexscreener_data (token_address : string) : io json :=
  emit [Call FetchDexscreenerData];;
  let '(pairs, log) := fetch_dexscreener_data token_address in
  emit (Log <$> log);;
  mret pairs.

Definition call_get_preferred_dex (pairs : json) : io json :=
  emit [Call GetPreferredDex];; lift (get_preferred_dex pairs).

Definition call_analyze_rug_pull_risk (preferred_pair : json) : io verdict :=
  emit [Call AnalyzeRugPullRisk];; lift (analyze_rug_pull_risk preferred_pair).

Definition call_fetch_social_media_mentions (token_address : string)
    : io (gmap string nat) :=
  emit [Call FetchSocialMediaMentions];;
  let '(counts, log) :=
    fetch_social_media_mentions search_recent_tweets subreddit_all_search
      token_address in
  emit (Log <$> log);;
  mret counts.

(** [isinstance(x, (int, float))]; [bool] is a subclass of [int]. *)
Definition is_int_or_float (v : json) : bool :=
  match v with JNum _ | JFloat _ | JBool _ => true | _ => false end.

Definition price_change_h24 (preferred_pair : json) : outcome (option json) :=
  price_change ← Py.get preferred_pair "priceChange" (JObj ∅);
  h24 ← Py.get price_change "h24" JNull;
  if is_int_or_float h24 then
    price_change ← Py.get preferred_pair "priceChange" (JObj ∅);
    h24 ← Py.get price_change "h24" (JStr "Not Available");
    Return (Some h24)
  else Return None.

Definition not_available : json := JStr "Not Available".

(** The definition in force: the later of the two [def]s of this
    name, which is the one [main] registers. *)
Definition handle_token_address (text : string) : io unit :=
  let token_address := Strip.strip text in
  if negb (Re.matches address_format token_address) then
    emit [ReplyText InvalidAddressFormat]
  else
    store_user_data "token_address" token_address;;
    selected_option ← read_user_data "selected_option";
    if bool_decide (selected_option = Some "analyze_token") then
      emit [ReplyText (Analyzing token_address)];;
      dex_pairs ← call_fetch_dexscreener_data token_address;
      preferred_pair ← call_get_preferred_dex dex_pairs;
      dex ← lift (Py.get preferred_pair "dexId" (JStr "N/A"));
      price ← lift (Py.get preferred_pair "priceUsd" not_available);
      liquidity ← lift (d ← Py.get preferred_pair "liquidity" (JObj ∅);
                        Py.get d "usd" not_available);
      market_cap ← lift (Py.get preferred_pair "marketCap" not_available);
      fdv ← lift (Py.get preferred_pair "fdv" not_available);
      price_change ← lift (price_change_h24 preferred_pair);
      url ← lift (Py.get preferred_pair "url" (JStr "N/A"));
      rug_pull_risk ← call_analyze_rug_pull_risk preferred_pair;
      mentions ← call_fetch_social_media_mentions token_address;
      emit [ReplyText (AnalysisReport token_address dex price liquidity
                         market_cap fdv price_change url rug_pull_risk mentions)]
    else if bool_decide (selected_option = Some "rug_pull_scan") then
      emit [ReplyText (CheckingRugPull token_address)];;
      dex_pairs ← call_fetch_dexscreener_data token_address;
      preferred_pair ← call_get_preferred_dex dex_pairs;
      rug_pull_risk ← call_analyze_rug_pull_risk preferred_pair;
      dex ← lift (Py.get preferred_pair "dexId" (JStr "N/A"));
      price ← lift (Py.get preferred_pair "priceUsd" not_available);
      liquidity ← lift (d ← Py.get preferred_pair "liquidity" (JObj ∅);
                        Py.get d "usd" not_available);
      market_cap ← lift (Py.get preferred_pair "marketCap" not_available);
      mentions ← call_fetch_social_media_mentions token_address;
      emit [ReplyText (RugPullReport token_address rug_pull_risk dex price
                         liquidity market_cap mentions)]
    else mret ().
End Bot.

(** ** The specification's own words

    These definitions follow the specification text (its data model and
    its rule tables), not the program; the theorems below compare the
    two. *)

Module Spec.

(** A TradingPair's numeric attributes, each of which may be absent. *)
Record TradingPair := {
  liquidityUsd : option Q;
  marketCapUsd : option Q;
  fullyDilutedValuationUsd : option Q;
  priceChangePercent24h : option Q
}.

(** "default 0 when absent" *)
Definition or_zero (attribute : option Q) : Q := default 0%Q attribute.

(** The 4-tuple the classifier works on. *)
Record numbers := {
  liquidity : Q;
  marketCap : Q;
  priceChange : Q;
  fdv : Q
}.

Definition numbers_of (tp : TradingPair) : numbers :=
  {| liquidity := or_zero (liquidityUsd tp);
     marketCap := or_zero (marketCapUsd tp);
     priceChange := or_zero (priceChangePercent24h tp);
     fdv := or_zero (fullyDilutedValuationUsd tp) |}.

(** How a pair object of the market-data service carries an
    attribute: the key is missing, or it holds a number, an int or a
    finite float. *)
Definition carries (entry : option json) (attribute : option Q) : Prop :=
  match entry, attribute with
  | None, None => True
  | Some (JNum q), Some q' => q = q'
  | Some (JFloat (Finite q)), Some q' => q = q'
  | _, _ => False
  end.

(** An attribute one level down ([liquidity.usd]). *)
Definition carries_in (fields : gmap string json) (outer inner : string)
    (attribute : option Q) : Prop :=
  match fields !! outer with
  | None => attribute = None
  | Some (JObj sub) => carries (sub !! inner) attribute
  | Some _ => False
  end.

(** [priceChange.h24 (or .percent)] *)
Definition carries_price_change (fields : gmap string json)
    (attribute : option Q) : Prop :=
  match fields !! "priceChange" with
  | None => attribute = None
  | Some (JObj sub) =>
      match sub !! "percent" with
      | Some percent => carries (Some percent) attribute
      | None => carries (sub !! "h24") attribute
      end
  | Some _ => False
  end.

Definition represents (pair : json) (tp : TradingPair) : Prop :=
  match pair with
  | JObj fields =>
      carries_in fields "liquidity" "usd" (liquidityUsd tp)
      ∧ carries (fields !! "marketCap") (marketCapUsd tp)
      ∧ carries (fields !! "fdv") (fullyDilutedValuationUsd tp)
      ∧ carries_price_change fields (priceChangePercent24h tp)
  | _ => False
  end.

(** The pair's [liquidityUsd], 0 when absent. *)
Definition liquidity_of (pair : json) (q : Q) : Prop :=
  match pair with
  | JObj fields =>
      ∃ attribute, carries_in fields "liquidity" "usd" attribute
                   ∧ q = or_zero attribute
  | _ => False
  end.

Section Rules.
Local Open Scope Q_scope.

Definition rule_low (x : numbers) : Prop :=
  liquidity x > 25000 ∧ marketCap x > 250000 ∧ priceChange x <= 50.

Definition rule_moderate (x : numbers) : Prop :=
  (10000 <= liquidity x ∧ liquidity x <= 20000)
  ∧ (priceChange x > 50 ∨ marketCap x < 100000).

Definition rule_high (x : numbers) : Prop :=
  liquidity x < 10000 ∨ priceChange x <= 0.

Definition rule_critical (x : numbers) : Prop :=
  liquidity x < 5000 ∨ fdv x < marketCap x.

Definition rule_extreme (x : numbers) : Prop :=
  priceChange x > 1000 ∨ fdv x > marketCap x * 2.
End Rules.

(** The tier table, in the order of the specification. *)
Definition tier_rules : list ((numbers → Prop) * tier) :=
  [ (rule_low, Low); (rule_moderate, Moderate); (rule_high, High);
    (rule_critical, Critical); (rule_extreme, Extreme) ].

(** "evaluated in this fixed order, first match wins", with the
    fallback tier when no rule matches. *)
Inductive first_match (x : numbers)
    : list ((numbers → Prop) * tier) → tier → Prop :=
| fallback : first_match x [] LowToModerate
| match_here rule t rest : rule x → first_match x ((rule, t) :: rest) t
| match_later rule t rest t' :
    ¬ rule x → first_match x rest t' → first_match x ((rule, t) :: rest) t'.

(** Character shapes of the address families. *)
Definition between (lo hi c : ascii) : Prop :=
  (N_of_ascii lo ≤ N_of_ascii c ∧ N_of_ascii c ≤ N_of_ascii hi)%N.

Definition is_digit (c : ascii) : Prop := between "0" "9" c.
Definition is_letter (c : ascii) : Prop := between "a" "z" c ∨ between "A" "Z" c.

Definition is_hex (c : ascii) : Prop :=
  is_digit c ∨ between "a" "f" c ∨ between "A" "F" c.

(** "base58-like chars excluding 0, O, I, l" *)
Definition is_base58_like (c : ascii) : Prop :=
  (is_digit c ∨ is_letter c) ∧ c ∉ ["0"; "O"; "I"; "l"]%char.

(** "0x + 40 hex chars" *)
Definition ethereum_shape (address : string) : Prop :=
  ∃ digits : list ascii,
    String.list_ascii_of_string address = ("0" :: "x" :: digits)%char
    ∧ length digits = 40
    ∧ Forall is_hex digits.

(** "32-44 base58-like chars" *)
Definition solana_shape (address : string) : Prop :=
  (32 ≤ String.length address ≤ 44)%nat
  ∧ Forall is_base58_like (String.list_ascii_of_string address).

End Spec.

(** ** Auxiliary predicates *)

(** Where [$] holds: at the end of the subject, or before a newline
    that ends it. *)
Definition line_end (tail : list ascii) : Prop := tail = [] ∨ tail = [newline].

Definition ends_in_newline (subject : string) : Prop :=
  ∃ init, String.list_ascii_of_string subject = init ++ [newline].

(** Entry [i] holds the largest key, and is the first entry to do so. *)
Definition first_maximum {A} (keyed : list (Q * A)) (i : nat) (kx : Q * A) : Prop :=
  keyed !! i = Some kx
  ∧ (∀ j ky, keyed !! j = Some ky → (ky.1 <= kx.1)%Q)
  ∧ (∀ j ky, (j < i)%nat → keyed !! j = Some ky → (ky.1 < kx.1)%Q).

(** [market_cap * 2] is the exact product on this pair: its market cap
    is not a float of magnitude 2^1023 or more. *)
Definition doubles_exactly (pair : json) : Prop :=
  ∀ q, Py.get pair "marketCap" (JNum 0) = Return (JFloat (Finite q)) →
       Py.overflows q = false.

Definition is_nan (x : float) : bool :=
  match x with NaN => true | _ => false end.

(** Two keyed entries with the same key and related items. *)
Definition same_keys {X Y} (R : X → Y → Prop) (a : Q * X) (b : Q * Y) : Prop :=
  a.1 = b.1 ∧ R a.2 b.2.

(** The pipeline steps called in a trail of events. *)
Definition calls_of (trail : list event) : list pipeline_step :=
  omap (λ e, match e with Call step => Some step | _ => None end) trail.

(** What was sent to the user in a trail of events. *)
Definition replies_of (trail : list event) : list message :=
  omap (λ e, match e with ReplyText m => Some m | _ => None end) trail.

(** ** Sample inputs *)

(** A pair object with the given top-level entries. *)
Definition pair_object (entries : list (string * json)) : json :=
  JObj (list_to_map entries).

Definition usd (q : Q) : json := pair_object [("usd", JNum q)].
Definition h24 (q : Q) : json := pair_object [("h24", JNum q)].

Definition healthy_attributes : Spec.TradingPair :=
  {| Spec.liquidityUsd := Some 30000%Q;
     Spec.marketCapUsd := Some 300000%Q;
     Spec.fullyDilutedValuationUsd := None;
     Spec.priceChangePercent24h := Some 10%Q |}.

(** Liquidity 30000, market cap 300000, 24h price change 10, all
    sent as floats. *)
Definition healthy_float_pair : json :=
  pair_object [("liquidity", pair_object [("usd", JFloat (Finite 30000))]);
               ("marketCap", JFloat (Finite 300000));
               ("priceChange", pair_object [("h24", JFloat (Finite 10))])].

(** Liquidity 3000, market cap 50000, FDV 60000. *)
Definition thin_pair : json :=
  pair_object [("liquidity", usd 3000); ("marketCap", JNum 50000);
               ("fdv", JNum 60000)].

Definition thin_attributes : Spec.TradingPair :=
  {| Spec.liquidityUsd := Some 3000%Q;
     Spec.marketCapUsd := Some 50000%Q;
     Spec.fullyDilutedValuationUsd := Some 60000%Q;
     Spec.priceChangePercent24h := None |}.

(** The attributes of the empty pair. *)
Definition no_attributes : Spec.TradingPair :=
  {| Spec.liquidityUsd := None;
     Spec.marketCapUsd := None;
     Spec.fullyDilutedValuationUsd := None;
     Spec.priceChangePercent24h := None |}.

(** Liquidity 15000, market cap 80000, 24h price change 60. *)
Definition shaky_pair : json :=
  pair_object [("liquidity", usd 15000); ("marketCap", JNum 80000);
               ("priceChange", h24 60)].

Definition shaky_attributes : Spec.TradingPair :=
  {| Spec.liquidityUsd := Some 15000%Q;
     Spec.marketCapUsd := Some 80000%Q;
     Spec.fullyDilutedValuationUsd := None;
     Spec.priceChangePercent24h := Some 60%Q |}.

(** Liquidity 30000, a float market cap of 2^1023, a 24h price change
    of 60 and an int FDV of 2^1025, which is more than twice the market
    cap. *)
Definition overflow_pair : json :=
  pair_object [("liquidity", usd 30000);
               ("marketCap", JFloat (Finite Py.overflow_bound));
               ("priceChange", h24 60);
               ("fdv", JNum (Py.overflow_bound * 4))].

Definition overflow_attributes : Spec.TradingPair :=
  {| Spec.liquidityUsd := Some 30000%Q;
     Spec.marketCapUsd := Some Py.overflow_bound;
     Spec.fullyDilutedValuationUsd := Some (Py.overflow_bound * 4)%Q;
     Spec.priceChangePercent24h := Some 60%Q |}.

(** Liquidity NaN, 24h price change 10. *)
Definition nan_pair : json :=
  pair_object [("liquidity", pair_object [("usd", JFloat NaN)]);
               ("priceChange", h24 10)].

Definition sample_ethereum_address : string :=
  "0xdAC17F958D2ee523a2206206994597C13D831ec7".

Definition sample_solana_address : string :=
  "So11111111111111111111111111111111111111112".

Definition venue (dex : string) (liquidity : Q) : json :=
  pair_object [("dexId", JStr dex); ("liquidity", usd liquidity)].

(** Four venues: the second and third tie for the largest liquidity and
    the fourth reports none. *)
Definition sample_pairs : list json :=
  [ venue "uniswap" 500; venue "raydium" 900; venue "orca" 900;
    pair_object [("dexId", JStr "meteora")] ].

(** A store with one collection of two pairs. *)
Definition sample_store : gmap Store.loc Store.object :=
  <[1%positive := Store.ListObj [2%positive; 3%positive]]>
    (<[2%positive := Store.Obj (venue "uniswap" 500)]>
       (<[3%positive := Store.Obj (venue "raydium" 900)]> ∅)).

(** A world in which every service is down. *)
Definition offline_requests (url : string) : outcome json :=
  Raise (OtherException "connection refused").

Definition offline_twitter (query : string) (max_results : nat)
    : outcome (option (list unit)) :=
  Raise (OtherException "connection refused").

Definition offline_reddit (query : string) (limit : nat)
    : list unit * option exn :=
  ([], Some (OtherException "connection refused")).

(** Twitter answers with three tweets. *)
Definition three_tweets (query : string) (max_results : nat)
    : outcome (option (list unit)) :=
  Return (Some [(); (); ()]).

(** Reddit yields two posts and then fails. *)
Definition reddit_fails_midway (query : string) (limit : nat)
    : list unit * option exn :=
  ([(); ()], Some (OtherException "server error")).

Definition fresh_session : session := {| user_data := ∅; events := [] |}.

(** ** Callback-query handlers *)

(** What [query.edit_message_text] is given. *)
Inductive query_text :=
| AskTokenAddress
| AskRugPullAddress
| NoTopTokens
| TopTokens (addresses : list json)
| FetchingFullAnalysis
| NoTokenAddress
| NoValidData
| NoPreferredDex
| FullAnalysisReport (token_address : string)
    (dex price liquidity market_cap fdv : json) (price_change : option json)
    (rug_pull_risk : verdict) (mentions : gmap string nat)
| WelcomeBack.

(** What [fetch_boosted_tokens] writes to the error log. *)
Inductive boost_log :=
| UnexpectedResponseFormat (data : json)
| RequestFailed (e : exn).

Inductive query_event :=
| Answer
| EditMessageText (m : query_text)
| Step (s : pipeline_step)
| Logged (r : log_record)
| LoggedBoost (r : boost_log).

(** A callback query is handled in the same per-user data as a message;
    its trail holds what was sent through the query. *)
Record query_session := {
  query_user_data : gmap string string;
  query_events : list query_event
}.

Definition query_io (A : Type) : Type := query_session → outcome A * query_session.

#[global] Instance query_io_ret : MRet query_io := λ A a s, (Return a, s).
#[global] Instance query_io_bind : MBind query_io := λ A B k m s,
  match m s with
  | (Return a, s') => k a s'
  | (Raise e, s') => (Raise e, s')
  end.

Definition query_emit (evs : list query_event) : query_io unit := λ s,
  (Return (), {| query_user_data := query_user_data s;
                 query_events := (query_events s ++ evs)%list |}).

Definition query_lift {A} (m : outcome A) : query_io A := λ s, (m, s).

Definition query_store (key value : string) : query_io unit := λ s,
  (Return (), {| query_user_data := <[key := value]> (query_user_data s);
                 query_events := query_events s |}).

Definition query_read (key : string) : query_io (option string) := λ s,
  (Return (query_user_data s !! key), s).

(** ["Analyze Token"] *)
Definition analyze_token : query_io unit :=
  query_emit [Answer];;
  query_emit [EditMessageText AskTokenAddress];;
  query_store "selected_option" "analyze_token".

(** ["Rug Pull Scanner"] *)
Definition rug_pull_scan : query_io unit :=
  query_emit [Answer];;
  query_emit [EditMessageText AskRugPullAddress];;
  query_store "selected_option" "rug_pull_scan".

Definition go_back_to_menu : query_io unit :=
  query_emit [Answer];;
  query_emit [EditMessageText WelcomeBack].

Section Boosts.
(** The body of a successful GET, or the exception raised. *)
Variable requests_get_json : string → outcome json.

(** Which of the other exception classes derive from
    [requests.exceptions.RequestException]; the built-in
    [AttributeError], [TypeError] and [IndexError] do not. *)
Variable derives_from_request_exception : string → bool.

(** [str(x)] for an [x] that is not a [str]. *)
Variable str_of_other : json → string.

Definition is_request_exception (e : exn) : bool :=
  match e with
  | OtherException what => derives_from_request_exception what
  | _ => false
  end.

(** What [{token_link}] puts into an f-string. *)
Definition format_value (v : json) : string :=
  match v with
  | JStr s => s
  | _ => str_of_other v
  end.

(** [f"<a href='{token_link}'>{token_link}</a>"] *)
Definition anchor (token_link : json) : string :=
  "<a href='" +:+ format_value token_link +:+ "'>"
  +:+ format_value token_link +:+ "</a>".

(** One round of the loop over [data[:10]]: the entry to append, if
    the token passes the test. *)
Definition boosted_entry (token : json) : outcome (option json) :=
  token_link ← Py.get token "url" (JStr "Not available");
  liquidity ← Py.get token "totalAmount" (JStr "Not available");
  if Py.truthy token_link && Py.truthy liquidity then
    Return (Some (JObj (<["tokenLink" := JStr (anchor token_link)]>
                         (<["liquidity" := liquidity]> ∅))))
  else Return None.

Fixpoint boosted_entries (tokens : list json) : outcome (list json) :=
  match tokens with
  | [] => Return []
  | token :: rest =>
      entry ← boosted_entry token;
      entries ← boosted_entries rest;
      Return (match entry with
              | Some e => e :: entries
              | None => entries
              end)
  end.

(** Only [RequestException] is caught; anything else the body of the
    [try] raises reaches the caller. *)
Definition fetch_boosted_tokens : outcome (list json * list boost_log) :=
  match requests_get_json "https://api.dexscreener.com/token-boosts/latest/v1" with
  | Raise e =>
      if is_request_exception e
      then Return ([], [RequestFailed e])
      else Raise e
  | Return (JArr data) =>
      boosted_tokens ← boosted_entries (take 10 data);
      Return (boosted_tokens, [])
  | Return data => Return ([], [UnexpectedResponseFormat data])
  end.

(** [token.get("address")] for each listed token, in order
    ([enumerate] numbers them from 1). *)
Definition top_tokens : query_io unit :=
  query_emit [Answer];;
  '(tokens, log) ← query_lift fetch_boosted_tokens;
  query_emit (LoggedBoost <$> log);;
  match tokens with
  | [] => query_emit [EditMessageText NoTopTokens]
  | _ :: _ =>
      addresses ← query_lift (mapM (λ token, Py.get token "address" JNull) tokens);
      query_emit [EditMessageText (TopTokens addresses)]
  end.
End Boosts.

Section FullAnalysis.
Context {tweet post : Type}.
Variable requests_get_json : string → outcome json.
Variable search_recent_tweets : string → nat → outcome (option (list tweet)).
Variable subreddit_all_search : string → nat → list post * option exn.

(** [if not token_address]: the key is missing, or holds the empty
    string. *)
Definition no_address (token_address : option string) : bool :=
  match token_address with
  | None => true
  | Some a => String.eqb a ""
  end.

Definition full_token_analysis : query_io unit :=
  query_emit [Answer];;
  query_emit [EditMessageText FetchingFullAnalysis];;
  token_address ← query_read "token_address";
  if no_address token_address then
    query_emit [EditMessageText NoTokenAddress]
  else
    let token_address := default "" token_address in
    query_emit [Step FetchDexscreenerData];;
    let '(dex_pairs, log) := fetch_dexscreener_data requests_get_json token_address in
    query_emit (Logged <$> log);;
    if negb (Py.truthy dex_pairs) then
      query_emit [EditMessageText NoValidData]
    else
      query_emit [Step GetPreferredDex];;
      preferred_pair ← query_lift (get_preferred_dex dex_pairs);
      if negb (Py.truthy preferred_pair) then
        query_emit [EditMessageText NoPreferredDex]
      else
        dex ← query_lift (Py.get preferred_pair "dexId" (JStr "N/A"));
        price ← query_lift (Py.get preferred_pair "priceUsd" not_available);
        liquidity ← query_lift (d ← Py.get preferred_pair "liquidity" (JObj ∅);
                                Py.get d "usd" not_available);
        market_cap ← query_lift (Py.get preferred_pair "marketCap" not_available);
        fdv ← query_lift (Py.get preferred_pair "fdv" not_available);
        price_change ← query_lift (price_change_h24 preferred_pair);
        url ← query_lift (Py.get preferred_pair "url" (JStr "N/A"));
        query_emit [Step AnalyzeRugPullRisk];;
        rug_pull_risk ← query_lift (analyze_rug_pull_risk preferred_pair);
        query_emit [Step FetchSocialMediaMentions];;
        let '(mentions, log) :=
          fetch_social_media_mentions search_recent_tweets subreddit_all_search
            token_address in
        query_emit (Logged <$> log);;
        query_emit [EditMessageText
                      (FullAnalysisReport token_address dex price liquidity
                         market_cap fdv price_change rug_pull_risk mentions)].
End FullAnalysis.

(** ** Buttons and their dispatch ([main]) *)

(** The [callback_data] of the buttons sent with each text. *)
Definition menu_buttons : list string := ["analyze_token"; "rug_pull_scan"; "exit"].

Definition message_buttons (m : message) : list string :=
  match m with
  | InvalidAddressFormat => ["start"]
  | AnalysisReport _ _ _ _ _ _ _ _ _ _ => ["rug_pull_scan"; "go_back_to_menu"]
  | RugPullReport _ _ _ _ _ _ _ => ["full_analysis"; "go_back_to_menu"]
  | Analyzing _ | CheckingRugPull _ => []
  end.

Definition query_text_buttons (m : query_text) : list string :=
  match m with
  | TopTokens _ => ["go_back_to_menu"]
  | FullAnalysisReport _ _ _ _ _ _ _ _ _ => ["rug_pull_scan"; "go_back_to_menu"]
  | WelcomeBack => menu_buttons
  | _ => []
  end.

Inductive callback_handler :=
| HandleAnalyzeToken
| HandleRugPullScan
| HandleTopTokens
| HandleFullTokenAnalysis
| HandleGoBackToMenu.

Fixpoint literal (c : ascii) (rest : list ascii) : regex :=
  match rest with
  | [] => Chr c
  | d :: rest' => Cat (Chr c) (literal d rest')
  end.

(** [^name$] *)
Definition callback_pattern (name : string) : regex :=
  match String.list_ascii_of_string name with
  | [] => Cat Bol Eol
  | c :: rest => Cat Bol (Cat (literal c rest) Eol)
  end.

(** The [CallbackQueryHandler]s in the order [main] adds them. *)
Definition callback_handlers : list (regex * callback_handler) :=
  [ (callback_pattern "analyze_token", HandleAnalyzeToken);
    (callback_pattern "rug_pull_scan", HandleRugPullScan);
    (callback_pattern "top_tokens", HandleTopTokens);
    (callback_pattern "full_analysis", HandleFullTokenAnalysis);
    (callback_pattern "go_back_to_menu", HandleGoBackToMenu) ].

(** A callback query goes to the first handler whose pattern
    [re.match]es its data, and is dropped when none does. *)
Fixpoint first_handler (handlers : list (regex * callback_handler))
    (data : string) : option callback_handler :=
  match handlers with
  | [] => None
  | (pattern, handler) :: rest =>
      if Re.matches pattern data then Some handler
      else first_handler rest data
  end.

Definition dispatch_callback (data : string) : option callback_handler :=
  first_handler callback_handlers data.

Definition handler_name (h : callback_handler) : string :=
  match h with
  | HandleAnalyzeToken => "analyze_token"
  | HandleRugPullScan => "rug_pull_scan"
  | HandleTopTokens => "top_tokens"
  | HandleFullTokenAnalysis => "full_analysis"
  | HandleGoBackToMenu => "go_back_to_menu"
  end.

(** ** More auxiliary predicates and sample inputs *)

(** [isinstance(x, dict)] *)
Definition is_dict (v : json) : bool :=
  match v with JObj _ => true | _ => false end.

Definition is_report (m : message) : bool :=
  match m with
  | AnalysisReport _ _ _ _ _ _ _ _ _ _ | RugPullReport _ _ _ _ _ _ _ => true
  | _ => false
  end.

(** The verdict a report shows. *)
Definition report_verdict (m : message) : option verdict :=
  match m with
  | AnalysisReport _ _ _ _ _ _ _ _ v _ | RugPullReport _ v _ _ _ _ _ => Some v
  | _ => None
  end.

Definition reports_of (trail : list event) : list message :=
  omap (λ e, match e with
             | ReplyText m => if is_report m then Some m else None
             | _ => None
             end) trail.

(** The pipeline steps called in the trail of a callback query. *)
Definition steps_of (trail : list query_event) : list pipeline_step :=
  omap (λ e, match e with Step s => Some s | _ => None end) trail.

(** The texts a callback query's message was edited to. *)
Definition edits_of (trail : list query_event) : list query_text :=
  omap (λ e, match e with EditMessageText m => Some m | _ => None end) trail.

Definition factors_follow_tier (v : verdict) : Prop :=
  match risk v with
  | Low => liquidity_level v = LevelHigh ∧ market_cap_level v = LevelHigh
           ∧ price_change_level v ≠ Volatile
  | Moderate => liquidity_level v = LevelMedium
  | High => liquidity_level v = LevelLow ∨ price_change_level v = Negative
  | Critical => liquidity_level v ≠ LevelLow ∧ price_change_level v ≠ Negative
                ∧ fdv_vs_market_cap v = FdvLower
  | Extreme | LowToModerate =>
      liquidity_level v ≠ LevelLow ∧ price_change_level v ≠ Negative
      ∧ fdv_vs_market_cap v ≠ FdvLower
  end.



(** A handler run that returns [r], leaves the user data alone and
    adds the events [new] to the trail, from whatever session it
    starts. *)
Definition writes {A} (m : io A) (r : outcome A) (new : list event) : Prop :=
  ∀ s, m s = (r, {| user_data := user_data s; events := events s ++ new |}).

(** The same for a callback query. *)
Definition query_writes {A} (m : query_io A) (r : outcome A)
    (new : list query_event) : Prop :=
  ∀ s, m s = (r, {| query_user_data := query_user_data s;
                    query_events := query_events s ++ new |}).

(** The two branches of [handle_token_address] that run the pipeline,
    as they stand in its body. *)
Section Branches.
Context {tweet post : Type}.
Variable requests_get_json : string → outcome json.
Variable search_recent_tweets : string → nat → outcome (option (list tweet)).
Variable subreddit_all_search : string → nat → list post * option exn.

Definition analyze_token_branch (token_address : string) : io unit :=
  emit [ReplyText (Analyzing token_address)];;
  dex_pairs ← call_fetch_dexscreener_data requests_get_json token_address;
  preferred_pair ← call_get_preferred_dex dex_pairs;
  dex ← lift (Py.get preferred_pair "dexId" (JStr "N/A"));
  price ← lift (Py.get preferred_pair "priceUsd" not_available);
  liquidity ← lift (d ← Py.get preferred_pair "liquidity" (JObj ∅);
                    Py.get d "usd" not_available);
  market_cap ← lift (Py.get preferred_pair "marketCap" not_available);
  fdv ← lift (Py.get preferred_pair "fdv" not_available);
  price_change ← lift (price_change_h24 preferred_pair);
  url ← lift (Py.get preferred_pair "url" (JStr "N/A"));
  rug_pull_risk ← call_analyze_rug_pull_risk preferred_pair;
  mentions ← call_fetch_social_media_mentions search_recent_tweets
                subreddit_all_search token_address;
  emit [ReplyText (AnalysisReport token_address dex price liquidity
                     market_cap fdv price_change url rug_pull_risk mentions)].

Definition rug_pull_scan_branch (token_address : string) : io unit :=
  emit [ReplyText (CheckingRugPull token_address)];;
  dex_pairs ← call_fetch_dexscreener_data requests_get_json token_address;
  preferred_pair ← call_get_preferred_dex dex_pairs;
  rug_pull_risk ← call_analyze_rug_pull_risk preferred_pair;
  dex ← lift (Py.get preferred_pair "dexId" (JStr "N/A"));
  price ← lift (Py.get preferred_pair "priceUsd" not_available);
  liquidity ← lift (d ← Py.get preferred_pair "liquidity" (JObj ∅);
                    Py.get d "usd" not_available);
  market_cap ← lift (Py.get preferred_pair "marketCap" not_available);
  mentions ← call_fetch_social_media_mentions search_recent_tweets
                subreddit_all_search token_address;
  emit [ReplyText (RugPullReport token_address rug_pull_risk dex price
                     liquidity market_cap mentions)].
End Branches.

(** How a run of the pipeline may end: with all four steps called in
    order and a report as the last thing sent, or with an exception
    after the second or third step and no report. *)
Definition pipeline_outcome (r : outcome unit) (new : list event) : Prop :=
  match r with
  | Return _ =>
      calls_of new = [FetchDexscreenerData; GetPreferredDex;
                      AnalyzeRugPullRisk; FetchSocialMediaMentions]
      ∧ ∃ m, reports_of new = [m] ∧ last new = Some (ReplyText m)
  | Raise e =>
      (calls_of new = [FetchDexscreenerData; GetPreferredDex]
       ∨ calls_of new = [FetchDexscreenerData; GetPreferredDex;
                         AnalyzeRugPullRisk])
      ∧ reports_of new = []
      ∧ (e = AttributeError ∨ e = TypeError)
  end.

Definition reports_high (r : outcome unit) (new : list event) : Prop :=
  r = Return ()
  ∧ ∃ m v, reports_of new = [m] ∧ report_verdict m = Some v ∧ risk v = High.

(** How a run of [full_token_analysis] with a stored address may end:
    stopped for want of data after the fetch, stopped for want of a
    pair after the selection, with a report for that address after all
    four steps, or with an exception after the second or third step. *)
Definition full_analysis_outcome (a : string) (r : outcome unit)
    (new : list query_event) : Prop :=
  match r with
  | Return _ =>
      (steps_of new = [FetchDexscreenerData]
       ∧ last new = Some (EditMessageText NoValidData))
      ∨ (steps_of new = [FetchDexscreenerData; GetPreferredDex]
         ∧ last new = Some (EditMessageText NoPreferredDex))
      ∨ (steps_of new = [FetchDexscreenerData; GetPreferredDex;
                         AnalyzeRugPullRisk; FetchSocialMediaMentions]
         ∧ ∃ dex price liquidity market_cap fdv change v mentions,
             last new = Some (EditMessageText
                                (FullAnalysisReport a dex price liquidity
                                   market_cap fdv change v mentions)))
  | Raise e =>
      (steps_of new = [FetchDexscreenerData; GetPreferredDex]
       ∨ steps_of new = [FetchDexscreenerData; GetPreferredDex;
                         AnalyzeRugPullRisk])
      ∧ (e = AttributeError ∨ e = TypeError)
  end
  ∧ EditMessageText NoTokenAddress ∉ new.

(** A session in which "Analyze Token" was chosen. *)
Definition analyze_session : session :=
  {| user_data := {["selected_option" := "analyze_token"]}; events := [] |}.

(** An entry of the list [fetch_boosted_tokens] returns: a [dict] with
    the two keys [tokenLink] and [liquidity], the link a string and the
    liquidity a value that counts as true. *)
Definition boosted_token (entry : json) : Prop :=
  ∃ link liquidity,
    entry = JObj (<["tokenLink" := JStr link]> (<["liquidity" := liquidity]> ∅))
    ∧ Py.truthy liquidity = true.

(** A body of three boosted tokens: one complete, one without [url],
    one whose [totalAmount] is 0. *)
Definition sample_boosts : json :=
  JArr [ pair_object [("url", JStr "https://dexscreener.com/solana/abc");
                      ("totalAmount", JNum 500)];
         pair_object [("totalAmount", JNum 20)];
         pair_object [("url", JStr "https://dexscreener.com/base/def");
                      ("totalAmount", JNum 0)] ].

Definition boosts_service (url : string) : outcome json := Return sample_boosts.

(** A body whose second token is not a [dict]. *)
Definition broken_boosts_service (url : string) : outcome json :=
  Return (JArr [pair_object [("url", JStr "https://dexscreener.com/solana/abc")];
                JNull]).

Definition no_request_exceptions (what : string) : bool := false.
Definition plain_str (v : json) : string := "?".

(** The address followed by one newline. *)
Definition with_newline (address : string) : string :=
  address +:+ String newline "".

(** "42 alphanumeric chars" with at least one of the characters the
    Solana pattern leaves out. *)
Definition binance_shape (body : list ascii) : Prop :=
  length body = 42
  ∧ Forall (λ c, Spec.is_digit c ∨ Spec.is_letter c) body
  ∧ Exists (λ c, c ∈ ["0"; "O"; "I"; "l"]%char) body.

(** [s] does not start with a white-space character ([backwards]: a
    reversed string does not). *)
Definition starts_clean (backwards : bool) (s : list ascii) : bool :=
  match s with
  | [] => true
  | a :: s1 =>
      negb (Strip.space1 a)
      && match s1 with
         | [] => true
         | b :: s2 =>
             negb (if backwards then Strip.space2 b a else Strip.space2 a b)
             && match s2 with
                | [] => true
                | c :: _ =>
                    negb (if backwards then Strip.space3 c b a
                          else Strip.space3 a b c)
                end
         end
  end.

(** The source raised. *)
Definition raised {A} (r : outcome A) : bool :=
  match r with Raise _ => true | Return _ => false end.

(** * Theorems *)

(** ** Comparisons of rationals *)

Lemma Qltb_lt (a b : Q) : (a <? b)%Q = true ↔ (a < b)%Q.
Proof.
  unfold Qltb. rewrite negb_true_iff. split.
  - intros H. apply Qnot_le_lt. intros Hle.
    apply Qle_bool_iff in Hle. congruence.
  - intros H. destruct (Qle_bool b a) eqn:E; [|done].
    apply Qle_bool_iff in E. exfalso. exact (Qlt_not_le _ _ H E).
Qed.

Lemma Qltb_ge (a b : Q) : (a <? b)%Q = false ↔ (b <= a)%Q.
Proof.
  unfold Qltb. rewrite negb_false_iff. apply Qle_bool_iff.
Qed.

Lemma Qleb_gt (a b : Q) : (a <=? b)%Q = false ↔ (b < a)%Q.
Proof.
  rewrite <- Qltb_lt. unfold Qltb. rewrite negb_true_iff. done.
Qed.

Lemma Qleb_le (a b : Q) : (a <=? b)%Q = true ↔ (a <= b)%Q.
Proof. apply Qle_bool_iff. Qed.

(** Turn the boolean tests of the program into the order relations of
    the specification, in the goal and in every hypothesis. *)
Ltac reflect_order :=
  repeat match goal with
  | H : (_ && _) = true |- _ => apply andb_true_iff in H
  | H : (_ || _) = true |- _ => apply orb_true_iff in H
  | H : (_ && _) = false |- _ => apply andb_false_iff in H
  | H : (_ || _) = false |- _ => apply orb_false_iff in H
  | H : _ ∧ _ |- _ => destruct H
  | H : _ ∨ _ |- _ => destruct H
  | H : Qltb _ _ = true |- _ => apply Qltb_lt in H
  | H : Qltb _ _ = false |- _ => apply Qltb_ge in H
  | H : Qle_bool _ _ = true |- _ => apply Qleb_le in H
  | H : Qle_bool _ _ = false |- _ => apply Qleb_gt in H
  end.

Ltac order_clash :=
  match goal with
  | H1 : (?a < ?b)%Q, H2 : (?b <= ?a)%Q |- _ =>
      exfalso; exact (Qlt_not_le _ _ H1 H2)
  end.

(** A rule of the table against the test the program makes for it. *)
Ltac settle_rule :=
  unfold Spec.rule_low, Spec.rule_moderate, Spec.rule_high,
    Spec.rule_critical, Spec.rule_extreme;
  simpl; unfold not; intros; reflect_order; first [order_clash | tauto].

(** ** Comparisons of floats *)

Section FloatOrder.
Local Open Scope Q_scope.

(** A value that is at most [a] is not above a larger constant. *)
Lemma le_lt_false (x : float) (a b : Q) :
  Py.le x a = true → a <= b → Py.lt b x = false.
Proof.
  destruct x as [q|[]|]; simpl; try done.
  intros Hle Hab. apply Qleb_le in Hle. apply Qltb_ge.
  by apply Qle_trans with a.
Qed.

(** A value below [a] is not above a constant that is at least [a], nor
    equal to one. *)
Lemma lt_lt_false (x : float) (a b : Q) :
  Py.lt x a = true → a <= b → Py.lt b x = false.
Proof.
  destruct x as [q|[]|]; simpl; try done.
  intros Hlt Hab. apply Qltb_lt in Hlt. apply Qltb_ge.
  apply Qlt_le_weak. by apply Qlt_le_trans with a.
Qed.

Lemma lt_le_false (x : float) (a b : Q) :
  Py.lt x a = true → a <= b → Py.le b x = false.
Proof.
  destruct x as [q|[]|]; simpl; try done.
  intros Hlt Hab. apply Qltb_lt in Hlt. apply Qleb_gt.
  by apply Qlt_le_trans with a.
Qed.

Lemma lt_weaken (x : float) (a b : Q) :
  Py.lt x a = true → a <= b → Py.lt x b = true.
Proof.
  destruct x as [q|[]|]; simpl; try done.
  intros Hlt Hab. apply Qltb_lt in Hlt. apply Qltb_lt.
  by apply Qlt_le_trans with a.
Qed.

(** What is neither below [a] nor NaN is at least [a]. *)
Lemma not_lt_le (x : float) (a : Q) :
  Py.lt x a = false → is_nan x = false → Py.le a x = true.
Proof.
  destruct x as [q|[]|]; simpl; try done.
  intros Hlt _. apply Qltb_ge in Hlt. by apply Qleb_le.
Qed.

(** The product is exact on every number but a large float. *)
Lemma times_two_exact (n : num) (q : Q) :
  Py.value n = Finite q →
  (∀ q', n = Float (Finite q') → Py.overflows q' = false) →
  Py.times_two n = Finite (q * 2).
Proof.
  destruct n as [q'|[q'| |]]; simpl; try done.
  - by intros [= ->].
  - intros [= ->] Hq. by rewrite (Hq q eq_refl).
Qed.
End FloatOrder.

(** ** The risk classifier *)

Section Classifier.
Import Spec.
Local Open Scope Q_scope.

Lemma first_match_functional x rules t t' :
  first_match x rules t → first_match x rules t' → t = t'.
Proof.
  induction 1 as [|rule t rest Hr|rule t rest t1 Hn _ IH];
    inversion 1; subst; try done.
  by apply IH.
Qed.

(** The nested conditionals of the program pick the tier of the first
    rule of the table that holds, on numbers that are finite and whose
    product with 2 is exact. *)
Lemma risk_calculation_first_match (x : numbers) (l p m f : num) :
  Py.value l = Finite (liquidity x) →
  Py.value p = Finite (priceChange x) →
  Py.value m = Finite (marketCap x) →
  Py.value f = Finite (fdv x) →
  Py.times_two m = Finite (marketCap x * 2) →
  first_match x tier_rules (risk_calculation l p m f).
Proof.
  destruct x as [ql qm qp qf]. unfold risk_calculation, tier_rules.
  cbn [liquidity priceChange marketCap fdv].
  intros -> -> -> -> ->. cbn [Py.lt Py.le].
  destruct ((25000 <? ql) && (250000 <? qm) && (qp <=? 50)) eqn:E1;
    [apply match_here; settle_rule | apply match_later; [settle_rule|]].
  destruct ((10000 <=? ql) && (ql <=? 20000)
            && ((50 <? qp) || (qm <? 100000))) eqn:E2;
    [apply match_here; settle_rule | apply match_later; [settle_rule|]].
  destruct ((ql <? 10000) || (qp <=? 0)) eqn:E3;
    [apply match_here; settle_rule | apply match_later; [settle_rule|]].
  destruct ((ql <? 5000) || (qf <? qm)) eqn:E4;
    [apply match_here; settle_rule | apply match_later; [settle_rule|]].
  destruct ((1000 <? qp) || (qm * 2 <? qf)) eqn:E5;
    [apply match_here; settle_rule | apply match_later; [settle_rule|]].
  apply fallback.
Qed.

(** Liquidity under 10000 ends at the third test: the first two need
    more, and the third asks exactly this. *)
Lemma low_liquidity_is_high (l p m f : num) (ql : Q) :
  Py.value l = Finite ql → ql < 10000 → risk_calculation l p m f = High.
Proof.
  intros Hl Hql. unfold risk_calculation. rewrite Hl. cbn [Py.lt Py.le].
  assert ((25000 <? ql) = false) as ->.
  { apply Qltb_ge. apply Qlt_le_weak. eapply Qlt_trans; [exact Hql|done]. }
  assert ((10000 <=? ql) = false) as -> by by apply Qleb_gt.
  assert ((ql <? 10000) = true) as -> by by apply Qltb_lt.
  reflexivity.
Qed.

(** The fourth test's [liquidity < 5000] never decides: when the
    Critical verdict is given, liquidity is not below 10000 and the FDV
    is below the market cap. *)
Lemma critical_only_by_fdv (l p m f : num) :
  risk_calculation l p m f = Critical →
  Py.lt l 10000 = false ∧ Py.lt f m = true.
Proof.
  unfold risk_calculation.
  destruct (_ && _ && _); [done|].
  destruct (_ && _ && _); [done|].
  destruct (Py.lt l 10000) eqn:E3; [done|]. simpl.
  destruct (Py.le p 0); [done|].
  assert (Py.lt l 5000 = false) as ->.
  { destruct (Py.lt l 5000) eqn:E4; [|done].
    rewrite <- E3. symmetry. destruct (Py.value l) as [q|[]|]; simpl in *; try done.
    apply Qltb_lt. apply Qltb_lt in E4. by apply Qlt_trans with 5000. }
  simpl. destruct (Py.lt f m); [done|].
  by destruct (_ || _).
Qed.
End Classifier.

Section ClassifierOnPairs.
Import Spec.

(** An attribute that is carried is read as a finite number of that
    value, and a missing one as 0. *)
Lemma carries_number entry attribute :
  carries entry attribute →
  ∃ n, Py.number (default (JNum 0) entry) = Return n
       ∧ Py.value n = Finite (or_zero attribute).
Proof.
  destruct entry as [[| | |[| |]| | |]|], attribute; simpl; try done.
  - intros <-. by eexists.
  - intros <-. by eexists.
  - intros _. by eexists.
Qed.

Lemma carries_inv entry attribute :
  carries entry attribute →
  (entry = None ∧ attribute = None)
  ∨ ∃ q, (entry = Some (JNum q) ∨ entry = Some (JFloat (Finite q)))
         ∧ attribute = Some q.
Proof.
  destruct entry as [[| | |[| |]| | |]|], attribute; simpl; try done;
    intros; subst; eauto.
Qed.

Lemma analyze_represents pair tp :
  represents pair tp →
  ∃ l p m f : num,
    analyze_rug_pull_risk pair = Return (make_verdict l p m f)
    ∧ Py.value l = Finite (liquidity (numbers_of tp))
    ∧ Py.value p = Finite (priceChange (numbers_of tp))
    ∧ Py.value m = Finite (marketCap (numbers_of tp))
    ∧ Py.value f = Finite (fdv (numbers_of tp))
    ∧ Py.get pair "marketCap" (JNum 0) ≫= Py.number = Return m.
Proof.
  destruct pair as [| | | | | |fields]; try done.
  destruct tp as [lq mc fd pc]. simpl.
  intros (Hl & Hm & Hf & Hp).
  assert (∃ lv l, Py.get (default (JObj ∅) (fields !! "liquidity")) "usd" (JNum 0)
                  = Return lv
                  ∧ Py.number lv = Return l
                  ∧ Py.value l = Finite (or_zero lq)) as (lv & l & Hlv & Hln & Hlq).
  { unfold carries_in in Hl.
    destruct (fields !! "liquidity") as [[| | | | | |sub]|]; try done; simpl.
    - destruct (carries_number _ _ Hl) as (n & Hn & Hv).
      exists (default (JNum 0) (sub !! "usd")), n.
      split; [by destruct (sub !! "usd")|done].
    - subst lq. rewrite lookup_empty. by eexists _, _. }
  assert (∃ pv p,
            (h24 ← Py.get (default (JObj ∅) (fields !! "priceChange")) "h24" (JNum 0);
             Py.get (default (JObj ∅) (fields !! "priceChange")) "percent" h24)
            = Return pv
            ∧ Py.number pv = Return p
            ∧ Py.value p = Finite (or_zero pc)) as (pv & p & Hpv & Hpn & Hpq).
  { unfold carries_price_change in Hp.
    destruct (fields !! "priceChange") as [[| | | | | |sub]|]; try done; simpl.
    - destruct (sub !! "percent") as [percent|] eqn:Epercent.
      + destruct (carries_number _ _ Hp) as (n & Hn & Hv).
        exists percent, n. split; [by destruct (sub !! "h24")|done].
      + destruct (carries_number _ _ Hp) as (n & Hn & Hv).
        exists (default (JNum 0) (sub !! "h24")), n.
        split; [by destruct (sub !! "h24")|done].
    - subst pc. rewrite !lookup_empty. by eexists _, _. }
  destruct (carries_number _ _ Hm) as (m & Hmn & Hmq).
  destruct (carries_number _ _ Hf) as (f & Hfn & Hfq).
  exists l, p, m, f.
  split; [|repeat split; try done; by destruct (fields !! "marketCap")].
  unfold analyze_rug_pull_risk.
  assert (∀ key d, Py.get (JObj fields) key d = Return (default d (fields !! key)))
    as Hget by (intros key d; simpl; by destruct (fields !! key)).
  rewrite !Hget.
  change (Return ?a ≫= ?k) with (k a). cbn beta. rewrite Hlv.
  change (Return ?a ≫= ?k) with (k a). cbn beta.
  change (Return ?a ≫= ?k) with (k a). cbn beta.
  destruct (Py.get (default (JObj ∅) (fields !! "priceChange")) "h24" (JNum 0))
    as [h24|e]; [|done].
  change (Return h24 ≫= ?k) with (k h24) in Hpv |- *. cbn beta in Hpv |- *.
  rewrite Hpv.
  repeat (change (Return ?a ≫= ?k) with (k a); cbn beta).
  rewrite Hln. change (Return ?a ≫= ?k) with (k a). cbn beta.
  rewrite Hmn. change (Return ?a ≫= ?k) with (k a). cbn beta.
  rewrite Hpn. change (Return ?a ≫= ?k) with (k a). cbn beta.
  rewrite Hfn. reflexivity.
Qed.

(** On a pair whose market cap doubles exactly, the classifier's
    product is the exact one. *)
Lemma doubles_exactly_number pair (m : num) (q : Q) :
  doubles_exactly pair →
  Py.get pair "marketCap" (JNum 0) ≫= Py.number = Return m →
  Py.value m = Finite q →
  Py.times_two m = Finite (q * 2).
Proof.
  intros Hpair Hm Hq. apply times_two_exact; [done|].
  intros q' ->. apply Hpair.
  destruct (Py.get pair "marketCap" (JNum 0)) as [[|[]| | | | |]|e]; try done.
  simpl in Hm. by injection Hm as ->.
Qed.
End ClassifierOnPairs.

(** C1, as stated, fails: the market cap is doubled in Python
    arithmetic, and twice a float of 2^1023 or more is infinite, which
    no FDV exceeds.  On the pair with liquidity 30000, a float market cap
    of 2^1023, price change 60 and FDV 2^1025 the table gives Extreme
    (the FDV is more than twice the market cap), and the tier returned
    is another one. *)
Lemma overflowing_market_cap_misses_extreme :
  Spec.represents overflow_pair overflow_attributes
  ∧ Spec.first_match (Spec.numbers_of overflow_attributes) Spec.tier_rules Extreme
  ∧ ¬ ∃ v : verdict,
        analyze_rug_pull_risk overflow_pair = Return v
        ∧ Spec.first_match (Spec.numbers_of overflow_attributes)
            Spec.tier_rules (risk v).
Proof.
  assert (Spec.first_match (Spec.numbers_of overflow_attributes)
            Spec.tier_rules Extreme) as Hextreme.
  { unfold Spec.tier_rules.
    apply Spec.match_later.
    { intros (_ & _ & H). apply Qleb_le in H. by vm_compute in H. }
    apply Spec.match_later.
    { intros ((_ & H) & _). apply Qleb_le in H. by vm_compute in H. }
    apply Spec.match_later.
    { intros [H|H]; [apply Qltb_lt in H|apply Qleb_le in H]; by vm_compute in H. }
    apply Spec.match_later.
    { intros [H|H]; apply Qltb_lt in H; by vm_compute in H. }
    apply Spec.match_here. right. apply Qltb_lt. by vm_compute. }
  split; [vm_compute; tauto|]. split; [done|].
  intros (v & Hv & Hmatch).
  assert (risk v = LowToModerate) as Hrisk.
  { assert (∃ v', analyze_rug_pull_risk overflow_pair = Return v'
                    ∧ risk v' = LowToModerate) as (v' & E & Hv')
      by (eexists; split; vm_compute; reflexivity).
    rewrite Hv in E. by injection E as ->. }
  rewrite Hrisk in Hmatch.
  by pose proof (first_match_functional _ _ _ _ Hextreme Hmatch).
Qed.

(** C1, amended. The classifier is a total function of the four numbers
    of a pair, an absent one counting as 0: on every pair object whose
    attributes are numbers or missing, and whose market cap is an int
    or a float below 2^1023 in magnitude, it returns a verdict (it does
    not raise), the verdict's tier is the one the tier table gives when
    its rules are tried in order and the first that holds wins, and no
    other tier satisfies that description.  Nothing is asked of the
    sign of the numbers, so the statement covers the non-negative
    ones. *)
Theorem classify_total_first_match (pair : json) (tp : Spec.TradingPair) :
  Spec.represents pair tp →
  doubles_exactly pair →
  ∃ v : verdict,
    analyze_rug_pull_risk pair = Return v
    ∧ Spec.first_match (Spec.numbers_of tp) Spec.tier_rules (risk v)
    ∧ ∀ t, Spec.first_match (Spec.numbers_of tp) Spec.tier_rules t → t = risk v.
Proof.
  intros Hrep Hdouble.
  destruct (analyze_represents _ _ Hrep)
    as (l & p & m & f & Hv & Hl & Hp & Hm & Hf & Hread).
  assert (Spec.first_match (Spec.numbers_of tp) Spec.tier_rules
            (risk_calculation l p m f)) as Hmatch.
  { apply risk_calculation_first_match; try done.
    by eapply doubles_exactly_number. }
  eexists. split; [exact Hv|]. simpl. split; [exact Hmatch|].
  intros t Ht. by eapply first_match_functional.
Qed.

Lemma classify_total_first_match_witness :
  Spec.represents healthy_float_pair healthy_attributes
  ∧ doubles_exactly healthy_float_pair
  ∧ ∃ v : verdict,
      analyze_rug_pull_risk healthy_float_pair = Return v
      ∧ Spec.first_match (Spec.numbers_of healthy_attributes) Spec.tier_rules (risk v)
      ∧ ∀ t, Spec.first_match (Spec.numbers_of healthy_attributes) Spec.tier_rules t
             → t = risk v.
Proof.
  assert (doubles_exactly healthy_float_pair) as Hdouble.
  { intros q H. vm_compute in H. injection H as <-. vm_compute. reflexivity. }
  split; [vm_compute; tauto|]. split; [exact Hdouble|].
  apply (classify_total_first_match healthy_float_pair healthy_attributes).
  - vm_compute. tauto.
  - exact Hdouble.
Defined.

(** On the pair with liquidity 3000, market cap 50000 and FDV 60000
    the verdict returned is not Critical. *)
Lemma thin_pair_not_critical :
  ¬ ∃ v : verdict,
      analyze_rug_pull_risk thin_pair = Return v ∧ risk v = Critical.
Proof.
  intros (v & Hv & Hrisk).
  assert (∃ v', analyze_rug_pull_risk thin_pair = Return v' ∧ risk v' = High)
    as (v' & E & Hv') by (eexists; split; vm_compute; reflexivity).
  rewrite Hv in E. injection E as ->. congruence.
Qed.

(** C2. The program misses what the claim says.  For the pair with
    liquidity 3000, market cap 50000 and FDV 60000, the other numbers
    absent, the classifier returns the High tier, not the Critical one:
    the third test takes every liquidity below 10000, so the fourth
    test's [liquidity < 5000], written to give Critical here, is never
    reached with such a liquidity. *)
Theorem thin_pair_is_high (pair : json) :
  Spec.represents pair thin_attributes →
  ∃ v : verdict,
    analyze_rug_pull_risk pair = Return v ∧ risk v = High ∧ risk v ≠ Critical.
Proof.
  intros Hrep.
  destruct (analyze_represents _ _ Hrep)
    as (l & p & m & f & Hv & Hl & _).
  assert (risk_calculation l p m f = High) as Hrisk
    by by eapply low_liquidity_is_high.
  eexists. split; [exact Hv|]. simpl. by rewrite Hrisk.
Qed.

Lemma thin_pair_is_high_witness :
  Spec.represents thin_pair thin_attributes
  ∧ ∃ v : verdict,
      analyze_rug_pull_risk thin_pair = Return v
      ∧ risk v = High ∧ risk v ≠ Critical.
Proof.
  split.
  - vm_compute. tauto.
  - apply (thin_pair_is_high thin_pair). vm_compute. tauto.
Defined.

(** C5. A pair whose four numbers are all absent or zero gets the High
    tier; the empty pair is one of them. *)
Theorem all_zero_is_high (pair : json) (tp : Spec.TradingPair) :
  Spec.represents pair tp →
  (Spec.liquidity (Spec.numbers_of tp) == 0)%Q →
  (Spec.marketCap (Spec.numbers_of tp) == 0)%Q →
  (Spec.priceChange (Spec.numbers_of tp) == 0)%Q →
  (Spec.fdv (Spec.numbers_of tp) == 0)%Q →
  ∃ v : verdict, analyze_rug_pull_risk pair = Return v ∧ risk v = High.
Proof.
  intros Hrep Hzero _ _ _.
  destruct (analyze_represents _ _ Hrep)
    as (l & p & m & f & Hv & Hl & _).
  eexists. split; [exact Hv|].
  simpl. eapply low_liquidity_is_high; [exact Hl|].
  eapply Qle_lt_trans; [apply Qle_lteq; right; exact Hzero|done].
Qed.

Lemma all_zero_is_high_witness :
  Spec.represents (JObj ∅) no_attributes
  ∧ ∃ v : verdict, analyze_rug_pull_risk (JObj ∅) = Return v ∧ risk v = High.
Proof.
  split.
  - vm_compute. tauto.
  - apply (all_zero_is_high (JObj ∅) no_attributes).
    + vm_compute. tauto.
    + reflexivity.
    + reflexivity.
    + reflexivity.
    + reflexivity.
Defined.

(** C6. For the pair with liquidity 15000, market cap 80000 and a 24h
    price change of 60, FDV absent, the classifier returns the Moderate
    tier: the second test holds, so the third is not reached. *)
Theorem shaky_pair_is_moderate (pair : json) :
  Spec.represents pair shaky_attributes →
  ∃ v : verdict, analyze_rug_pull_risk pair = Return v ∧ risk v = Moderate.
Proof.
  intros Hrep.
  destruct (analyze_represents _ _ Hrep)
    as (l & p & m & f & Hv & Hl & Hp & Hm & _).
  eexists. split; [exact Hv|].
  simpl. unfold risk_calculation. rewrite Hl, Hp, Hm. reflexivity.
Qed.

Lemma shaky_pair_is_moderate_witness :
  Spec.represents shaky_pair shaky_attributes
  ∧ ∃ v : verdict, analyze_rug_pull_risk shaky_pair = Return v ∧ risk v = Moderate.
Proof.
  split.
  - vm_compute. tauto.
  - apply (shaky_pair_is_moderate shaky_pair). vm_compute. tauto.
Defined.

(** ** Regular expressions *)

#[local] Set Warnings "-clear-no-such-hyp".

Section RegexFacts.
Import Re.

Lemma matches_iff pattern subject :
  matches pattern subject = true
  ↔ ∃ q, q ∈ run pattern (0, String.list_ascii_of_string subject).
Proof.
  unfold matches. destruct (run _ _) as [|q qs].
  - split; [done|]. intros [q Hq]. by apply elem_of_nil in Hq.
  - split; [|done]. intros _. exists q. apply elem_of_cons; by left.
Qed.

Lemma run_cat r1 r2 p q :
  q ∈ run (Cat r1 r2) p ↔ ∃ m, m ∈ run r1 p ∧ q ∈ run r2 m.
Proof.
  simpl. rewrite list_elem_of_bind. naive_solver.
Qed.

Lemma run_bol p q : q ∈ run Bol p ↔ p.1 = 0 ∧ q = p.
Proof.
  destruct p as [[|n] s]; simpl.
  - rewrite list_elem_of_singleton. naive_solver.
  - rewrite elem_of_nil. naive_solver.
Qed.

Lemma run_eol p q :
  q ∈ run Eol p ↔ (p.2 = [] ∨ p.2 = [newline]) ∧ q = p.
Proof.
  destruct p as [n [|c [|c' s]]]; simpl.
  - rewrite list_elem_of_singleton. naive_solver.
  - destruct (Ascii.eqb c newline) eqn:E.
    + apply Ascii.eqb_eq in E as ->. rewrite list_elem_of_singleton. naive_solver.
    + apply Ascii.eqb_neq in E. rewrite elem_of_nil. naive_solver.
  - rewrite elem_of_nil. naive_solver.
Qed.

Lemma run_chr c p q :
  q ∈ run (Chr c) p ↔ ∃ rest, p.2 = c :: rest ∧ q = (S p.1, rest).
Proof.
  destruct p as [n [|a s]]; simpl.
  - rewrite elem_of_nil. naive_solver.
  - destruct (Ascii.eqb a c) eqn:E.
    + apply Ascii.eqb_eq in E as ->. rewrite list_elem_of_singleton. naive_solver.
    + apply Ascii.eqb_neq in E. rewrite elem_of_nil. naive_solver.
Qed.

Lemma run_class ranges p q :
  q ∈ run (Class ranges) p
  ↔ ∃ a rest, p.2 = a :: rest ∧ in_class ranges a = true ∧ q = (S p.1, rest).
Proof.
  destruct p as [n [|a s]]; simpl.
  - rewrite elem_of_nil. naive_solver.
  - destruct (in_class ranges a) eqn:E.
    + rewrite list_elem_of_singleton. split.
      * intros ->. by exists a, s.
      * intros (a' & rest & [= <- <-] & _ & ->). done.
    + rewrite elem_of_nil. split; [done|].
      intros (a' & rest & [= <- <-] & E' & _). congruence.
Qed.

(** A bounded repetition of a character class takes a prefix of class
    members whose length lies within the bounds. *)
Lemma run_rep_class ranges lo hi n s q :
  q ∈ run (Rep (Class ranges) lo hi) (n, s)
  ↔ ∃ taken,
      s = taken ++ q.2
      ∧ q.1 = n + length taken
      ∧ (lo ≤ length taken ≤ hi)%nat
      ∧ Forall (λ c, in_class ranges c = true) taken.
Proof.
  change (run (Rep (Class ranges) lo hi)) with (iterate (run (Class ranges)) lo hi).
  revert lo n s. induction hi as [|hi IH]; intros lo n s; cbn [iterate app].
  - destruct lo as [|lo].
    + rewrite list_elem_of_singleton. split.
      * intros ->. exists []. simpl. repeat split; auto with lia.
      * intros (taken & Hs & Hn & Hlen & _).
        destruct taken; [|simpl in Hlen; lia].
        simpl in *. destruct q. simpl in *. subst. f_equal. lia.
    + rewrite elem_of_nil. split; [done|].
      intros (taken & _ & _ & Hlen & _). lia.
  - rewrite elem_of_app, list_elem_of_bind. split.
    + intros [(m & Hq & Hm)|Hq].
      * apply run_class in Hm as (a & rest & Hs & Ha & ->). simpl in Hs. subst s.
        apply IH in Hq as (taken & Hs & Hn & Hlen & Hall).
        exists (a :: taken). simpl in *. rewrite Hs at 1.
        repeat split; auto with lia.
      * destruct lo; [|by apply elem_of_nil in Hq].
        apply list_elem_of_singleton in Hq as ->.
        exists []. simpl. repeat split; auto with lia.
    + intros (taken & Hs & Hn & Hlen & Hall).
      destruct taken as [|a taken].
      * right. destruct lo; [|simpl in Hlen; lia].
        apply list_elem_of_singleton. destruct q; simpl in *. subst. f_equal. lia.
      * left. exists (S n, taken ++ q.2). split.
        -- apply IH. exists taken. inversion Hall; subst.
           simpl in *. repeat split; auto with lia.
        -- apply run_class. exists a, (taken ++ q.2).
           inversion Hall; subst. done.
Qed.
End RegexFacts.

(** ** The address patterns *)

Section AddressPatterns.
Import Re.

(** [^[...]{lo,hi}$]: the subject is [lo] to [hi] members of the
    class, then its end, or one newline and its end. *)
Lemma matches_anchored_class ranges lo hi subject :
  matches (Cat Bol (Cat (Rep (Class ranges) lo hi) Eol)) subject = true
  ↔ ∃ body tail,
      String.list_ascii_of_string subject = body ++ tail
      ∧ (lo ≤ length body ≤ hi)%nat
      ∧ Forall (λ c, in_class ranges c = true) body
      ∧ line_end tail.
Proof.
  rewrite matches_iff. split.
  - intros (q & Hq).
    apply run_cat in Hq as (p0 & Hp0 & Hq).
    apply run_bol in Hp0 as [_ ->].
    apply run_cat in Hq as (p1 & Hp1 & Hq).
    apply run_rep_class in Hp1 as (body & Hs & _ & Hlen & Hall).
    apply run_eol in Hq as [Hend ->].
    by exists body, p1.2.
  - intros (body & tail & Hs & Hlen & Hall & Hend).
    exists (length body, tail).
    apply run_cat. exists (0, String.list_ascii_of_string subject).
    split; [by apply run_bol|].
    apply run_cat. exists (length body, tail). split.
    + apply run_rep_class. by exists body.
    + by apply run_eol.
Qed.

(** [^0x[...]{lo,hi}$] *)
Lemma matches_anchored_0x_class ranges lo hi subject :
  matches (Cat Bol (Cat (Chr "0") (Cat (Chr "x")
             (Cat (Rep (Class ranges) lo hi) Eol)))) subject = true
  ↔ ∃ body tail,
      String.list_ascii_of_string subject = ("0" :: "x" :: body ++ tail)%char
      ∧ (lo ≤ length body ≤ hi)%nat
      ∧ Forall (λ c, in_class ranges c = true) body
      ∧ line_end tail.
Proof.
  rewrite matches_iff. split.
  - intros (q & Hq).
    apply run_cat in Hq as (p0 & Hp0 & Hq).
    apply run_bol in Hp0 as [_ ->].
    apply run_cat in Hq as (p1 & Hp1 & Hq).
    apply run_chr in Hp1 as (rest1 & Hs1 & ->).
    apply run_cat in Hq as (p2 & Hp2 & Hq).
    apply run_chr in Hp2 as (rest2 & Hs2 & ->).
    apply run_cat in Hq as (p3 & Hp3 & Hq).
    apply run_rep_class in Hp3 as (body & Hs & _ & Hlen & Hall).
    apply run_eol in Hq as [Hend ->].
    simpl in *. subst. by exists body, p3.2.
  - intros (body & tail & Hs & Hlen & Hall & Hend).
    exists (2 + length body, tail).
    apply run_cat. exists (0, String.list_ascii_of_string subject).
    split; [by apply run_bol|].
    apply run_cat. exists (1, ("x" :: body ++ tail)%char).
    split; [apply run_chr; simpl; eauto|].
    apply run_cat. exists (2, body ++ tail).
    split; [apply run_chr; simpl; eauto|].
    apply run_cat. exists (2 + length body, tail). split.
    + apply run_rep_class. by exists body.
    + by apply run_eol.
Qed.

Lemma matches_alt r1 r2 subject :
  matches (Alt r1 r2) subject = matches r1 subject || matches r2 subject.
Proof.
  unfold matches. simpl.
  destruct (run r1 _); simpl; [|done]. by destruct (run r2 _).
Qed.

(** The format check is the disjunction of the detector's first two
    tests. *)
Lemma address_format_split subject :
  matches address_format subject
  = matches ethereum_pattern subject || matches solana_pattern subject.
Proof. apply matches_alt. Qed.
End AddressPatterns.

Section CharacterClasses.
Import Re Spec.

Lemma ascii_eq_code (c d : ascii) : c = d ↔ N_of_ascii c = N_of_ascii d.
Proof.
  split; [by intros ->|]. intros H.
  rewrite <- (ascii_N_embedding c), <- (ascii_N_embedding d). by rewrite H.
Qed.

Ltac to_codes c :=
  unfold in_class, in_range, is_hex, is_base58_like, is_digit, is_letter,
    between; simpl existsb;
  rewrite ?not_elem_of_cons, ?ascii_eq_code;
  repeat rewrite ?orb_true_iff, ?andb_true_iff, ?N.leb_le, ?orb_false_r;
  simpl N_of_ascii; generalize (N_of_ascii c); intros.

Lemma hex_digit_class c :
  in_class [("a", "f"); ("A", "F"); ("0", "9")]%char c = true ↔ is_hex c.
Proof. to_codes c. lia. Qed.

Lemma base58_like_class c :
  in_class [("1", "9"); ("A", "H"); ("J", "N"); ("P", "Z"); ("a", "k");
            ("m", "z")]%char c = true
  ↔ is_base58_like c.
Proof.
  to_codes c. rewrite elem_of_nil. lia.
Qed.
End CharacterClasses.

Section AddressShapes.
Import Re Spec.

Lemma length_list_ascii (s : string) :
  length (String.list_ascii_of_string s) = String.length s.
Proof. induction s; simpl; auto. Qed.

Lemma ethereum_shape_matches address :
  ethereum_shape address → matches ethereum_pattern address = true.
Proof.
  intros (digits & Hs & Hlen & Hall).
  apply matches_anchored_0x_class. exists digits, [].
  rewrite app_nil_r. repeat split; [done|lia|lia| |by left].
  eapply Forall_impl; [exact Hall|]. intros c. apply hex_digit_class.
Qed.

Lemma matches_ethereum_shape address :
  ¬ ends_in_newline address →
  matches ethereum_pattern address = true ↔ ethereum_shape address.
Proof.
  intros Hnl. split; [|apply ethereum_shape_matches].
  intros (body & tail & Hs & Hlen & Hall & [->| ->])%matches_anchored_0x_class.
  - rewrite app_nil_r in Hs. exists body. repeat split; [done|lia|].
    eapply Forall_impl; [exact Hall|]. intros c. apply hex_digit_class.
  - destruct Hnl. exists ("0" :: "x" :: body)%char. by rewrite Hs.
Qed.

Lemma matches_solana_shape address :
  ¬ ends_in_newline address →
  matches solana_pattern address = true ↔ solana_shape address.
Proof.
  intros Hnl. unfold solana_pattern, base58_like, solana_shape.
  rewrite matches_anchored_class, <- length_list_ascii. split.
  - intros (body & tail & Hs & Hlen & Hall & [->| ->]).
    + rewrite app_nil_r in Hs. rewrite Hs. split; [done|].
      eapply Forall_impl; [exact Hall|]. intros c. apply base58_like_class.
    + destruct Hnl. by exists body.
  - intros [Hlen Hall]. exists (String.list_ascii_of_string address), [].
    rewrite app_nil_r. repeat split; [lia|lia| |by left].
    eapply Forall_impl; [exact Hall|]. intros c. apply base58_like_class.
Qed.
End AddressShapes.

(** C4. An address made of [0x] and 40 hex characters is tagged
    "Ethereum", and no address at all is tagged "Polygon": the fourth
    test repeats the first, so it can only be reached when it fails. *)
Theorem detect_ethereum_never_polygon (address : string) :
  (Spec.ethereum_shape address → detect_blockchain address = "Ethereum")
  ∧ detect_blockchain address ≠ "Polygon".
Proof.
  unfold detect_blockchain. split.
  - intros Hshape. rewrite ethereum_shape_matches; [reflexivity|exact Hshape].
  - destruct (Re.matches ethereum_pattern address) eqn:E; [discriminate|].
    destruct (Re.matches solana_pattern address); [discriminate|].
    destruct (Re.matches binance_pattern address); [discriminate|].
    change polygon_pattern with ethereum_pattern. rewrite E. discriminate.
Qed.

Lemma detect_ethereum_never_polygon_witness :
  Spec.ethereum_shape sample_ethereum_address
  ∧ detect_blockchain sample_ethereum_address = "Ethereum".
Proof.
  assert (Spec.ethereum_shape sample_ethereum_address) as Hshape.
  { eexists. split; [reflexivity|]. split; [reflexivity|].
    repeat (constructor; [vm_compute; intuition discriminate|]). constructor. }
  split; [exact Hshape|].
  exact (proj1 (detect_ethereum_never_polygon sample_ethereum_address) Hshape).
Defined.

(** C10. An address that passes the format check is tagged "Ethereum"
    or "Solana": the check is the first two tests of the detector,
    joined by [|]. *)
Theorem accepted_address_is_ethereum_or_solana (address : string) :
  Re.matches address_format address = true →
  detect_blockchain address = "Ethereum" ∨ detect_blockchain address = "Solana".
Proof.
  rewrite address_format_split. unfold detect_blockchain.
  destruct (Re.matches ethereum_pattern address); [left; reflexivity|].
  destruct (Re.matches solana_pattern address); [right; reflexivity|].
  discriminate.
Qed.

Lemma accepted_address_is_ethereum_or_solana_witness :
  Re.matches address_format sample_solana_address = true
  ∧ (detect_blockchain sample_solana_address = "Ethereum"
     ∨ detect_blockchain sample_solana_address = "Solana").
Proof.
  split; [vm_compute; reflexivity|].
  apply (accepted_address_is_ethereum_or_solana sample_solana_address).
  vm_compute. reflexivity.
Defined.

(** ** Stripping *)

Section StripFacts.
Import Strip.

(** What is left after dropping white space does not start with a
    one-byte white-space character. *)
Lemma drop_space_head backwards s c rest :
  drop_space backwards s = c :: rest → space1 c = false.
Proof.
  remember (length s) as n eqn:Hn.
  revert s Hn. induction (lt_wf n) as [n _ IH]. intros s Hn.
  destruct s as [|a [|b [|d s3]]]; simpl.
  - discriminate.
  - destruct (space1 a) eqn:Ea; [discriminate|]. by intros [= <- <-].
  - destruct (space1 a) eqn:Ea.
    { apply (IH 1 ltac:(subst n; simpl; lia) [b] eq_refl). }
    destruct (if backwards then space2 b a else space2 a b); [discriminate|].
    by intros [= <- <-].
  - destruct (space1 a) eqn:Ea.
    { apply (IH (length (b :: d :: s3)) ltac:(subst n; simpl; lia) (b :: d :: s3) eq_refl). }
    destruct (if backwards then space2 b a else space2 a b).
    { apply (IH (length (d :: s3)) ltac:(subst n; simpl; lia) (d :: s3) eq_refl). }
    destruct (if backwards then space3 d b a else space3 a b d).
    { apply (IH (length s3) ltac:(subst n; simpl; lia) s3 eq_refl). }
    by intros [= <- <-].
Qed.

Lemma strip_no_trailing_newline text : ¬ ends_in_newline (strip text).
Proof.
  unfold ends_in_newline, strip. intros (init & Hinit).
  rewrite String.list_ascii_of_string_of_list_ascii in Hinit.
  apply (f_equal (@rev ascii)) in Hinit.
  rewrite rev_involutive, rev_app_distr in Hinit. simpl in Hinit.
  by apply drop_space_head in Hinit.
Qed.
End StripFacts.

(** ** The message handler *)

(** An accepted address, once a menu option was chosen, does reach the
    pipeline: the four steps are called in order, and the report is
    built even when every service is down. *)
Example accepted_address_runs_pipeline :
  let session := {| user_data := {["selected_option" := "rug_pull_scan"]};
                    events := [] |} in
  calls_of (events (handle_token_address offline_requests offline_twitter
                      offline_reddit sample_ethereum_address session).2)
  = [FetchDexscreenerData; GetPreferredDex; AnalyzeRugPullRisk;
     FetchSocialMediaMentions].
Proof. vm_compute. reflexivity. Qed.

(** ** Sorting by descending key *)

Section SortedFacts.
Context {A : Type}.
Import Sorted.

Lemma head_insert (k : Q) (x : A) (l : list (Q * A)) :
  head (insert k x l)
  = match head l with
    | None => Some (k, x)
    | Some ky => if (ky.1 <=? k)%Q then Some (k, x) else Some ky
    end.
Proof.
  destruct l as [|[k' y] l']; simpl; [done|].
  by destruct (k' <=? k)%Q.
Qed.

Lemma descending_nonempty (keyed : list (Q * A)) :
  keyed ≠ [] → descending keyed ≠ [].
Proof.
  destruct keyed as [|[k x] rest]; [done|]. intros _. simpl.
  destruct (descending rest) as [|[k' y] l']; simpl; [done|].
  by destruct (k' <=? k)%Q.
Qed.

(** The sorted list opens with the first of the largest entries. *)
Lemma descending_head (keyed : list (Q * A)) :
  keyed ≠ [] →
  ∃ i kx, head (descending keyed) = Some kx ∧ first_maximum keyed i kx.
Proof.
  induction keyed as [|[k x] rest IH]; [done|]. intros _.
  simpl. rewrite head_insert.
  destruct rest as [|e rest'].
  { simpl. exists 0, (k, x). split; [done|]. split; [done|]. split.
    - intros [|j] ky; simpl; [|done]. intros [= <-]. apply Qle_refl.
    - intros j ky Hj. lia. }
  destruct IH as (i & [k' y] & Hhead & Hi & Hall & Hbefore); [done|].
  rewrite Hhead. simpl.
  destruct (k' <=? k)%Q eqn:E; reflect_order.
  - exists 0, (k, x). split; [done|]. split; [done|]. split.
    + intros [|j] ky; simpl.
      * intros [= <-]. apply Qle_refl.
      * intros Hky. eapply Qle_trans; [exact (Hall j ky Hky)|done].
    + intros j ky Hj. lia.
  - exists (S i), (k', y). split; [done|]. split; [done|]. split.
    + intros [|j] ky; simpl.
      * intros [= <-]. by apply Qlt_le_weak.
      * apply Hall.
    + intros [|j] ky Hj; simpl.
      * by intros [= <-].
      * apply Hbefore. lia.
Qed.
End SortedFacts.

(** ** The pair selector *)

Section SelectorFacts.
Import Spec.

Lemma mapM_Return {X Y} (f : X → outcome Y) (l : list X) (k : list Y) :
  Forall2 (λ x y, f x = Return y) l k → mapM f l = Return k.
Proof.
  induction 1 as [|x y l k Hxy _ IH]; simpl; [done|].
  rewrite Hxy. simpl. rewrite IH. done.
Qed.

(** The key of a pair is a number of the value of its liquidity. *)
Lemma liquidity_key_of pair q :
  liquidity_of pair q →
  ∃ key, liquidity_key pair = Return key ∧ Py.rational key = Return q.
Proof.
  destruct pair as [| | | | | |fields]; try done.
  intros (attribute & Hcarries & ->).
  unfold carries_in in Hcarries. unfold liquidity_key, Py.get.
  destruct (fields !! "liquidity") as [[| | | | | |sub]|]; try done; simpl.
  - apply carries_inv in Hcarries as [[-> ->]|(l & [->| ->] & ->)];
      by eexists.
  - subst attribute. rewrite lookup_empty. by eexists.
Qed.

Lemma liquidity_keys pairs liquidity :
  Forall2 liquidity_of pairs liquidity →
  ∃ keys, mapM liquidity_key pairs = Return keys
          ∧ mapM Py.rational keys = Return liquidity.
Proof.
  induction 1 as [|pair q pairs liquidity Hq _ (keys & Hkeys & Hnumbers)].
  - by exists [].
  - destruct (liquidity_key_of _ _ Hq) as (key & Hkey & Hnumber).
    exists (key :: keys). simpl. by rewrite Hkey, Hkeys, Hnumber, Hnumbers.
Qed.
End SelectorFacts.

(** C3. On an empty collection the selector returns no pair (the empty
    object).  On a non-empty collection whose pairs have a numeric or
    absent [liquidity.usd], it returns an element of the collection
    whose liquidity, 0 when absent, is the largest, and the first such
    element in input order. *)
Theorem preferred_pair_is_first_maximum (pairs : list json) (liquidity : list Q) :
  Forall2 Spec.liquidity_of pairs liquidity →
  match pairs with
  | [] => get_preferred_dex (JArr pairs) = Return (JObj ∅)
  | _ :: _ =>
      ∃ (i : nat) (x : json) (q : Q),
        get_preferred_dex (JArr pairs) = Return x
        ∧ pairs !! i = Some x
        ∧ liquidity !! i = Some q
        ∧ (∀ j q', liquidity !! j = Some q' → (q' <= q)%Q)
        ∧ (∀ j q', (j < i)%nat → liquidity !! j = Some q' → (q' < q)%Q)
  end.
Proof.
  intros Hliq. destruct pairs as [|x0 [|x1 rest]]; [done| |].
  - (* a single pair is returned as it is *)
    apply Forall2_cons_inv_l in Hliq as (q0 & qs & Hq0 & Hqs & ->).
    apply Forall2_nil_inv_l in Hqs as ->.
    exists 0, x0, q0. unfold get_preferred_dex. simpl.
    destruct (liquidity_key_of _ _ Hq0) as (key & -> & _). simpl.
    split; [done|]. split; [done|]. split; [done|]. split.
    + intros [|j] q'; simpl; [|done]. intros [= <-]. apply Qle_refl.
    + intros j q' Hj. lia.
  - pose proof (Forall2_length _ _ _ Hliq) as Hlen.
    destruct (liquidity_keys _ _ Hliq) as (keys & Hkeys & Hnumbers).
    set (pairs := x0 :: x1 :: rest) in *.
    destruct (descending_head (zip liquidity pairs)) as (i & [q x] & Hhead & Hi & Hall & Hbefore).
    { destruct liquidity as [|q0 qs]; [done|]. done. }
    apply lookup_zip_Some in Hi as [Hiq Hix].
    exists i, x, q. split; [|split; [done|split; [done|split]]].
    + unfold get_preferred_dex. change (Py.truthy (JArr pairs)) with true.
      cbn [negb]. rewrite Hkeys.
      change (Return keys ≫= ?k) with (k keys).
      cbn beta. unfold Sorted.sorted_reverse. subst pairs.
      rewrite Hnumbers.
      change (Return liquidity ≫= ?k) with (k liquidity). cbn beta.
      change (Return ?l ≫= ?k) with (k l). cbn beta.
      apply head_Some in Hhead as (l' & ->). done.
    + intros j q' Hj.
      destruct (lookup_lt_is_Some_2 pairs j) as [x' Hx'].
      { rewrite Hlen. eapply lookup_lt_Some. exact Hj. }
      apply (Hall j (q', x')). by apply lookup_zip_Some.
    + intros j q' Hji Hj.
      destruct (lookup_lt_is_Some_2 pairs j) as [x' Hx'].
      { rewrite Hlen. eapply lookup_lt_Some. exact Hj. }
      apply (Hbefore j (q', x') Hji). by apply lookup_zip_Some.
Qed.

Lemma preferred_pair_is_first_maximum_witness :
  Forall2 Spec.liquidity_of sample_pairs [500; 900; 900; 0]%Q
  ∧ ∃ (i : nat) (x : json) (q : Q),
      get_preferred_dex (JArr sample_pairs) = Return x
      ∧ sample_pairs !! i = Some x
      ∧ [500; 900; 900; 0]%Q !! i = Some q
      ∧ (∀ j q', [500; 900; 900; 0]%Q !! j = Some q' → (q' <= q)%Q)
      ∧ (∀ j q', (j < i)%nat → [500; 900; 900; 0]%Q !! j = Some q' → (q' < q)%Q).
Proof.
  assert (Forall2 Spec.liquidity_of sample_pairs [500; 900; 900; 0]%Q) as H.
  { repeat constructor.
    - exists (Some 500%Q). vm_compute. tauto.
    - exists (Some 900%Q). vm_compute. tauto.
    - exists (Some 900%Q). vm_compute. tauto.
    - exists None. vm_compute. tauto. }
  split; [exact H|].
  exact (preferred_pair_is_first_maximum sample_pairs [500; 900; 900; 0]%Q H).
Defined.

Example preferred_pair_of_sample :
  get_preferred_dex (JArr sample_pairs) = Return (venue "raydium" 900).
Proof. vm_compute. reflexivity. Qed.

(** ** The pair selector over the object store *)

Section StoreFacts.

(** Allocation leaves every object already in the store as it was. *)
Lemma alloc_frame (o : Store.object) (h : Store.heap) (l : Store.loc) (o' : Store.object) :
  h !! l = Some o' → (Store.alloc o h).2 !! l = Some o'.
Proof.
  intros Hl. unfold Store.alloc. simpl.
  rewrite lookup_insert_ne; [done|].
  intros <-. apply (is_fresh (dom h)). apply elem_of_dom. by eexists.
Qed.

Lemma alloc_lookup (o : Store.object) (h : Store.heap) :
  (Store.alloc o h).2 !! (Store.alloc o h).1 = Some o.
Proof. unfold Store.alloc. simpl. apply lookup_insert_eq. Qed.

Lemma get_preferred_dex_frame (pairs : Store.loc) (h : Store.heap) (l : Store.loc) (o : Store.object) :
  h !! l = Some o → (Store.get_preferred_dex pairs h).2 !! l = Some o.
Proof.
  intros Hl. unfold Store.get_preferred_dex.
  destruct (h !! pairs) as [[[|x items]|v]|]; [| | |done].
  - by apply alloc_frame.
  - destruct (mapM (Store.key_of h) (x :: items) ≫= _) as [[|first sorted_items]|e];
      [| |done].
    + by do 2 apply alloc_frame.
    + by apply alloc_frame.
  - destruct (negb (Py.truthy v)); [by apply alloc_frame|].
    by destruct v.
Qed.

Lemma mapM_length {X Y} (f : X → outcome Y) (l : list X) (k : list Y) :
  mapM f l = Return k → length l = length k.
Proof.
  revert k. induction l as [|x l IH]; intros k; simpl.
  - by intros [= <-].
  - destruct (f x) as [y|e]; [|done]. simpl.
    destruct (mapM f l) as [k'|e]; [|done]. simpl.
    intros [= <-]. simpl. f_equal. by apply IH.
Qed.

Lemma insert_Permutation {X} (k : Q) (x : X) (l : list (Q * X)) :
  Sorted.insert k x l ≡ₚ (k, x) :: l.
Proof.
  induction l as [|[k' y] l IH]; simpl; [done|].
  destruct (k' <=? k)%Q; [done|].
  rewrite IH. apply Permutation_swap.
Qed.

(** Sorting rearranges; it neither drops nor invents an entry. *)
Lemma descending_Permutation {X} (keyed : list (Q * X)) :
  Sorted.descending keyed ≡ₚ keyed.
Proof.
  induction keyed as [|[k x] l IH]; simpl; [done|].
  rewrite insert_Permutation. by rewrite IH.
Qed.

(** The pair handed back is one of the collection's own objects. *)
Lemma get_preferred_dex_alias (pairs : Store.loc) (h : Store.heap) x items r :
  h !! pairs = Some (Store.ListObj (x :: items)) →
  (Store.get_preferred_dex pairs h).1 = Return r →
  r ∈ x :: items.
Proof.
  intros Hpairs. unfold Store.get_preferred_dex. rewrite Hpairs.
  destruct (mapM (Store.key_of h) (x :: items)) as [keys|e] eqn:Hkeys; [|done].
  change (Return keys ≫= ?k) with (k keys). cbn beta.
  unfold Sorted.sorted_reverse.
  destruct items as [|y items].
  { simpl. intros [= <-]. by left. }
  destruct (mapM Py.rational keys) as [numbers|e] eqn:Hnumbers; [|done].
  change (Return numbers ≫= ?k) with (k numbers). cbn beta.
  change (Return ?l ≫= ?k) with (k l). cbn beta.
  set (input := x :: y :: items) in *.
  pose proof (descending_Permutation (zip numbers input)) as Hperm.
  destruct (Sorted.descending (zip numbers input)) as [|[q first] rest] eqn:E.
  { apply Permutation_nil_l in Hperm.
    apply mapM_length in Hkeys. apply mapM_length in Hnumbers.
    destruct numbers; [simpl in *; lia|done]. }
  simpl. intros [= <-].
  assert ((q, first) ∈ zip numbers input) as Hin.
  { rewrite <- Hperm. by left. }
  by apply elem_of_zip_r in Hin.
Qed.
End StoreFacts.

Section StoreAgreement.

Lemma insert_related {X Y} (R : X → Y → Prop) k x y l l' :
  R x y → Forall2 (same_keys R) l l' →
  Forall2 (same_keys R) (Sorted.insert k x l) (Sorted.insert k y l').
Proof.
  intros Hxy. induction 1 as [|[k1 x1] [k2 y1] l l' [Hk HR] Hl IH]; simpl.
  - constructor; [by split|constructor].
  - simpl in Hk. subst k2. destruct (k1 <=? k)%Q.
    + constructor; [by split|]. constructor; [by split|done].
    + constructor; [by split|]. apply IH.
Qed.

Lemma descending_related {X Y} (R : X → Y → Prop) l l' :
  Forall2 (same_keys R) l l' →
  Forall2 (same_keys R) (Sorted.descending l) (Sorted.descending l').
Proof.
  induction 1 as [|[k1 x1] [k2 y1] l l' [Hk HR] _ IH]; simpl; [constructor|].
  simpl in Hk. subst k2. by apply insert_related.
Qed.

Lemma zip_related {X Y} (R : X → Y → Prop) (ns : list Q) l l' :
  Forall2 R l l' → Forall2 (same_keys R) (zip ns l) (zip ns l').
Proof.
  intros H. revert ns. induction H as [|x y l l' HR _ IH]; intros [|n ns];
    simpl; try constructor; [by split|]. apply IH.
Qed.

Lemma sorted_reverse_related {X Y} (R : X → Y → Prop) keys l l' :
  Forall2 R l l' →
  match Sorted.sorted_reverse keys l, Sorted.sorted_reverse keys l' with
  | Return s, Return s' => Forall2 R s s'
  | Raise e, Raise e' => e = e'
  | _, _ => False
  end.
Proof.
  intros H. unfold Sorted.sorted_reverse.
  destruct H as [|x y l l' Hxy H]; [constructor|].
  destruct H as [|x1 y1 l l' Hxy1 H]; [by repeat constructor|].
  destruct (mapM Py.rational keys) as [ns|e]; simpl; [|done].
  apply Forall2_fmap.
  eapply Forall2_impl.
  - apply descending_related, zip_related with (R := R). by repeat constructor.
  - by intros a b [_ ?].
Qed.

Lemma key_of_content (h : Store.heap) items vs :
  Forall2 (λ x v, h !! x = Some (Store.Obj v)) items vs →
  mapM (Store.key_of h) items = mapM liquidity_key vs.
Proof.
  induction 1 as [|x v items vs Hx _ IH]; simpl; [done|].
  assert (Store.key_of h x = liquidity_key v) as ->
    by (unfold Store.key_of; by rewrite Hx).
  by rewrite IH.
Qed.

(** The store-level selector hands back the object that the
    value-level selector computes from the collection's contents, and
    raises when it raises. *)
Lemma store_selector_agrees (pairs : Store.loc) (h : Store.heap) items vs :
  h !! pairs = Some (Store.ListObj items) →
  Forall2 (λ x v, h !! x = Some (Store.Obj v)) items vs →
  match Store.get_preferred_dex pairs h with
  | (Return r, h') =>
      ∃ v, h' !! r = Some (Store.Obj v) ∧ get_preferred_dex (JArr vs) = Return v
  | (Raise e, _) => get_preferred_dex (JArr vs) = Raise e
  end.
Proof.
  intros Hpairs Hitems. unfold Store.get_preferred_dex, get_preferred_dex.
  rewrite Hpairs. destruct Hitems as [|x v items vs Hx Hitems].
  { simpl. eexists. split; [apply lookup_insert_eq|done]. }
  change (negb (Py.truthy (JArr (v :: vs)))) with false. cbn iota.
  rewrite (key_of_content h (x :: items) (v :: vs)) by by constructor.
  destruct (mapM liquidity_key (v :: vs)) as [keys|e]; [|done].
  change (Return keys ≫= ?k) with (k keys). cbn beta.
  pose proof (sorted_reverse_related (λ x v, h !! x = Some (Store.Obj v)) keys
                (x :: items) (v :: vs) ltac:(by constructor))
    as Hsorted.
  destruct (Sorted.sorted_reverse keys (x :: items)) as [s|e],
           (Sorted.sorted_reverse keys (v :: vs)) as [s'|e']; try done.
  - destruct Hsorted as [|r v' s s' Hr _]; simpl.
    + eexists. split; [|done]. apply lookup_insert_eq.
    + exists v'. split; [|done].
      by apply (alloc_frame (Store.ListObj (r :: s)) h).
  - by subst e'.
Qed.
End StoreAgreement.

(** C9. Selection does not change the collection: in the store after
    the call the list object holds the same references in the same
    order, every pair they refer to has the content it had, and more
    generally every object that existed before the call is as it was.
    The sorted list is a new object. *)
Theorem selection_leaves_collection_unchanged
    (pairs : Store.loc) (h : gmap Store.loc Store.object)
    (items : list Store.loc) (contents : list json) :
  h !! pairs = Some (Store.ListObj items) →
  Forall2 (λ x v, h !! x = Some (Store.Obj v)) items contents →
  (Store.get_preferred_dex pairs h).2 !! pairs = Some (Store.ListObj items)
  ∧ Forall2 (λ x v, (Store.get_preferred_dex pairs h).2 !! x = Some (Store.Obj v))
      items contents
  ∧ ∀ l o, h !! l = Some o → (Store.get_preferred_dex pairs h).2 !! l = Some o.
Proof.
  intros Hpairs Hitems. split; [by apply get_preferred_dex_frame|]. split.
  - eapply Forall2_impl; [exact Hitems|].
    intros x v Hx. by apply get_preferred_dex_frame.
  - intros l o. apply get_preferred_dex_frame.
Qed.

Lemma selection_leaves_collection_unchanged_witness :
  let h' := (Store.get_preferred_dex 1%positive sample_store).2 in
  h' !! 1%positive = Some (Store.ListObj [2%positive; 3%positive])
  ∧ Forall2 (λ x v, h' !! x = Some (Store.Obj v)) [2%positive; 3%positive]
      [venue "uniswap" 500; venue "raydium" 900]
  ∧ ∀ l o, sample_store !! l = Some o → h' !! l = Some o.
Proof.
  apply (selection_leaves_collection_unchanged 1%positive sample_store
           [2%positive; 3%positive] [venue "uniswap" 500; venue "raydium" 900]).
  - vm_compute. reflexivity.
  - repeat constructor; vm_compute; reflexivity.
Defined.

(** On the sample store the selector hands back reference 3, the
    "raydium" pair itself, and the sorted list lives at a new
    reference. *)
Example selection_on_sample_store :
  (Store.get_preferred_dex 1%positive sample_store).1 = Return 3%positive
  ∧ (Store.get_preferred_dex 1%positive sample_store).2 !! 4%positive
    = Some (Store.ListObj [3%positive; 2%positive]).
Proof. split; vm_compute; reflexivity. Qed.

(** ** The mention counter *)

(** C7, as stated, fails: a Reddit search that raises after it has
    yielded two posts leaves a count of 2, not 0. *)
Lemma failing_reddit_keeps_partial_count :
  (reddit_fails_midway sample_ethereum_address 5).2
    = Some (OtherException "server error")
  ∧ (fetch_social_media_mentions three_tweets reddit_fails_midway
       sample_ethereum_address).1 !! "Reddit" ≠ Some 0.
Proof. split; [reflexivity|]. vm_compute. discriminate. Qed.

Section MentionFacts.
Context {tweet post : Type}.
Variable search_recent_tweets : string → nat → outcome (option (list tweet)).
Variable subreddit_all_search : string → nat → list post * option exn.

Lemma count_posts (counts : gmap string nat) (posts : list post) (n : nat) :
  counts !! "Reddit" = Some n →
  foldl (λ counts _, alter S "Reddit" counts) counts posts !! "Reddit"
  = Some (n + length posts).
Proof.
  revert counts n. induction posts as [|p posts IH]; intros counts n Hn; simpl.
  - rewrite Hn. f_equal. lia.
  - rewrite (IH _ (S n)); [f_equal; lia|].
    by rewrite lookup_alter_eq, Hn.
Qed.

Lemma count_posts_other (counts : gmap string nat) (posts : list post) key :
  key ≠ "Reddit" →
  foldl (λ counts _, alter S "Reddit" counts) counts posts !! key
  = counts !! key.
Proof.
  intros Hkey. revert counts. induction posts as [|p posts IH]; intros counts;
    simpl; [done|].
  rewrite IH. by apply lookup_alter_ne.
Qed.
End MentionFacts.

(** C7, amended. The mention counter returns counts whatever the two
    sources do; it has no raising outcome.  The Twitter count is the
    number of tweets in the response, and 0 when the call raised or
    brought no data.  The Reddit count is the number of posts the
    search yielded before it ended or raised, hence 0 when it raised
    before yielding any.  Neither count depends on the other source. *)
Theorem mentions_counted_per_source {tweet post : Type}
    (search_recent_tweets : string → nat → outcome (option (list tweet)))
    (subreddit_all_search : string → nat → list post * option exn)
    (token_address : string) :
  (fetch_social_media_mentions search_recent_tweets subreddit_all_search
     token_address).1 !! "Twitter"
  = Some match search_recent_tweets token_address 5 with
         | Return (Some tweets) => length tweets
         | Return None | Raise _ => 0
         end
  ∧ (fetch_social_media_mentions search_recent_tweets subreddit_all_search
       token_address).1 !! "Reddit"
    = Some (length (subreddit_all_search token_address 5).1).
Proof.
  unfold fetch_social_media_mentions.
  destruct (subreddit_all_search token_address 5) as [posts failure].
  destruct (search_recent_tweets token_address 5) as [[[|t ts]|]|e]; simpl;
    (split; [rewrite count_posts_other by done; apply lookup_insert_eq
            |rewrite (count_posts _ _ 0); [done|by simplify_map_eq]]).
Qed.

(** Reddit fails at once and Twitter returns 3: the counts are 3 and 0,
    and the failure is logged. *)
Example twitter_three_reddit_down :
  fetch_social_media_mentions three_tweets offline_reddit sample_ethereum_address
  = (<["Twitter" := 3]> (<["Reddit" := 0]> ∅),
     [LogError "Error fetching Reddit mentions" (OtherException "connection refused")]).
Proof. vm_compute. reflexivity. Qed.

(** Both sources down: both counts 0, both failures logged. *)
Example both_sources_down :
  fetch_social_media_mentions offline_twitter offline_reddit sample_ethereum_address
  = (<["Twitter" := 0]> (<["Reddit" := 0]> ∅),
     [LogError "Error fetching Twitter mentions" (OtherException "connection refused");
      LogError "Error fetching Reddit mentions" (OtherException "connection refused")]).
Proof. vm_compute. reflexivity. Qed.

(** * Further properties of the program *)

(** ** The classifier outside the numeric domain *)

(** X1. The classifier raises [AttributeError] on a pair that is not a
    [dict], and on a pair whose [liquidity] or [priceChange] entry is
    present but is not a [dict] (a [null], say): the nested [get] has
    nothing to call. *)
Theorem classifier_needs_dicts (pair : json) :
  (is_dict pair = false
   ∨ ∃ fields v, pair = JObj fields ∧ is_dict v = false
       ∧ (fields !! "liquidity" = Some v ∨ fields !! "priceChange" = Some v)) →
  analyze_rug_pull_risk pair = Raise AttributeError.
Proof.
  intros [Hpair|(fields & v & -> & Hv & [Hl|Hp])].
  - by destruct pair.
  - unfold analyze_rug_pull_risk, Py.get. rewrite Hl. by destruct v.
  - unfold analyze_rug_pull_risk, Py.get. rewrite Hp.
    destruct (fields !! "liquidity") as [[| | | | | |sub]|]; try done.
    + simpl. destruct (sub !! "usd"); simpl; by destruct v.
    + simpl. rewrite lookup_empty. simpl. by destruct v.
Qed.

Lemma classifier_needs_dicts_witness :
  analyze_rug_pull_risk
    (pair_object [("liquidity", JNull); ("marketCap", JNum 300000)])
  = Raise AttributeError.
Proof.
  apply classifier_needs_dicts. right.
  exists (list_to_map [("liquidity", JNull); ("marketCap", JNum 300000)]), JNull.
  split; [reflexivity|]. split; [reflexivity|]. left. vm_compute. reflexivity.
Defined.

Section OutcomeFacts.
Context {A B : Type}.

Lemma bind_Return (m : outcome A) (k : A → outcome B) (b : B) :
  m ≫= k = Return b → ∃ a, m = Return a ∧ k a = Return b.
Proof. destruct m as [a|e]; simpl; [eauto|done]. Qed.

Lemma bind_Raise (m : outcome A) (k : A → outcome B) (e : exn) :
  m ≫= k = Raise e → m = Raise e ∨ ∃ a, m = Return a ∧ k a = Raise e.
Proof. destruct m as [a|e']; simpl; [eauto|]. intros [= <-]. by left. Qed.
End OutcomeFacts.

Lemma get_raises (d : json) (key : string) (default : json) (e : exn) :
  Py.get d key default = Raise e → e = AttributeError.
Proof.
  destruct d as [| | | | | |fields]; simpl; try by intros [= <-].
  by destruct (fields !! key).
Qed.

Lemma number_raises (v : json) (e : exn) :
  Py.number v = Raise e → e = TypeError.
Proof. destruct v as [|[]| | | | |]; simpl; by intros [= <-]. Qed.

Lemma rational_raises (v : json) (e : exn) :
  Py.rational v = Raise e → e = TypeError.
Proof.
  unfold Py.rational. intros [H|(n & _ & H)]%bind_Raise.
  - by eapply number_raises.
  - destruct (Py.value n); [done|by injection H as <-..].
Qed.

Lemma number_returns (v : json) (q : num) :
  Py.number v = Return q → is_int_or_float v = true.
Proof. by destruct v. Qed.

(** The only exceptions the classifier raises. *)
Lemma classifier_exceptions (pair : json) (e : exn) :
  analyze_rug_pull_risk pair = Raise e → e = AttributeError ∨ e = TypeError.
Proof.
  unfold analyze_rug_pull_risk. intros H.
  repeat (apply bind_Raise in H as [H|(? & _ & H)];
          [first [apply get_raises in H; by left
                 |apply number_raises in H; by right]|]).
  done.
Qed.

(** X2. A pair whose [marketCap], [fdv] or [liquidity.usd] entry is
    present and is not a number ([null], a string, ...) makes the
    classifier raise, with [AttributeError] or [TypeError], whatever
    its other entries are. *)
Theorem classifier_raises_on_non_number (fields : gmap string json) (x : json) :
  (fields !! "marketCap" = Some x ∨ fields !! "fdv" = Some x
   ∨ ∃ sub, fields !! "liquidity" = Some (JObj sub) ∧ sub !! "usd" = Some x) →
  is_int_or_float x = false →
  ∃ e, analyze_rug_pull_risk (JObj fields) = Raise e
       ∧ (e = AttributeError ∨ e = TypeError).
Proof.
  intros Hx Hnum.
  destruct (analyze_rug_pull_risk (JObj fields)) as [v|e] eqn:E.
  - exfalso. unfold analyze_rug_pull_risk in E.
    apply bind_Return in E as (ld & Hld & E).
    apply bind_Return in E as (lv & Hlv & E).
    apply bind_Return in E as (pd & _ & E).
    apply bind_Return in E as (hv & _ & E).
    apply bind_Return in E as (pv & _ & E).
    apply bind_Return in E as (mv & Hmv & E).
    apply bind_Return in E as (fv & Hfv & E).
    apply bind_Return in E as (l & Hl & E).
    apply bind_Return in E as (m & Hm & E).
    apply bind_Return in E as (p & _ & E).
    apply bind_Return in E as (f & Hf & _).
    apply number_returns in Hl, Hm, Hf.
    simpl in Hld, Hmv, Hfv.
    destruct Hx as [Hx|[Hx|(sub & Hsub & Hx)]].
    + rewrite Hx in Hmv. injection Hmv as <-. congruence.
    + rewrite Hx in Hfv. injection Hfv as <-. congruence.
    + rewrite Hsub in Hld. injection Hld as <-. simpl in Hlv.
      rewrite Hx in Hlv. injection Hlv as <-. congruence.
  - exists e. split; [done|]. by eapply classifier_exceptions.
Qed.

Lemma classifier_raises_on_non_number_witness :
  ∃ e, analyze_rug_pull_risk
         (pair_object [("liquidity", usd 30000); ("marketCap", JNull)]) = Raise e
       ∧ (e = AttributeError ∨ e = TypeError).
Proof.
  apply (classifier_raises_on_non_number
           (list_to_map [("liquidity", usd 30000); ("marketCap", JNull)]) JNull).
  - left. vm_compute. reflexivity.
  - reflexivity.
Defined.

(** X3. When [priceChange] holds a [percent] entry, that entry is the
    price change the verdict is built from; [h24] is then not looked
    at, whatever it holds.  Without [percent], a numeric [h24] is
    used. *)
Theorem percent_takes_precedence (fields sub : gmap string json) (v : verdict) :
  fields !! "priceChange" = Some (JObj sub) →
  analyze_rug_pull_risk (JObj fields) = Return v →
  match sub !! "percent" with
  | Some percent => Py.number percent = Return (price_change_percentage v)
  | None =>
      Py.number (default (JNum 0) (sub !! "h24"))
      = Return (price_change_percentage v)
  end.
Proof.
  intros Hsub E. unfold analyze_rug_pull_risk in E.
  apply bind_Return in E as (ld & _ & E).
  apply bind_Return in E as (lv & _ & E).
  apply bind_Return in E as (pd & Hpd & E).
  apply bind_Return in E as (hv & Hhv & E).
  apply bind_Return in E as (pv & Hpv & E).
  apply bind_Return in E as (mv & _ & E).
  apply bind_Return in E as (fv & _ & E).
  apply bind_Return in E as (l & _ & E).
  apply bind_Return in E as (m & _ & E).
  apply bind_Return in E as (p & Hp & E).
  apply bind_Return in E as (f & _ & E).
  injection E as <-. simpl.
  simpl in Hpd. rewrite Hsub in Hpd. injection Hpd as <-.
  simpl in Hhv, Hpv.
  destruct (sub !! "percent") as [percent|].
  - injection Hpv as <-. done.
  - injection Hpv as <-. destruct (sub !! "h24"); by injection Hhv as <-.
Qed.

Lemma percent_takes_precedence_witness :
  ∃ v, analyze_rug_pull_risk
         (pair_object [("priceChange",
                        pair_object [("percent", JNum 7); ("h24", JStr "n/a")])])
       = Return v
       ∧ Py.number (JNum 7) = Return (price_change_percentage v).
Proof.
  eexists. split; [vm_compute; reflexivity|].
  exact (percent_takes_precedence
           (list_to_map [("priceChange",
                          pair_object [("percent", JNum 7); ("h24", JStr "n/a")])])
           (list_to_map [("percent", JNum 7); ("h24", JStr "n/a")])
           _ eq_refl eq_refl).
Defined.

(** ** Tier and key factors of one verdict *)

Section Factors.
Local Open Scope Q_scope.

Lemma make_verdict_factors (l p m f : num) :
  is_nan l = false → factors_follow_tier (make_verdict l p m f).
Proof.
  intros Hnan. unfold factors_follow_tier. simpl.
  unfold risk_calculation, key_factor_liquidity, key_factor_market_cap,
    key_factor_price_change, key_factor_fdv.
  destruct (_ && _ && _) eqn:E1.
  { (* Low *)
    apply andb_true_iff in E1 as [[-> ->]%andb_true_iff Hp].
    rewrite (le_lt_false p 50 500 Hp) by done.
    repeat split. by destruct (Py.le p 0). }
  clear E1. destruct (_ && _ && _) eqn:E2.
  { (* Moderate *)
    apply andb_true_iff in E2 as [[-> Hl]%andb_true_iff _].
    by rewrite (le_lt_false l 20000 25000 Hl). }
  clear E2. destruct (Py.lt l 10000) eqn:E3; cbn [orb].
  { (* High, by liquidity *)
    left. by rewrite (lt_lt_false l 10000 25000 E3), (lt_le_false l 10000 10000 E3). }
  pose proof (not_lt_le l 10000 E3 Hnan) as Hl.
  assert ((if Py.lt 25000 l then LevelHigh
           else if Py.le 10000 l then LevelMedium else LevelLow) ≠ LevelLow)
    as Hlevel by (rewrite Hl; by destruct (Py.lt 25000 l)).
  destruct (Py.le p 0) eqn:Ep.
  { (* High, by price change *)
    right. by rewrite (le_lt_false p 0 500 Ep). }
  assert ((if Py.lt 500 p then Volatile
           else if false then Negative else Stable) ≠ Negative)
    as Hprice by by destruct (Py.lt 500 p).
  assert (Py.lt l 5000 = false) as ->.
  { destruct (Py.lt l 5000) eqn:E4; [|done].
    by rewrite (lt_weaken l 5000 10000 E4) in E3. }
  cbn [orb]. destruct (Py.lt f m) eqn:Ef.
  { (* Critical *) done. }
  assert ((if false then FdvLower
           else if Py.lt m f then FdvHigher else Balanced) ≠ FdvLower)
    as Hfdv by by destruct (Py.lt m f).
  by destruct (_ || _).
Qed.
End Factors.

Lemma analyze_returns_make_verdict (pair : json) (v : verdict) :
  analyze_rug_pull_risk pair = Return v →
  ∃ l p m f, v = make_verdict l p m f.
Proof.
  unfold analyze_rug_pull_risk. intros E.
  do 11 (apply bind_Return in E as (? & _ & E)).
  injection E as <-. eauto.
Qed.

(** X4. The key factors a verdict shows are tied to its tier, as long
    as the liquidity is not NaN.  A Low verdict shows High liquidity
    and High market cap; a Moderate one shows Medium liquidity; a High
    one shows Low liquidity or a Negative price change; Critical,
    Extreme and Low-to-Moderate verdicts never show Low liquidity or a
    Negative price change, a Critical one always shows the FDV below
    the market cap, and the other two never do.  (A NaN liquidity fails
    every comparison: it is labelled Low and passes the High test.) *)
Theorem verdict_factors_follow_tier (pair : json) (v : verdict) :
  analyze_rug_pull_risk pair = Return v →
  is_nan (liquidity_usd v) = false →
  factors_follow_tier v.
Proof.
  intros (l & p & m & f & ->)%analyze_returns_make_verdict Hnan.
  by apply make_verdict_factors.
Qed.

Lemma verdict_factors_follow_tier_witness :
  ∃ v, analyze_rug_pull_risk thin_pair = Return v
       ∧ is_nan (liquidity_usd v) = false
       ∧ factors_follow_tier v.
Proof.
  eexists. split; [vm_compute; reflexivity|]. split; [reflexivity|].
  apply (verdict_factors_follow_tier thin_pair); vm_compute; reflexivity.
Defined.

(** With a NaN liquidity and a price change of 10 the verdict is
    Low-to-Moderate and shows Low liquidity. *)
Example nan_liquidity_is_labelled_low :
  ∃ v, analyze_rug_pull_risk nan_pair = Return v
       ∧ risk v = LowToModerate ∧ liquidity_level v = LevelLow.
Proof. eexists. repeat split; vm_compute; reflexivity. Qed.

(** ** The pair selector on arbitrary input *)

Lemma mapM_Return_Forall2 {X Y} (f : X → outcome Y) (l : list X) (k : list Y) :
  mapM f l = Return k → Forall2 (λ x y, f x = Return y) l k.
Proof.
  revert k. induction l as [|x l IH]; intros k; simpl.
  - intros [= <-]. constructor.
  - intros (y & Hy & E)%bind_Return. apply bind_Return in E as (k' & Hk' & E).
    injection E as <-. constructor; [done|by apply IH].
Qed.

Lemma mapM_Raise {X Y} (f : X → outcome Y) (l : list X) (e : exn) :
  mapM f l = Raise e → ∃ x, x ∈ l ∧ f x = Raise e.
Proof.
  induction l as [|x l IH]; simpl; [done|].
  intros [H|(y & _ & H)]%bind_Raise.
  - exists x. split; [by left|done].
  - apply bind_Raise in H as [H|(k & _ & H)]; [|done].
    destruct (IH H) as (x' & Hx' & Hf). exists x'. split; [by right|done].
Qed.

Lemma mapM_raises_if {X Y} (f : X → outcome Y) (l : list X) (x : X) (e : exn) :
  x ∈ l → f x = Raise e → ∃ e', mapM f l = Raise e'.
Proof.
  intros Hx Hf. destruct (mapM f l) as [k|e'] eqn:E; [|by eexists].
  apply mapM_Return_Forall2 in E.
  apply list_elem_of_lookup in Hx as [i Hi].
  destruct (Forall2_lookup_l _ _ _ _ _ E Hi) as (y & _ & Hy). congruence.
Qed.

Lemma liquidity_key_raises (x : json) (e : exn) :
  liquidity_key x = Raise e → e = AttributeError.
Proof.
  unfold liquidity_key.
  intros [H|(d & _ & H)]%bind_Raise; by apply get_raises in H.
Qed.

Lemma liquidity_key_returns (x k : json) :
  liquidity_key x = Return k → is_dict x = true.
Proof. by destruct x. Qed.

Lemma sorted_reverse_elements {X} (keys : list json) (items s : list X) (x : X) :
  Sorted.sorted_reverse keys items = Return s → x ∈ s → x ∈ items.
Proof.
  unfold Sorted.sorted_reverse. destruct items as [|a [|b items]].
  - by intros [= <-].
  - by intros [= <-].
  - intros (numbers & _ & E)%bind_Return. injection E as <-.
    intros ((q & x') & -> & Hin)%list_elem_of_fmap.
    rewrite descending_Permutation in Hin. by apply elem_of_zip_r in Hin.
Qed.

(** X5. Whatever the selector returns is a [dict]: the empty one, or an
    element of the collection on which the key function's [get] calls
    went through.  The [get] calls that follow in the handlers
    therefore cannot fail on the selected pair itself. *)
Theorem selected_pair_is_dict (pairs x : json) :
  get_preferred_dex pairs = Return x → is_dict x = true.
Proof.
  unfold get_preferred_dex.
  destruct (negb (Py.truthy pairs)); [by intros [= <-]|].
  destruct pairs as [| | | | |items|]; try done.
  intros (keys & Hkeys & E)%bind_Return.
  apply bind_Return in E as (s & Hs & E).
  destruct s as [|first s']; [by injection E as <-|].
  injection E as <-.
  assert (first ∈ items) as Hin.
  { eapply sorted_reverse_elements; [exact Hs|by left]. }
  apply mapM_Return_Forall2 in Hkeys.
  apply list_elem_of_lookup in Hin as [i Hi].
  destruct (Forall2_lookup_l _ _ _ _ _ Hkeys Hi) as (k & _ & Hk).
  by eapply liquidity_key_returns.
Qed.

Lemma selected_pair_is_dict_witness :
  get_preferred_dex (JArr sample_pairs) = Return (venue "raydium" 900)
  ∧ is_dict (venue "raydium" 900) = true.
Proof.
  split; [vm_compute; reflexivity|].
  apply (selected_pair_is_dict (JArr sample_pairs)). vm_compute. reflexivity.
Defined.

(** X6. A collection with an element that is not a [dict], or whose
    [liquidity] entry is present and not a [dict], makes the selector
    raise [AttributeError], wherever the element stands and whatever
    the other pairs hold. *)
Theorem selector_raises_on_malformed_element (items : list json) (x : json) :
  x ∈ items →
  (is_dict x = false
   ∨ ∃ fields v, x = JObj fields ∧ fields !! "liquidity" = Some v
                 ∧ is_dict v = false) →
  get_preferred_dex (JArr items) = Raise AttributeError.
Proof.
  intros Hx Hbad.
  assert (liquidity_key x = Raise AttributeError) as Hkey.
  { destruct Hbad as [Hd|(fields & v & -> & Hv & Hd)].
    - by destruct x.
    - unfold liquidity_key, Py.get. rewrite Hv. by destruct v. }
  unfold get_preferred_dex.
  destruct items as [|y items]; [by apply elem_of_nil in Hx|].
  change (negb (Py.truthy (JArr (y :: items)))) with false. cbn iota.
  destruct (mapM_raises_if _ _ _ _ Hx Hkey) as (e & He).
  rewrite He. simpl. f_equal.
  apply mapM_Raise in He as (x' & _ & Hx'). by apply liquidity_key_raises in Hx'.
Qed.

Lemma selector_raises_on_malformed_element_witness :
  get_preferred_dex (JArr [venue "uniswap" 500; JNull; venue "orca" 900])
  = Raise AttributeError.
Proof.
  apply (selector_raises_on_malformed_element _ JNull).
  - right. left.
  - left. reflexivity.
Defined.

(** ** The sort the selector relies on *)

Section SortFacts.
Context {A : Type}.
Implicit Types keyed : list (Q * A).




End SortFacts.


(** ** Runs of the message handler *)

Section HandlerRuns.

Lemma writes_ret {A} (a : A) : writes (mret a) (Return a) [].
Proof. intros [ud evs]. unfold mret, io_ret. simpl. by rewrite app_nil_r. Qed.

Lemma writes_emit (evs : list event) : writes (emit evs) (Return ()) evs.
Proof. by intros [ud old]. Qed.

Lemma writes_lift {A} (m : outcome A) : writes (lift m) m [].
Proof. intros [ud evs]. unfold lift. simpl. by rewrite app_nil_r. Qed.

Lemma writes_bind {A B} (m : io A) (k : A → io B) a t1 r t2 :
  writes m (Return a) t1 → writes (k a) r t2 → writes (m ≫= k) r (t1 ++ t2).
Proof.
  intros Hm Hk s. unfold mbind, io_bind. rewrite Hm, Hk. simpl.
  by rewrite app_assoc.
Qed.

Lemma writes_bind_raise {A B} (m : io A) (k : A → io B) e t :
  writes m (Raise e) t → writes (m ≫= k) (Raise e) t.
Proof. intros Hm s. unfold mbind, io_bind. by rewrite Hm. Qed.

Lemma calls_of_app (t1 t2 : list event) :
  calls_of (t1 ++ t2) = calls_of t1 ++ calls_of t2.
Proof. apply omap_app. Qed.

Lemma calls_of_log (log : list log_record) : calls_of (Log <$> log) = [].
Proof. induction log; [done|]. simpl. exact IHlog. Qed.

Lemma reports_of_app (t1 t2 : list event) :
  reports_of (t1 ++ t2) = reports_of t1 ++ reports_of t2.
Proof. apply omap_app. Qed.

Lemma reports_of_log (log : list log_record) : reports_of (Log <$> log) = [].
Proof. induction log; [done|]. simpl. exact IHlog. Qed.

Lemma replies_of_app (t1 t2 : list event) :
  replies_of (t1 ++ t2) = replies_of t1 ++ replies_of t2.
Proof. apply omap_app. Qed.

Lemma replies_of_log (log : list log_record) : replies_of (Log <$> log) = [].
Proof. induction log; [done|]. simpl. exact IHlog. Qed.

Lemma run_bind {A B} (m : io A) (k : A → io B) (Q : outcome B → list event → Prop)
    r1 t1 :
  writes m r1 t1 →
  match r1 with
  | Return a => ∃ r t, writes (k a) r t ∧ Q r (t1 ++ t)
  | Raise e => Q (Raise e) t1
  end →
  ∃ r t, writes (m ≫= k) r t ∧ Q r t.
Proof.
  intros Hm. destruct r1 as [a|e].
  - intros (r & t & Hk & HQ). exists r, (t1 ++ t). split; [|done].
    by eapply writes_bind.
  - intros HQ. exists (Raise e), t1. split; [|done]. by apply writes_bind_raise.
Qed.

Context {tweet post : Type}.
Variable requests_get_json : string → outcome json.
Variable search_recent_tweets : string → nat → outcome (option (list tweet)).
Variable subreddit_all_search : string → nat → list post * option exn.

Lemma writes_call_fetch (a : string) :
  writes (call_fetch_dexscreener_data requests_get_json a)
    (Return (fetch_dexscreener_data requests_get_json a).1)
    (Call FetchDexscreenerData
       :: (Log <$> (fetch_dexscreener_data requests_get_json a).2)).
Proof.
  unfold call_fetch_dexscreener_data.
  destruct (fetch_dexscreener_data requests_get_json a) as [pairs log].
  intros [ud evs]. unfold mbind, io_bind, emit, mret, io_ret. simpl.
  by rewrite <- app_assoc.
Qed.

Lemma writes_call_select (pairs : json) :
  writes (call_get_preferred_dex pairs) (get_preferred_dex pairs)
    [Call GetPreferredDex].
Proof. by intros [ud evs]. Qed.

Lemma writes_call_analyze (pair : json) :
  writes (call_analyze_rug_pull_risk pair) (analyze_rug_pull_risk pair)
    [Call AnalyzeRugPullRisk].
Proof. by intros [ud evs]. Qed.

Lemma writes_call_mentions (a : string) :
  writes (call_fetch_social_media_mentions search_recent_tweets
            subreddit_all_search a)
    (Return (fetch_social_media_mentions search_recent_tweets
               subreddit_all_search a).1)
    (Call FetchSocialMediaMentions
       :: (Log <$> (fetch_social_media_mentions search_recent_tweets
                      subreddit_all_search a).2)).
Proof.
  unfold call_fetch_social_media_mentions.
  destruct (fetch_social_media_mentions _ _ a) as [counts log].
  intros [ud evs]. unfold mbind, io_bind, emit, mret, io_ret. simpl.
  by rewrite <- app_assoc.
Qed.

Lemma selector_exceptions (pairs : json) (e : exn) :
  get_preferred_dex pairs = Raise e → e = AttributeError ∨ e = TypeError.
Proof.
  unfold get_preferred_dex. destruct (negb (Py.truthy pairs)); [done|].
  destruct pairs as [| | | | |items|]; try (intros [= <-]; auto).
  intros [H|(keys & _ & H)]%bind_Raise.
  - apply mapM_Raise in H as (x & _ & H). left. by eapply liquidity_key_raises.
  - apply bind_Raise in H as [H|(s & _ & H)]; [|by destruct s].
    unfold Sorted.sorted_reverse in H. destruct items as [|a [|b items]]; try done.
    apply bind_Raise in H as [H|(ns & _ & H)]; [|done].
    apply mapM_Raise in H as (x & _ & H). right. by eapply rational_raises.
Qed.

End HandlerRuns.

Lemma price_change_h24_raises (pair : json) (e : exn) :
  price_change_h24 pair = Raise e → e = AttributeError.
Proof.
  unfold price_change_h24. intros H.
  apply bind_Raise in H as [H|(d & _ & H)]; [by apply get_raises in H|].
  apply bind_Raise in H as [H|(h & _ & H)]; [by apply get_raises in H|].
  destruct (is_int_or_float h); [|done].
  apply bind_Raise in H as [H|(d' & _ & H)]; [by apply get_raises in H|].
  apply bind_Raise in H as [H|(h' & _ & H)]; [by apply get_raises in H|done].
Qed.

Lemma nested_get_raises (pair : json) (k1 k2 : string) (d1 d2 : json) (e : exn) :
  (d ← Py.get pair k1 d1; Py.get d k2 d2) = Raise e → e = AttributeError.
Proof.
  intros [H|(d & _ & H)]%bind_Raise; by apply get_raises in H.
Qed.

(** Read the calls and reports off an explicit trail. *)
Ltac read_trail :=
  unfold pipeline_outcome;
  repeat progress
    (rewrite ?calls_of_app, ?reports_of_app, ?calls_of_log, ?reports_of_log;
     simpl).

Lemma last_of_run (c1 c2 c3 c4 x : event) (l1 l2 l3 : list event) :
  last (c1 :: l1 ++ c2 :: l2 ++ c3 :: c4 :: l3 ++ [x]) = Some x.
Proof.
  apply last_Some. exists (c1 :: l1 ++ c2 :: l2 ++ c3 :: c4 :: l3).
  simpl. f_equal. rewrite <- app_assoc. simpl. f_equal. f_equal.
  rewrite <- app_assoc. done.
Qed.

Ltac name_exception :=
  match goal with
  | H : get_preferred_dex _ = Raise _ |- _ => apply selector_exceptions in H
  | H : analyze_rug_pull_risk _ = Raise _ |- _ => apply classifier_exceptions in H
  | H : price_change_h24 _ = Raise _ |- _ => apply price_change_h24_raises in H
  | H : Py.get _ _ _ = Raise _ |- _ => apply get_raises in H
  | H : (_ ≫= _) = Raise _ |- _ => apply nested_get_raises in H
  end.

Section PipelineRuns.
Context {tweet post : Type}.
Variable requests_get_json : string → outcome json.
Variable search_recent_tweets : string → nat → outcome (option (list tweet)).
Variable subreddit_all_search : string → nat → list post * option exn.

(** One step of a run: settle the first action and go on with the
    rest. *)
Ltac run_step :=
  lazymatch goal with
  | |- ∃ r t, writes (emit _ ≫= _) r t ∧ _ =>
      eapply run_bind; [apply writes_emit|cbn beta iota]
  | |- ∃ r t, writes (call_fetch_dexscreener_data _ _ ≫= _) r t ∧ _ =>
      eapply run_bind; [apply writes_call_fetch|cbn beta iota]
  | |- ∃ r t, writes (call_get_preferred_dex ?p ≫= _) r t ∧ _ =>
      eapply run_bind; [apply writes_call_select|];
      destruct (get_preferred_dex p) eqn:?; cbn beta iota
  | |- ∃ r t, writes (call_analyze_rug_pull_risk ?p ≫= _) r t ∧ _ =>
      eapply run_bind; [apply writes_call_analyze|];
      destruct (analyze_rug_pull_risk p) eqn:?; cbn beta iota
  | |- ∃ r t, writes (call_fetch_social_media_mentions _ _ _ ≫= _) r t ∧ _ =>
      eapply run_bind; [apply writes_call_mentions|cbn beta iota]
  | |- ∃ r t, writes (lift ?m ≫= _) r t ∧ _ =>
      eapply run_bind; [apply writes_lift|];
      destruct m eqn:?; cbn beta iota
  | |- ∃ r t, writes (emit _) r t ∧ _ =>
      eexists _, _; split; [apply writes_emit|]
  end.

Lemma analyze_token_branch_run (a : string) :
  ∃ r t,
    writes (analyze_token_branch requests_get_json search_recent_tweets
              subreddit_all_search a) r t
    ∧ pipeline_outcome r t ∧ head t = Some (ReplyText (Analyzing a)).
Proof.
  unfold analyze_token_branch.
  repeat run_step; (split; [|reflexivity]); read_trail.
  all: try (name_exception; split; [by left|split; [done|by auto]]).
  - split; [done|]. eexists. split; [done|].
    apply (last_of_run _ _ _ _ _ _ []).
  - name_exception. split; [by right|split; [done|by auto]].
Qed.

Lemma rug_pull_scan_branch_run (a : string) :
  ∃ r t,
    writes (rug_pull_scan_branch requests_get_json search_recent_tweets
              subreddit_all_search a) r t
    ∧ pipeline_outcome r t ∧ head t = Some (ReplyText (CheckingRugPull a)).
Proof.
  unfold rug_pull_scan_branch.
  repeat run_step; (split; [|reflexivity]); read_trail.
  all: try (name_exception; split; [by right|split; [done|by auto]]).
  - split; [done|]. eexists. split; [done|].
    apply (last_of_run _ _ _ _ _ _ []).
  - name_exception. split; [by left|split; [done|by auto]].
Qed.

(** Read the replies and the calls off an explicit trail. *)
Ltac read_replies :=
  repeat progress
    (rewrite ?replies_of_app, ?replies_of_log, ?calls_of_app, ?calls_of_log;
     simpl);
  split; [|reflexivity];
  let H := fresh in
  intros H; repeat (apply elem_of_cons in H as [H|H]; [discriminate|]);
  by apply elem_of_nil in H.

(** Neither branch sends the prompt, and both begin their calls with
    the market-data fetch. *)
Lemma analyze_token_branch_replies (a : string) :
  ∃ r t,
    writes (analyze_token_branch requests_get_json search_recent_tweets
              subreddit_all_search a) r t
    ∧ (InvalidAddressFormat ∉ replies_of t)
    ∧ head (calls_of t) = Some FetchDexscreenerData.
Proof. unfold analyze_token_branch. repeat run_step; read_replies. Qed.

Lemma rug_pull_scan_branch_replies (a : string) :
  ∃ r t,
    writes (rug_pull_scan_branch requests_get_json search_recent_tweets
              subreddit_all_search a) r t
    ∧ (InvalidAddressFormat ∉ replies_of t)
    ∧ head (calls_of t) = Some FetchDexscreenerData.
Proof. unfold rug_pull_scan_branch. repeat run_step; read_replies. Qed.

(** Once the text is accepted, the handler stores the address and
    goes into the branch of the chosen option. *)
Lemma handle_accepted (text : string) (s : session) :
  Re.matches address_format (Strip.strip text) = true →
  handle_token_address requests_get_json search_recent_tweets
    subreddit_all_search text s
  = (if bool_decide (user_data s !! "selected_option" = Some "analyze_token")
     then analyze_token_branch requests_get_json search_recent_tweets
            subreddit_all_search (Strip.strip text)
     else if bool_decide (user_data s !! "selected_option" = Some "rug_pull_scan")
     then rug_pull_scan_branch requests_get_json search_recent_tweets
            subreddit_all_search (Strip.strip text)
     else mret ())
      {| user_data := <["token_address" := Strip.strip text]> (user_data s);
         events := events s |}.
Proof.
  intros Hacc. unfold handle_token_address. rewrite Hacc. cbn [negb].
  unfold mbind at 1, io_bind at 1, store_user_data. cbn beta iota.
  unfold mbind at 1, io_bind at 1, read_user_data. cbn beta iota.
  cbn [user_data].
  rewrite lookup_insert_ne by done.
  reflexivity.
Qed.

(** What an accepted text sets off. *)
Lemma handle_accepted_trail (text : string) (s : session) :
  Re.matches address_format (Strip.strip text) = true →
  ∃ r new,
    handle_token_address requests_get_json search_recent_tweets
      subreddit_all_search text s
    = (r, {| user_data := <["token_address" := Strip.strip text]> (user_data s);
             events := events s ++ new |})
    ∧ (InvalidAddressFormat ∉ replies_of new)
    ∧ (user_data s !! "selected_option" = Some "analyze_token"
       ∨ user_data s !! "selected_option" = Some "rug_pull_scan" →
       head (calls_of new) = Some FetchDexscreenerData).
Proof.
  intros Hacc. rewrite handle_accepted by done.
  destruct (bool_decide (_ = Some "analyze_token")) eqn:Hanalyze.
  { destruct (analyze_token_branch_replies (Strip.strip text))
      as (r & t & Hw & Hreplies & Hcalls).
    exists r, t. by rewrite Hw. }
  destruct (bool_decide (_ = Some "rug_pull_scan")) eqn:Hscan.
  { destruct (rug_pull_scan_branch_replies (Strip.strip text))
      as (r & t & Hw & Hreplies & Hcalls).
    exists r, t. by rewrite Hw. }
  exists (Return ()), []. split; [by rewrite app_nil_r|].
  split; [apply not_elem_of_nil|].
  apply bool_decide_eq_false in Hanalyze, Hscan. by intros [|].
Qed.

Lemma selector_on_nothing (pairs : json) :
  Py.truthy pairs = false → get_preferred_dex pairs = Return (JObj ∅).
Proof. intros H. unfold get_preferred_dex. by rewrite H. Qed.

Lemma classifier_on_empty_pair :
  analyze_rug_pull_risk (JObj ∅)
  = Return (make_verdict (Exact 0) (Exact 0) (Exact 0) (Exact 0)).
Proof. vm_compute. reflexivity. Qed.

(** A run whose outcome is known at each step. *)
Ltac known_step :=
  lazymatch goal with
  | |- ∃ r t, writes (call_get_preferred_dex _ ≫= _) r t ∧ _ =>
      eapply run_bind; [apply writes_call_select|];
      rewrite selector_on_nothing by assumption; cbn beta iota
  | |- ∃ r t, writes (call_analyze_rug_pull_risk _ ≫= _) r t ∧ _ =>
      eapply run_bind; [apply writes_call_analyze|];
      rewrite classifier_on_empty_pair; cbn beta iota
  | |- ∃ r t, writes (lift _ ≫= _) r t ∧ _ =>
      eapply run_bind; [apply writes_lift|];
      unfold price_change_h24, Py.get; simpl; rewrite ?lookup_empty; simpl
  | _ => run_step
  end.

Lemma analyze_token_branch_without_data (a : string) :
  Py.truthy (fetch_dexscreener_data requests_get_json a).1 = false →
  ∃ r t,
    writes (analyze_token_branch requests_get_json search_recent_tweets
              subreddit_all_search a) r t
    ∧ reports_high r t.
Proof.
  intros Hnone. unfold analyze_token_branch.
  repeat known_step. unfold reports_high. split; [reflexivity|].
  read_trail. eexists _, _. split; [reflexivity|]. split; [reflexivity|].
  vm_compute. reflexivity.
Qed.

Lemma rug_pull_scan_branch_without_data (a : string) :
  Py.truthy (fetch_dexscreener_data requests_get_json a).1 = false →
  ∃ r t,
    writes (rug_pull_scan_branch requests_get_json search_recent_tweets
              subreddit_all_search a) r t
    ∧ reports_high r t.
Proof.
  intros Hnone. unfold rug_pull_scan_branch.
  repeat known_step. unfold reports_high. split; [reflexivity|].
  read_trail. eexists _, _. split; [reflexivity|]. split; [reflexivity|].
  vm_compute. reflexivity.
Qed.

Lemma accepted_address_not_empty (a : string) :
  Re.matches address_format a = true → a ≠ "".
Proof. intros H ->. vm_compute in H. discriminate. Qed.

Lemma handle_accepted_user_data (text : string) (s : session) :
  Re.matches address_format (Strip.strip text) = true →
  user_data (handle_token_address requests_get_json search_recent_tweets
               subreddit_all_search text s).2
  = <["token_address" := Strip.strip text]> (user_data s).
Proof.
  intros Hacc. rewrite handle_accepted by done.
  destruct (bool_decide _).
  { destruct (analyze_token_branch_run (Strip.strip text)) as (r & t & Hw & _).
    by rewrite Hw. }
  destruct (bool_decide _); [|done].
  destruct (rug_pull_scan_branch_run (Strip.strip text)) as (r & t & Hw & _).
  by rewrite Hw.
Qed.
End PipelineRuns.

(** C8. The handler accepts the stripped message text exactly when it
    is [0x] followed by 40 hex characters, or 32 to 44 characters that
    are letters or digits other than 0, O, I and l.  On an accepted
    text it stores the stripped text as the token address and never
    sends the "Invalid address format" prompt; with a menu option in
    force it goes into the pipeline, whose first call is the
    market-data fetch.  On every other text it replies with the prompt
    and does nothing else: the session data is unchanged and the only
    event is that reply, so no call to the market-data fetch, the pair
    selector, the classifier or the mention counter is made. *)
Theorem address_format_gates_pipeline {tweet post : Type}
    (requests_get_json : string → outcome json)
    (search_recent_tweets : string → nat → outcome (option (list tweet)))
    (subreddit_all_search : string → nat → list post * option exn)
    (text : string) (s : session) :
  (Re.matches address_format (Strip.strip text) = true
   ↔ Spec.ethereum_shape (Strip.strip text) ∨ Spec.solana_shape (Strip.strip text))
  ∧ (Re.matches address_format (Strip.strip text) = true →
     ∃ r new,
       handle_token_address requests_get_json search_recent_tweets
         subreddit_all_search text s
       = (r, {| user_data := <["token_address" := Strip.strip text]> (user_data s);
                events := events s ++ new |})
       ∧ (InvalidAddressFormat ∉ replies_of new)
       ∧ (user_data s !! "selected_option" = Some "analyze_token"
          ∨ user_data s !! "selected_option" = Some "rug_pull_scan" →
          head (calls_of new) = Some FetchDexscreenerData))
  ∧ (Re.matches address_format (Strip.strip text) = false →
     handle_token_address requests_get_json search_recent_tweets
       subreddit_all_search text s
     = (Return (),
        {| user_data := user_data s;
           events := events s ++ [ReplyText InvalidAddressFormat] |})
     ∧ ∀ step, Call step ∉ [ReplyText InvalidAddressFormat]).
Proof.
  split; [|split].
  - rewrite address_format_split, orb_true_iff.
    rewrite matches_ethereum_shape by apply strip_no_trailing_newline.
    rewrite matches_solana_shape by apply strip_no_trailing_newline.
    reflexivity.
  - apply handle_accepted_trail.
  - intros Hrej. split.
    + unfold handle_token_address. rewrite Hrej. reflexivity.
    + intros step Hin. apply list_elem_of_singleton in Hin. discriminate.
Qed.

Lemma address_format_gates_pipeline_witness :
  (Re.matches address_format (Strip.strip "  send me the report  ") = false
   ∧ handle_token_address offline_requests offline_twitter offline_reddit
       "  send me the report  " fresh_session
     = (Return (),
        {| user_data := ∅; events := [ReplyText InvalidAddressFormat] |}))
  ∧ (Re.matches address_format (Strip.strip sample_ethereum_address) = true
     ∧ ∃ r new,
         handle_token_address offline_requests offline_twitter offline_reddit
           sample_ethereum_address analyze_session
         = (r, {| user_data := <["token_address" :=
                                   Strip.strip sample_ethereum_address]>
                                 (user_data analyze_session);
                  events := events analyze_session ++ new |})
         ∧ (InvalidAddressFormat ∉ replies_of new)
         ∧ head (calls_of new) = Some FetchDexscreenerData).
Proof.
  split.
  - split; [vm_compute; reflexivity|].
    apply (address_format_gates_pipeline offline_requests offline_twitter
             offline_reddit "  send me the report  " fresh_session).
    vm_compute. reflexivity.
  - split; [vm_compute; reflexivity|].
    destruct (address_format_gates_pipeline offline_requests offline_twitter
                offline_reddit sample_ethereum_address analyze_session)
      as (_ & Haccepted & _).
    destruct Haccepted as (r & new & Hrun & Hreplies & Hcalls);
      [vm_compute; reflexivity|].
    exists r, new. split; [exact Hrun|]. split; [exact Hreplies|].
    apply Hcalls. left. vm_compute. reflexivity.
Defined.

(** X8. When the text is accepted and a menu option was chosen, the
    handler stores the stripped address in the user data, whether or
    not the run then fails, and only adds to the trail.  The run ends
    in one of two ways.  Either it returns: the four pipeline steps
    were called in order (fetch, select, classify, mentions) and a
    report is the last thing sent.  Or it raises [AttributeError] or
    [TypeError] out of the selector, the classifier or a field read:
    then no report was sent and the social sources were not queried. *)
Theorem accepted_address_run {tweet post : Type}
    (requests_get_json : string → outcome json)
    (search_recent_tweets : string → nat → outcome (option (list tweet)))
    (subreddit_all_search : string → nat → list post * option exn)
    (text : string) (s : session) :
  Re.matches address_format (Strip.strip text) = true →
  (user_data s !! "selected_option" = Some "analyze_token"
   ∨ user_data s !! "selected_option" = Some "rug_pull_scan") →
  ∃ r new,
    handle_token_address requests_get_json search_recent_tweets
      subreddit_all_search text s
    = (r, {| user_data := <["token_address" := Strip.strip text]> (user_data s);
             events := events s ++ new |})
    ∧ pipeline_outcome r new.
Proof.
  intros Hacc Hopt. rewrite handle_accepted by done.
  destruct Hopt as [Hopt|Hopt]; rewrite Hopt.
  - rewrite bool_decide_eq_true_2 by done.
    destruct (analyze_token_branch_run requests_get_json search_recent_tweets
                subreddit_all_search (Strip.strip text)) as (r & t & Hw & Ho & _).
    exists r, t. split; [exact (Hw _)|done].
  - rewrite bool_decide_eq_false_2 by done.
    rewrite bool_decide_eq_true_2 by done.
    destruct (rug_pull_scan_branch_run requests_get_json search_recent_tweets
                subreddit_all_search (Strip.strip text)) as (r & t & Hw & Ho & _).
    exists r, t. split; [exact (Hw _)|done].
Qed.

Lemma accepted_address_run_witness :
  ∃ r new,
    handle_token_address offline_requests offline_twitter offline_reddit
      sample_ethereum_address analyze_session
    = (r, {| user_data := <["token_address" := Strip.strip sample_ethereum_address]>
                            (user_data analyze_session);
             events := events analyze_session ++ new |})
    ∧ pipeline_outcome r new.
Proof.
  refine (accepted_address_run offline_requests offline_twitter offline_reddit
            sample_ethereum_address analyze_session _ _).
  - vm_compute. reflexivity.
  - left. vm_compute. reflexivity.
Defined.

(** X9. When the text is accepted but no menu option is in force, the
    handler stores the address and sends nothing: no reply, no pipeline
    step. *)
Theorem accepted_address_without_option {tweet post : Type}
    (requests_get_json : string → outcome json)
    (search_recent_tweets : string → nat → outcome (option (list tweet)))
    (subreddit_all_search : string → nat → list post * option exn)
    (text : string) (s : session) :
  Re.matches address_format (Strip.strip text) = true →
  user_data s !! "selected_option" ≠ Some "analyze_token" →
  user_data s !! "selected_option" ≠ Some "rug_pull_scan" →
  handle_token_address requests_get_json search_recent_tweets
    subreddit_all_search text s
  = (Return (),
     {| user_data := <["token_address" := Strip.strip text]> (user_data s);
        events := events s |}).
Proof.
  intros Hacc H1 H2. rewrite handle_accepted by done.
  by rewrite !bool_decide_eq_false_2 by done.
Qed.

Lemma accepted_address_without_option_witness :
  handle_token_address offline_requests offline_twitter offline_reddit
    sample_solana_address fresh_session
  = (Return (),
     {| user_data := <["token_address" := Strip.strip sample_solana_address]>
                       (user_data fresh_session);
        events := events fresh_session |}).
Proof.
  refine (accepted_address_without_option offline_requests offline_twitter
            offline_reddit sample_solana_address fresh_session _ _ _).
  - vm_compute. reflexivity.
  - vm_compute. discriminate.
  - vm_compute. discriminate.
Defined.

(** X10. When the market-data request brings no pairs (it failed, the
    body has no [pairs], or [pairs] is [null] or empty), the message
    handler does not stop: it classifies the empty pair and sends a
    report whose verdict is High. *)
Theorem no_market_data_reports_high {tweet post : Type}
    (requests_get_json : string → outcome json)
    (search_recent_tweets : string → nat → outcome (option (list tweet)))
    (subreddit_all_search : string → nat → list post * option exn)
    (text : string) (s : session) :
  Re.matches address_format (Strip.strip text) = true →
  (user_data s !! "selected_option" = Some "analyze_token"
   ∨ user_data s !! "selected_option" = Some "rug_pull_scan") →
  Py.truthy (fetch_dexscreener_data requests_get_json (Strip.strip text)).1 = false →
  ∃ new,
    handle_token_address requests_get_json search_recent_tweets
      subreddit_all_search text s
    = (Return (),
       {| user_data := <["token_address" := Strip.strip text]> (user_data s);
          events := events s ++ new |})
    ∧ ∃ m v, reports_of new = [m] ∧ report_verdict m = Some v ∧ risk v = High.
Proof.
  intros Hacc Hopt Hnone. rewrite handle_accepted by done.
  destruct Hopt as [Hopt|Hopt]; rewrite Hopt.
  - rewrite bool_decide_eq_true_2 by done.
    destruct (analyze_token_branch_without_data requests_get_json
                search_recent_tweets subreddit_all_search (Strip.strip text) Hnone)
      as (r & t & Hw & -> & Hhigh).
    exists t. split; [exact (Hw _)|done].
  - rewrite bool_decide_eq_false_2 by done.
    rewrite bool_decide_eq_true_2 by done.
    destruct (rug_pull_scan_branch_without_data requests_get_json
                search_recent_tweets subreddit_all_search (Strip.strip text) Hnone)
      as (r & t & Hw & -> & Hhigh).
    exists t. split; [exact (Hw _)|done].
Qed.

Lemma no_market_data_reports_high_witness :
  ∃ new,
    handle_token_address offline_requests offline_twitter offline_reddit
      sample_ethereum_address analyze_session
    = (Return (),
       {| user_data := <["token_address" := Strip.strip sample_ethereum_address]>
                         (user_data analyze_session);
          events := events analyze_session ++ new |})
    ∧ ∃ m v, reports_of new = [m] ∧ report_verdict m = Some v ∧ risk v = High.
Proof.
  refine (no_market_data_reports_high offline_requests offline_twitter
            offline_reddit sample_ethereum_address analyze_session _ _ _).
  - vm_compute. reflexivity.
  - left. vm_compute. reflexivity.
  - vm_compute. reflexivity.
Defined.

(** ** Runs of the callback-query handlers *)

Section QueryRuns.
Context {tweet post : Type}.
Variable requests_get_json : string → outcome json.
Variable search_recent_tweets : string → nat → outcome (option (list tweet)).
Variable subreddit_all_search : string → nat → list post * option exn.

Lemma query_writes_emit (evs : list query_event) :
  query_writes (query_emit evs) (Return ()) evs.
Proof. by intros [ud old]. Qed.

Lemma query_writes_lift {A} (m : outcome A) : query_writes (query_lift m) m [].
Proof. intros [ud evs]. unfold query_lift. simpl. by rewrite app_nil_r. Qed.

Lemma query_run_bind {A B} (m : query_io A) (k : A → query_io B)
    (Q : outcome B → list query_event → Prop) r1 t1 :
  query_writes m r1 t1 →
  match r1 with
  | Return a => ∃ r t, query_writes (k a) r t ∧ Q r (t1 ++ t)
  | Raise e => Q (Raise e) t1
  end →
  ∃ r t, query_writes (m ≫= k) r t ∧ Q r t.
Proof.
  intros Hm. destruct r1 as [a|e].
  - intros (r & t & Hk & HQ). exists r, (t1 ++ t). split; [|done].
    intros s. unfold mbind, query_io_bind. rewrite Hm, Hk. simpl.
    by rewrite app_assoc.
  - intros HQ. exists (Raise e), t1. split; [|done].
    intros s. unfold mbind, query_io_bind. by rewrite Hm.
Qed.

Lemma steps_of_app (t1 t2 : list query_event) :
  steps_of (t1 ++ t2) = steps_of t1 ++ steps_of t2.
Proof. apply omap_app. Qed.

Lemma steps_of_log (log : list log_record) : steps_of (Logged <$> log) = [].
Proof. induction log; [done|]. simpl. exact IHlog. Qed.

Lemma not_in_log (m : query_text) (log : list log_record) :
  EditMessageText m ∉ Logged <$> log.
Proof. intros (r & Hr & _)%list_elem_of_fmap. discriminate. Qed.

Lemma last_cons_app_cons {X} (x y : X) (l l2 : list X) :
  last (x :: l ++ y :: l2) = last (y :: l2).
Proof. apply (last_app_cons (x :: l)). Qed.

Ltac find_last :=
  repeat first [rewrite last_cons_cons | rewrite last_cons_app_cons
               | rewrite last_app_cons];
  try reflexivity.

Ltac no_such_edit :=
  repeat first [rewrite not_elem_of_app | rewrite not_elem_of_cons];
  repeat split; try discriminate; try apply not_in_log; try apply not_elem_of_nil.

Ltac query_step :=
  lazymatch goal with
  | |- ∃ r t, query_writes (query_emit _ ≫= _) r t ∧ _ =>
      eapply query_run_bind; [apply query_writes_emit|cbn beta iota]
  | |- ∃ r t, query_writes (query_lift ?m ≫= _) r t ∧ _ =>
      eapply query_run_bind; [apply query_writes_lift|];
      destruct m eqn:?; cbn beta iota
  | |- ∃ r t, query_writes (query_emit _) r t ∧ _ =>
      eexists _, _; split; [apply query_writes_emit|]
  | |- ∃ r t, query_writes (if ?c then _ else _) r t ∧ _ => destruct c eqn:?
  | |- ∃ r t, query_writes (let '(_, _) := ?p in _) r t ∧ _ => destruct p eqn:?
  end.

Ltac read_steps :=
  repeat progress (rewrite ?steps_of_app, ?steps_of_log; simpl).

(** The part of [full_token_analysis] that follows the test of the
    stored address. *)
Lemma full_analysis_run (a : string) (s : query_session) :
  query_user_data s !! "token_address" = Some a → a ≠ "" →
  ∃ r new,
    full_token_analysis requests_get_json search_recent_tweets
      subreddit_all_search s
    = (r, {| query_user_data := query_user_data s;
             query_events := query_events s ++ new |})
    ∧ full_analysis_outcome a r new.
Proof.
  intros Ha Hne. unfold full_token_analysis.
  unfold mbind at 1, query_io_bind at 1, query_emit at 1. cbn beta iota.
  unfold mbind at 1, query_io_bind at 1, query_emit at 1. cbn beta iota.
  unfold mbind at 1, query_io_bind at 1, query_read. cbn beta iota.
  cbn [query_user_data query_events]. rewrite Ha.
  assert (no_address (Some a) = false) as ->.
  { simpl. by apply String.eqb_neq. }
  cbn [default].
  match goal with
  | |- ∃ r new, ?m ?s0 = _ ∧ _ =>
      assert (∃ r t, query_writes m r t
                     ∧ full_analysis_outcome a r
                         ([Answer] ++ [EditMessageText FetchingFullAnalysis] ++ t))
        as (r & t & Hw & Hout)
  end.
  2: { exists r, ([Answer] ++ [EditMessageText FetchingFullAnalysis] ++ t).
       split; [|done]. rewrite Hw. simpl. by rewrite <- !app_assoc. }
  unfold full_analysis_outcome.
  repeat query_step; simpl.
  all: repeat name_exception.
  all: split; [|no_such_edit].
  all: read_steps.
  all: first
    [ left; split; [reflexivity|by find_last]
    | right; left; split; [reflexivity|by find_last]
    | right; right; split; [reflexivity|]; do 8 eexists; by find_last
    | split; [first [by left | by right]|subst; by auto] ].
Qed.
End QueryRuns.

(** X11. Without a stored address ([token_address] missing from the
    user data, or empty) the full analysis answers "No token address
    found" and does nothing else: no pipeline step is called. *)
Theorem full_analysis_needs_address {tweet post : Type}
    (requests_get_json : string → outcome json)
    (search_recent_tweets : string → nat → outcome (option (list tweet)))
    (subreddit_all_search : string → nat → list post * option exn)
    (s : query_session) :
  no_address (query_user_data s !! "token_address") = true →
  full_token_analysis requests_get_json search_recent_tweets
    subreddit_all_search s
  = (Return (),
     {| query_user_data := query_user_data s;
        query_events := query_events s
                        ++ [Answer; EditMessageText FetchingFullAnalysis;
                            EditMessageText NoTokenAddress] |}).
Proof.
  intros Hnone. unfold full_token_analysis.
  unfold mbind, query_io_bind, query_emit, query_read. simpl.
  rewrite Hnone. simpl. by rewrite <- !app_assoc.
Qed.

Lemma full_analysis_needs_address_witness :
  full_token_analysis offline_requests offline_twitter offline_reddit
    {| query_user_data := ∅; query_events := [] |}
  = (Return (),
     {| query_user_data := ∅;
        query_events := [Answer; EditMessageText FetchingFullAnalysis;
                         EditMessageText NoTokenAddress] |}).
Proof.
  apply (full_analysis_needs_address offline_requests offline_twitter
           offline_reddit {| query_user_data := ∅; query_events := [] |}).
  vm_compute. reflexivity.
Defined.

(** X12. With a stored address, when the market-data request brings no
    pairs the full analysis stops after the fetch with "No valid data
    found": the selector, the classifier and the mention counter are
    not called (the message handler, on the same data, goes on and
    reports). *)
Theorem full_analysis_stops_without_data {tweet post : Type}
    (requests_get_json : string → outcome json)
    (search_recent_tweets : string → nat → outcome (option (list tweet)))
    (subreddit_all_search : string → nat → list post * option exn)
    (a : string) (s : query_session) :
  query_user_data s !! "token_address" = Some a → a ≠ "" →
  Py.truthy (fetch_dexscreener_data requests_get_json a).1 = false →
  ∃ new,
    full_token_analysis requests_get_json search_recent_tweets
      subreddit_all_search s
    = (Return (),
       {| query_user_data := query_user_data s;
          query_events := query_events s ++ new |})
    ∧ steps_of new = [FetchDexscreenerData]
    ∧ edits_of new = [FetchingFullAnalysis; NoValidData].
Proof.
  intros Ha Hne Hnone. unfold full_token_analysis.
  unfold mbind, query_io_bind, query_emit, query_read. simpl.
  rewrite Ha. assert (no_address (Some a) = false) as ->.
  { simpl. by apply String.eqb_neq. }
  simpl. destruct (fetch_dexscreener_data requests_get_json a) as [pairs log].
  simpl in Hnone. rewrite Hnone. simpl.
  eexists. split.
  - rewrite <- !app_assoc. reflexivity.
  - unfold steps_of, edits_of. simpl. rewrite !omap_app. simpl.
    split.
    + replace (omap _ (Logged <$> log)) with (@nil pipeline_step); [done|].
      induction log; [done|]. simpl. exact IHlog.
    + replace (omap _ (Logged <$> log)) with (@nil query_text); [done|].
      induction log; [done|]. simpl. exact IHlog.
Qed.

Lemma full_analysis_stops_without_data_witness :
  ∃ new,
    full_token_analysis offline_requests offline_twitter offline_reddit
      {| query_user_data := {["token_address" := sample_ethereum_address]};
         query_events := [] |}
    = (Return (),
       {| query_user_data := {["token_address" := sample_ethereum_address]};
          query_events := [] ++ new |})
    ∧ steps_of new = [FetchDexscreenerData]
    ∧ edits_of new = [FetchingFullAnalysis; NoValidData].
Proof.
  refine (full_analysis_stops_without_data offline_requests offline_twitter
            offline_reddit sample_ethereum_address
            {| query_user_data := {["token_address" := sample_ethereum_address]};
               query_events := [] |} _ _ _).
  - vm_compute. reflexivity.
  - discriminate.
  - vm_compute. reflexivity.
Defined.

(** X13. After the message handler has accepted a text, a full
    analysis run on the resulting user data never answers "No token
    address found".  It ends with "No valid data found" after the
    fetch, with "No preferred DEX found" after the selection, with a
    report that names the stripped text as the token address after all
    four steps, or with [AttributeError] or [TypeError] after the
    second or third step. *)
Theorem full_analysis_after_accepted_address {tweet post : Type}
    (requests_get_json requests_get_json' : string → outcome json)
    (search_recent_tweets search_recent_tweets'
       : string → nat → outcome (option (list tweet)))
    (subreddit_all_search subreddit_all_search'
       : string → nat → list post * option exn)
    (text : string) (s : session) (qs : query_session) :
  Re.matches address_format (Strip.strip text) = true →
  query_user_data qs
  = user_data (handle_token_address requests_get_json search_recent_tweets
                 subreddit_all_search text s).2 →
  ∃ r new,
    full_token_analysis requests_get_json' search_recent_tweets'
      subreddit_all_search' qs
    = (r, {| query_user_data := query_user_data qs;
             query_events := query_events qs ++ new |})
    ∧ full_analysis_outcome (Strip.strip text) r new.
Proof.
  intros Hacc Hud. apply full_analysis_run.
  - rewrite Hud, handle_accepted_user_data by done. apply lookup_insert_eq.
  - by apply accepted_address_not_empty.
Qed.

Lemma full_analysis_after_accepted_address_witness :
  ∃ r new,
    full_token_analysis offline_requests offline_twitter offline_reddit
      {| query_user_data :=
           user_data (handle_token_address offline_requests offline_twitter
                        offline_reddit sample_solana_address fresh_session).2;
         query_events := [] |}
    = (r, {| query_user_data :=
               user_data (handle_token_address offline_requests offline_twitter
                            offline_reddit sample_solana_address fresh_session).2;
             query_events := [] ++ new |})
    ∧ full_analysis_outcome (Strip.strip sample_solana_address) r new.
Proof.
  refine (full_analysis_after_accepted_address
            offline_requests offline_requests offline_twitter offline_twitter
            offline_reddit offline_reddit sample_solana_address fresh_session
            {| query_user_data :=
                 user_data (handle_token_address offline_requests offline_twitter
                              offline_reddit sample_solana_address
                              fresh_session).2;
               query_events := [] |} _ _).
  - vm_compute. reflexivity.
  - reflexivity.
Defined.

(** X14. The menu button pressed last decides what an accepted
    address starts: after "Analyze Token" the handler's first reply is
    "Analyzing ...", after "Rug Pull Scanner" it is "Checking Rug Pull
    Risk ...", whatever option the user data held before. *)
Theorem menu_choice_decides_branch {tweet post : Type}
    (requests_get_json : string → outcome json)
    (search_recent_tweets : string → nat → outcome (option (list tweet)))
    (subreddit_all_search : string → nat → list post * option exn)
    (qs : query_session) (text : string) (s : session) :
  Re.matches address_format (Strip.strip text) = true →
  (user_data s = query_user_data (analyze_token qs).2 →
   ∃ r new,
     handle_token_address requests_get_json search_recent_tweets
       subreddit_all_search text s
     = (r, {| user_data := <["token_address" := Strip.strip text]> (user_data s);
              events := events s ++ new |})
     ∧ head new = Some (ReplyText (Analyzing (Strip.strip text))))
  ∧ (user_data s = query_user_data (rug_pull_scan qs).2 →
     ∃ r new,
       handle_token_address requests_get_json search_recent_tweets
         subreddit_all_search text s
       = (r, {| user_data := <["token_address" := Strip.strip text]> (user_data s);
                events := events s ++ new |})
       ∧ head new = Some (ReplyText (CheckingRugPull (Strip.strip text)))).
Proof.
  intros Hacc. split; intros Hud; rewrite handle_accepted by done; rewrite Hud.
  - assert (query_user_data (analyze_token qs).2 !! "selected_option"
            = Some "analyze_token") as -> by apply lookup_insert_eq.
    rewrite bool_decide_eq_true_2 by done.
    destruct (analyze_token_branch_run requests_get_json search_recent_tweets
                subreddit_all_search (Strip.strip text)) as (r & t & Hw & _ & Hh).
    exists r, t. split; [exact (Hw _)|done].
  - assert (query_user_data (rug_pull_scan qs).2 !! "selected_option"
            = Some "rug_pull_scan") as -> by apply lookup_insert_eq.
    rewrite bool_decide_eq_false_2 by done.
    rewrite bool_decide_eq_true_2 by done.
    destruct (rug_pull_scan_branch_run requests_get_json search_recent_tweets
                subreddit_all_search (Strip.strip text)) as (r & t & Hw & _ & Hh).
    exists r, t. split; [exact (Hw _)|done].
Qed.

Lemma menu_choice_decides_branch_witness :
  let qs := {| query_user_data := {["selected_option" := "analyze_token"]};
               query_events := [] |} in
  let s := {| user_data := query_user_data (rug_pull_scan qs).2; events := [] |} in
  ∃ r new,
    handle_token_address offline_requests offline_twitter offline_reddit
      sample_solana_address s
    = (r, {| user_data := <["token_address" := Strip.strip sample_solana_address]>
                            (user_data s);
             events := events s ++ new |})
    ∧ head new = Some (ReplyText (CheckingRugPull (Strip.strip sample_solana_address))).
Proof.
  intros qs s.
  refine (proj2 (menu_choice_decides_branch offline_requests offline_twitter
                   offline_reddit qs sample_solana_address s _) _).
  - vm_compute. reflexivity.
  - reflexivity.
Defined.

(** ** Boosted tokens *)

Section BoostFacts.
Variable requests_get_json : string → outcome json.
Variable derives_from_request_exception : string → bool.
Variable str_of_other : json → string.

Lemma boosted_entry_shape (token : json) (entry : json) :
  boosted_entry str_of_other token = Return (Some entry) → boosted_token entry.
Proof.
  unfold boosted_entry.
  intros (link & _ & E)%bind_Return. apply bind_Return in E as (liq & _ & E).
  destruct (Py.truthy link && Py.truthy liq) eqn:Ht; [|done].
  injection E as <-. apply andb_true_iff in Ht as [_ Ht].
  by eexists _, _.
Qed.

Lemma boosted_entries_bounded (tokens entries : list json) :
  boosted_entries str_of_other tokens = Return entries →
  (length entries ≤ length tokens)%nat ∧ Forall boosted_token entries.
Proof.
  revert entries. induction tokens as [|token rest IH]; intros entries; simpl.
  - intros [= <-]. split; [done|constructor].
  - intros (entry & Hentry & E)%bind_Return.
    apply bind_Return in E as (entries' & Hrest & E).
    destruct (IH _ Hrest) as [Hlen Hall].
    destruct entry as [e|]; injection E as <-; simpl.
    + split; [lia|]. constructor; [by eapply boosted_entry_shape|done].
    + split; [lia|done].
Qed.

Lemma boosted_entry_raises (token : json) (e : exn) :
  boosted_entry str_of_other token = Raise e → e = AttributeError.
Proof.
  unfold boosted_entry.
  intros [H|(link & _ & H)]%bind_Raise; [by apply get_raises in H|].
  apply bind_Raise in H as [H|(liq & _ & H)]; [by apply get_raises in H|].
  by destruct (_ && _).
Qed.

Lemma boosted_entries_raises (tokens : list json) (x : json) :
  x ∈ tokens → is_dict x = false →
  boosted_entries str_of_other tokens = Raise AttributeError.
Proof.
  intros Hx Hd. induction tokens as [|token rest IH]; [by apply elem_of_nil in Hx|].
  simpl. destruct (boosted_entry str_of_other token) as [entry|e] eqn:E.
  - apply elem_of_cons in Hx as [->|Hx]; [by destruct token|].
    simpl. by rewrite (IH Hx).
  - simpl. f_equal. by eapply boosted_entry_raises.
Qed.
End BoostFacts.

Lemma boosted_tokens_shape
    (requests_get_json : string → outcome json)
    (derives_from_request_exception : string → bool)
    (str_of_other : json → string)
    (tokens : list json) (log : list boost_log) :
  fetch_boosted_tokens requests_get_json derives_from_request_exception
    str_of_other = Return (tokens, log) →
  (length tokens ≤ 10)%nat ∧ Forall boosted_token tokens.
Proof.
  unfold fetch_boosted_tokens.
  destruct (requests_get_json _) as [[| | | | |data|]|e];
    try (intros [= <- <-]; split; [simpl; lia|constructor]).
  - intros (entries & Hentries & E)%bind_Return. injection E as <- <-.
    apply boosted_entries_bounded in Hentries as [Hlen Hall].
    split; [|done]. rewrite length_take in Hlen. lia.
  - destruct (is_request_exception _ e); [|done].
    intros [= <- <-]. split; [simpl; lia|constructor].
Qed.

(** X15. The list [fetch_boosted_tokens] returns has at most 10
    entries, and every entry is a [dict] with exactly the keys
    [tokenLink] and [liquidity]; the liquidity counts as true. *)
Theorem boosted_tokens_bounded
    (requests_get_json : string → outcome json)
    (derives_from_request_exception : string → bool)
    (str_of_other : json → string)
    (tokens : list json) (log : list boost_log) :
  fetch_boosted_tokens requests_get_json derives_from_request_exception
    str_of_other = Return (tokens, log) →
  (length tokens ≤ 10)%nat ∧ Forall boosted_token tokens.
Proof. apply boosted_tokens_shape. Qed.

Lemma boosted_tokens_bounded_witness :
  ∃ tokens log,
    fetch_boosted_tokens boosts_service no_request_exceptions plain_str
    = Return (tokens, log)
    ∧ (length tokens ≤ 10)%nat ∧ Forall boosted_token tokens.
Proof.
  eexists _, _. split; [vm_compute; reflexivity|].
  refine (boosted_tokens_bounded boosts_service no_request_exceptions plain_str
            _ _ _).
  vm_compute. reflexivity.
Defined.



Section TopTokens.
Variable requests_get_json : string → outcome json.
Variable derives_from_request_exception : string → bool.
Variable str_of_other : json → string.

Lemma boosted_token_address (entry : json) :
  boosted_token entry → Py.get entry "address" JNull = Return JNull.
Proof.
  intros (link & liquidity & -> & _). simpl.
  rewrite lookup_insert_ne by done. rewrite lookup_insert_ne by done.
  by rewrite lookup_empty.
Qed.

Lemma boosted_addresses (tokens : list json) :
  Forall boosted_token tokens →
  mapM (λ token, Py.get token "address" JNull) tokens
  = Return (replicate (length tokens) JNull).
Proof.
  induction 1 as [|token rest Htoken _ IH]; simpl; [done|].
  rewrite (boosted_token_address _ Htoken). simpl. by rewrite IH.
Qed.
End TopTokens.

(** X17. Whatever the service answers, [top_tokens] never shows an
    address: when it lists tokens, the list has between 1 and 10 lines
    and the address on every line is [None], because the entries
    [fetch_boosted_tokens] builds have no [address] key. *)
Theorem top_tokens_shows_no_address
    (requests_get_json : string → outcome json)
    (derives_from_request_exception : string → bool)
    (str_of_other : json → string) (s : query_session) :
  ∃ r new,
    top_tokens requests_get_json derives_from_request_exception str_of_other s
    = (r, {| query_user_data := query_user_data s;
             query_events := query_events s ++ new |})
    ∧ ∀ addresses,
        EditMessageText (TopTokens addresses) ∈ new →
        Forall (λ a, a = JNull) addresses
        ∧ (1 ≤ length addresses ≤ 10)%nat.
Proof.
  unfold top_tokens. unfold mbind at 1, query_io_bind at 1, query_emit at 1.
  cbn beta iota. unfold mbind at 1, query_io_bind at 1, query_lift at 1.
  cbn beta iota.
  destruct (fetch_boosted_tokens _ _ _) as [[tokens log]|e] eqn:Hfetch.
  - apply boosted_tokens_shape in Hfetch as [Hlen Hall].
    unfold mbind at 1, query_io_bind at 1, query_emit at 1. cbn beta iota.
    cbn [query_user_data query_events].
    destruct tokens as [|token rest].
    + eexists _, _. split.
      * unfold query_emit. cbn [query_user_data query_events].
        rewrite <- !app_assoc. reflexivity.
      * intros addresses Hin. exfalso. revert Hin. simpl.
        rewrite !elem_of_cons, elem_of_app, list_elem_of_fmap, elem_of_cons,
          elem_of_nil.
        intros [|[(x & ? & _)|[|]]]; done.
    + unfold mbind, query_io_bind, query_lift.
      pose proof (boosted_addresses (token :: rest) Hall) as Haddr.
      destruct (mapM _ (token :: rest)) as [addresses'|e]; [|done].
      injection Haddr as Haddr. subst addresses'. cbn beta iota.
      eexists _, _. split.
      * unfold query_emit. cbn [query_user_data query_events].
        rewrite <- !app_assoc. reflexivity.
      * intros addresses Hin. revert Hin. simpl.
        rewrite !elem_of_cons, elem_of_app, list_elem_of_fmap, elem_of_cons,
          elem_of_nil.
        intros [|[(x & ? & _)|[[= ->]|]]]; try done.
        split; [|simpl in *; rewrite length_replicate; lia].
        constructor; [done|]. by apply Forall_replicate.
  - eexists _, _. split; [reflexivity|].
    intros addresses Hin. apply list_elem_of_singleton in Hin. discriminate.
Qed.

Example top_tokens_on_sample :
  top_tokens boosts_service no_request_exceptions plain_str
    {| query_user_data := ∅; query_events := [] |}
  = (Return (),
     {| query_user_data := ∅;
        query_events := [Answer; EditMessageText (TopTokens [JNull; JNull])] |}).
Proof. vm_compute. reflexivity. Qed.

Lemma top_tokens_shows_no_address_witness :
  ∃ r new,
    top_tokens boosts_service no_request_exceptions plain_str
      {| query_user_data := ∅; query_events := [] |}
    = (r, {| query_user_data := ∅; query_events := [] ++ new |})
    ∧ ∀ addresses,
        EditMessageText (TopTokens addresses) ∈ new →
        Forall (λ a, a = JNull) addresses
        ∧ (1 ≤ length addresses ≤ 10)%nat.
Proof.
  exact (top_tokens_shows_no_address boosts_service no_request_exceptions
           plain_str {| query_user_data := ∅; query_events := [] |}).
Defined.

(** X18. [fetch_boosted_tokens] catches [RequestException] only.  An
    exception of another class raised by the request, and the
    [AttributeError] raised by a token among the first ten that is not
    a [dict], reach the caller; [top_tokens] then fails after it has
    answered the query, without editing the message. *)
Theorem boosted_tokens_uncaught
    (requests_get_json : string → outcome json)
    (derives_from_request_exception : string → bool)
    (str_of_other : json → string) (s : query_session) (e : exn) :
  (requests_get_json "https://api.dexscreener.com/token-boosts/latest/v1"
   = Raise e ∧ is_request_exception derives_from_request_exception e = false)
  ∨ (e = AttributeError
     ∧ ∃ data x,
         requests_get_json "https://api.dexscreener.com/token-boosts/latest/v1"
         = Return (JArr data)
         ∧ x ∈ take 10 data ∧ is_dict x = false) →
  fetch_boosted_tokens requests_get_json derives_from_request_exception
    str_of_other = Raise e
  ∧ top_tokens requests_get_json derives_from_request_exception str_of_other s
    = (Raise e, {| query_user_data := query_user_data s;
                   query_events := query_events s ++ [Answer] |}).
Proof.
  intros H.
  assert (fetch_boosted_tokens requests_get_json derives_from_request_exception
            str_of_other = Raise e) as Hfetch.
  { unfold fetch_boosted_tokens.
    destruct H as [[-> ->]|(-> & data & x & -> & Hx & Hd)]; [done|].
    by rewrite (boosted_entries_raises _ _ _ Hx Hd). }
  split; [done|].
  unfold top_tokens, mbind, query_io_bind, query_emit, query_lift.
  cbn beta iota. by rewrite Hfetch.
Qed.

Lemma boosted_tokens_uncaught_witness :
  fetch_boosted_tokens broken_boosts_service no_request_exceptions plain_str
  = Raise AttributeError
  ∧ top_tokens broken_boosts_service no_request_exceptions plain_str
      {| query_user_data := ∅; query_events := [] |}
    = (Raise AttributeError,
       {| query_user_data := ∅; query_events := [] ++ [Answer] |}).
Proof.
  refine (boosted_tokens_uncaught broken_boosts_service no_request_exceptions
            plain_str {| query_user_data := ∅; query_events := [] |}
            AttributeError _).
  right. split; [reflexivity|].
  eexists _, JNull. split; [reflexivity|]. split; [|reflexivity].
  vm_compute. right. left.
Defined.

(** ** Dispatch of callback queries *)

Section Dispatch.
Import Re.

Lemma run_literal (c : ascii) (rest : list ascii) (p q : position) :
  q ∈ run (literal c rest) p
  ↔ ∃ tail, p.2 = c :: rest ++ tail ∧ q = (p.1 + S (length rest), tail).
Proof.
  revert c p. induction rest as [|d rest IH]; intros c p; simpl.
  - rewrite (run_chr c p q). split.
    + intros (tail & Hp & ->). exists tail. split; [done|]. f_equal. lia.
    + intros (tail & Hp & ->). exists tail. split; [done|]. f_equal. lia.
  - rewrite list_elem_of_bind. split.
    + intros (m & Hq & Hm). apply (run_chr c p m) in Hm as (tail & Hp & ->).
      apply IH in Hq as (tail' & Ht & ->). simpl in *. subst tail.
      exists tail'. split; [done|]. f_equal. lia.
    + intros (tail & Hp & ->). exists (S p.1, d :: rest ++ tail). split.
      * apply IH. exists tail. split; [done|]. simpl. f_equal. lia.
      * apply (run_chr c p). by exists (d :: rest ++ tail).
Qed.

Lemma callback_matches (name data : string) :
  matches (callback_pattern name) data = true
  ↔ ∃ tail, String.list_ascii_of_string data
            = String.list_ascii_of_string name ++ tail
            ∧ line_end tail.
Proof.
  rewrite matches_iff. unfold callback_pattern.
  destruct (String.list_ascii_of_string name) as [|c rest]; split.
  - intros (q & Hq). apply run_cat in Hq as (p0 & Hp0 & Hq).
    apply run_bol in Hp0 as [_ ->]. apply run_eol in Hq as [Hend ->].
    by eexists.
  - intros (tail & Hs & Hend). simpl in Hs. eexists. apply run_cat.
    eexists. split; [by apply run_bol|]. apply run_eol. simpl. by rewrite Hs.
  - intros (q & Hq). apply run_cat in Hq as (p0 & Hp0 & Hq).
    apply run_bol in Hp0 as [_ ->]. apply run_cat in Hq as (p1 & Hp1 & Hq).
    apply run_literal in Hp1 as (tail & Hs & ->).
    apply run_eol in Hq as [Hend ->]. by exists tail.
  - intros (tail & Hs & Hend). eexists. apply run_cat.
    eexists. split; [by apply run_bol|]. apply run_cat.
    exists (S (length rest), tail). split.
    + apply run_literal. by exists tail.
    + by apply run_eol.
Qed.
End Dispatch.

(** X19. A callback query reaches a handler exactly when its data is
    the handler's name, possibly followed by one newline (the [$] of
    the pattern allows it); any other data reaches no handler. *)
Theorem dispatch_by_name (data : string) (h : callback_handler) :
  dispatch_callback data = Some h
  ↔ ∃ tail, String.list_ascii_of_string data
            = String.list_ascii_of_string (handler_name h) ++ tail
            ∧ line_end tail.
Proof.
  unfold dispatch_callback, callback_handlers. simpl. split.
  - repeat match goal with
    | |- context [Re.matches (callback_pattern ?name) ?d] =>
        let E := fresh "E" in
        destruct (Re.matches (callback_pattern name) d) eqn:E;
        [apply callback_matches in E; by intros [= <-]|]
    end.
    done.
  - intros (tail & Hs & Hend).
    repeat match goal with
    | |- context [Re.matches (callback_pattern ?name) ?d] =>
        let E := fresh "E" in
        destruct (Re.matches (callback_pattern name) d) eqn:E;
        [apply callback_matches in E as (? & E & _);
         destruct h; simpl in Hs, E; first [reflexivity | congruence]
        |]
    end.
    exfalso.
    assert (∀ name, handler_name h = name →
                    Re.matches (callback_pattern name) data = true) as Hm.
    { intros name <-. apply callback_matches. by exists tail. }
    destruct h; simpl in Hm; specialize (Hm _ eq_refl); congruence.
Qed.

Lemma dispatch_by_name_witness :
  dispatch_callback "full_analysis" = Some HandleFullTokenAnalysis.
Proof.
  apply (proj2 (dispatch_by_name "full_analysis" HandleFullTokenAnalysis)).
  exists []. split; [reflexivity|]. by left.
Defined.

(** X20. Of the buttons the bot sends, "Start Over" (data [start]) and
    "Exit" (data [exit]) reach no handler: pressing them does nothing.
    Every other button reaches the handler of its name, and no button
    carries [top_tokens], so [top_tokens] cannot be reached from the
    bot's own messages. *)
Theorem buttons_without_handler (data : string) :
  (data ∈ menu_buttons
   ∨ (∃ m, data ∈ message_buttons m)
   ∨ (∃ m, data ∈ query_text_buttons m)) →
  (dispatch_callback data = None ↔ data = "start" ∨ data = "exit")
  ∧ dispatch_callback data ≠ Some HandleTopTokens
  ∧ ∀ h, dispatch_callback data = Some h → handler_name h = data.
Proof.
  intros Hin.
  assert (data ∈ ["analyze_token"; "rug_pull_scan"; "exit"; "start";
                  "full_analysis"; "go_back_to_menu"]) as Hdata.
  { destruct Hin as [Hin|[[m Hin]|[m Hin]]].
    - unfold menu_buttons in Hin. set_solver.
    - destruct m; simpl in Hin; set_solver.
    - destruct m; simpl in Hin; unfold menu_buttons in Hin; set_solver. }
  clear Hin.
  repeat (apply elem_of_cons in Hdata as [->|Hdata]);
    [..|by apply elem_of_nil in Hdata].
  all: split; [split|split; [vm_compute; discriminate|]].
  all: try (vm_compute; discriminate).
  all: try (intros [H|H]; discriminate).
  all: try (intros _; by auto).
  all: intros h; vm_compute; intros [= <-]; reflexivity.
Qed.

Lemma buttons_without_handler_witness :
  (dispatch_callback "start" = None ↔ "start" = "start" ∨ "start" = "exit")
  ∧ dispatch_callback "start" ≠ Some HandleTopTokens
  ∧ ∀ h, dispatch_callback "start" = Some h → handler_name h = "start".
Proof.
  apply (buttons_without_handler "start").
  right. left. exists InvalidAddressFormat. simpl. by left.
Defined.

(** ** More on the chain detector *)

Section DetectorFacts.
Import Re Spec.

Lemma list_ascii_app (a b : string) :
  String.list_ascii_of_string (a +:+ b)
  = String.list_ascii_of_string a ++ String.list_ascii_of_string b.
Proof. induction a as [|c a IH]; simpl; [done|]. by rewrite IH. Qed.

Lemma alphanumeric_class c :
  in_class [("a", "z"); ("A", "Z"); ("0", "9")]%char c = true
  ↔ is_digit c ∨ is_letter c.
Proof.
  unfold in_class, in_range, is_digit, is_letter, between; simpl existsb.
  repeat rewrite ?orb_true_iff, ?andb_true_iff, ?N.leb_le, ?orb_false_r.
  simpl N_of_ascii. generalize (N_of_ascii c). intros. lia.
Qed.

Lemma base58_like_or_excluded c :
  is_digit c ∨ is_letter c →
  is_base58_like c ∨ c ∈ ["0"; "O"; "I"; "l"]%char.
Proof.
  intros Hc. destruct (decide (c ∈ ["0"; "O"; "I"; "l"]%char)); [by right|].
  left. by split.
Qed.

Lemma solana_shape_not_ethereum address :
  solana_shape address → matches ethereum_pattern address = false.
Proof.
  intros [_ Hall]. destruct (matches ethereum_pattern address) eqn:E; [|done].
  apply matches_anchored_0x_class in E as (body & tail & Hs & _).
  rewrite Hs in Hall. apply Forall_cons in Hall as [[_ H0] _].
  exfalso. apply H0. by left.
Qed.

Lemma solana_shape_matches address :
  solana_shape address → matches solana_pattern address = true.
Proof.
  intros [Hlen Hall]. apply matches_anchored_class.
  exists (String.list_ascii_of_string address), []. rewrite app_nil_r.
  rewrite length_list_ascii. repeat split; [lia|lia| |by left].
  eapply Forall_impl; [exact Hall|]. intros c. apply base58_like_class.
Qed.
End DetectorFacts.

(** X21. An address of 32 to 44 base58-like characters is tagged
    "Solana": it cannot also match the first pattern, whose leading [0]
    is one of the characters the Solana class leaves out. *)
Theorem detect_solana (address : string) :
  Spec.solana_shape address → detect_blockchain address = "Solana".
Proof.
  intros Hshape. unfold detect_blockchain.
  rewrite solana_shape_not_ethereum by done.
  by rewrite solana_shape_matches.
Qed.

Lemma detect_solana_witness :
  Spec.solana_shape sample_solana_address
  ∧ detect_blockchain sample_solana_address = "Solana".
Proof.
  assert (Spec.solana_shape sample_solana_address) as Hshape.
  { split; [vm_compute; lia|].
    eapply Forall_impl; [|intros c; apply base58_like_class].
    repeat (constructor; [vm_compute; reflexivity|]). constructor. }
  split; [exact Hshape|]. exact (detect_solana sample_solana_address Hshape).
Defined.

(** X22. The patterns end in [$], which also holds before a final
    newline: an Ethereum-shaped or Solana-shaped address followed by
    one newline is tagged like the address itself, and the format
    pattern matches it too (the handler never meets this case only
    because it strips the text first). *)
Theorem trailing_newline_is_accepted (address : string) :
  (Spec.ethereum_shape address →
   detect_blockchain (with_newline address) = "Ethereum"
   ∧ Re.matches address_format (with_newline address) = true)
  ∧ (Spec.solana_shape address →
     detect_blockchain (with_newline address) = "Solana"
     ∧ Re.matches address_format (with_newline address) = true).
Proof.
  assert (String.list_ascii_of_string (with_newline address)
          = String.list_ascii_of_string address ++ [newline]) as Hnl.
  { unfold with_newline. by rewrite list_ascii_app. }
  split.
  - intros (digits & Hs & Hlen & Hall).
    assert (Re.matches ethereum_pattern (with_newline address) = true) as He.
    { apply matches_anchored_0x_class. exists digits, [newline].
      rewrite Hnl, Hs. repeat split; [lia|lia| |by right].
      eapply Forall_impl; [exact Hall|]. intros c. apply hex_digit_class. }
    unfold detect_blockchain. rewrite address_format_split, He. done.
  - intros [Hlen Hall].
    assert (Re.matches solana_pattern (with_newline address) = true) as Hsol.
    { apply matches_anchored_class.
      exists (String.list_ascii_of_string address), [newline].
      rewrite length_list_ascii. repeat split; [done|lia|lia| |by right].
      eapply Forall_impl; [exact Hall|]. intros c. apply base58_like_class. }
    assert (Re.matches ethereum_pattern (with_newline address) = false) as He.
    { destruct (Re.matches ethereum_pattern (with_newline address)) eqn:E; [|done].
      apply matches_anchored_0x_class in E as (body & tail & Hs & _).
      rewrite Hnl in Hs.
      destruct (String.list_ascii_of_string address) as [|c rest] eqn:Hlist.
      { rewrite <- length_list_ascii, Hlist in Hlen. simpl in Hlen. lia. }
      injection Hs as -> _. apply Forall_cons in Hall as [[_ H0] _].
      exfalso. apply H0. by left. }
    unfold detect_blockchain. rewrite address_format_split, He, Hsol. done.
Qed.

Lemma trailing_newline_is_accepted_witness :
  Spec.ethereum_shape sample_ethereum_address
  ∧ detect_blockchain (with_newline sample_ethereum_address) = "Ethereum"
  ∧ Re.matches address_format (with_newline sample_ethereum_address) = true.
Proof.
  assert (Spec.ethereum_shape sample_ethereum_address) as Hshape.
  { eexists. split; [reflexivity|]. split; [reflexivity|].
    eapply Forall_impl; [|intros c; apply hex_digit_class].
    repeat (constructor; [vm_compute; reflexivity|]). constructor. }
  split; [exact Hshape|].
  exact (proj1 (trailing_newline_is_accepted sample_ethereum_address) Hshape).
Defined.

(** X23. An address is tagged "Binance" only if, up to a final
    newline, it is 42 letters and digits of which at least one is 0, O,
    I or l: without such a character the 42 characters match the Solana
    pattern, which is tried first. *)
Theorem binance_needs_excluded_character (address : string) :
  detect_blockchain address = "Binance" →
  ∃ body tail,
    String.list_ascii_of_string address = body ++ tail
    ∧ line_end tail ∧ binance_shape body.
Proof.
  unfold detect_blockchain.
  destruct (Re.matches ethereum_pattern address); [discriminate|].
  destruct (Re.matches solana_pattern address) eqn:Hsol; [discriminate|].
  destruct (Re.matches binance_pattern address) eqn:Hbnb.
  2: { by destruct (Re.matches polygon_pattern address). }
  intros _.
  apply matches_anchored_class in Hbnb as (body & tail & Hs & Hlen & Hall & Hend).
  exists body, tail. split; [done|]. split; [done|].
  assert (Forall (λ c, Spec.is_digit c ∨ Spec.is_letter c) body) as Halnum.
  { eapply Forall_impl; [exact Hall|]. intros c. apply alphanumeric_class. }
  split; [lia|]. split; [done|].
  destruct (decide (Exists (λ c, c ∈ ["0"; "O"; "I"; "l"]%char) body))
    as [|Hnone]; [done|].
  exfalso. apply not_Exists_Forall in Hnone; [|intros c; apply _].
  assert (Re.matches solana_pattern address = true) as Hyes; [|congruence].
  apply matches_anchored_class. exists body, tail.
  repeat split; [done|lia|lia| |done].
  apply Forall_forall. intros c Hc. apply base58_like_class. split.
  - by eapply (proj1 (Forall_forall _ _) Halnum).
  - by eapply (proj1 (Forall_forall _ _) Hnone).
Qed.

Lemma binance_needs_excluded_character_witness :
  detect_blockchain "bnb1grpf0955h0ykzq3ar5nmum7y6gdfl6lx0000aa" = "Binance"
  ∧ ∃ body tail,
      String.list_ascii_of_string "bnb1grpf0955h0ykzq3ar5nmum7y6gdfl6lx0000aa"
      = body ++ tail
      ∧ line_end tail ∧ binance_shape body.
Proof.
  split; [vm_compute; reflexivity|].
  apply (binance_needs_excluded_character
           "bnb1grpf0955h0ykzq3ar5nmum7y6gdfl6lx0000aa").
  vm_compute. reflexivity.
Defined.

(** ** Stripping, once more *)

Section StripTwice.
Import Strip.

Lemma drop_space_clean backwards s :
  starts_clean backwards (drop_space backwards s) = true.
Proof.
  remember (length s) as n eqn:Hn.
  revert s Hn. induction (lt_wf n) as [n _ IH]. intros s Hn.
  destruct s as [|a [|b [|d s3]]]; simpl.
  - done.
  - destruct (space1 a) eqn:Ea; simpl; [done|]. by rewrite Ea.
  - destruct (space1 a) eqn:Ea.
    { apply (IH 1 ltac:(subst n; simpl; lia) [b] eq_refl). }
    destruct (if backwards then space2 b a else space2 a b) eqn:Eb; [done|].
    simpl. by rewrite Ea, Eb.
  - destruct (space1 a) eqn:Ea.
    { apply (IH (length (b :: d :: s3)) ltac:(subst n; simpl; lia)
               (b :: d :: s3) eq_refl). }
    destruct (if backwards then space2 b a else space2 a b) eqn:Eb.
    { apply (IH (length (d :: s3)) ltac:(subst n; simpl; lia) (d :: s3) eq_refl). }
    destruct (if backwards then space3 d b a else space3 a b d) eqn:Ed.
    { apply (IH (length s3) ltac:(subst n; simpl; lia) s3 eq_refl). }
    simpl. by rewrite Ea, Eb, Ed.
Qed.

Lemma clean_fixed backwards s :
  starts_clean backwards s = true → drop_space backwards s = s.
Proof.
  destruct s as [|a [|b [|d s3]]]; simpl; [done| | |].
  - by destruct (space1 a).
  - destruct (space1 a); [done|].
    by destruct (if backwards then space2 b a else space2 a b).
  - destruct (space1 a); [done|].
    destruct (if backwards then space2 b a else space2 a b); [done|].
    by destruct (if backwards then space3 d b a else space3 a b d).
Qed.

Lemma drop_space_suffix backwards s :
  ∃ dropped, s = dropped ++ drop_space backwards s.
Proof.
  remember (length s) as n eqn:Hn.
  revert s Hn. induction (lt_wf n) as [n _ IH]. intros s Hn.
  destruct s as [|a s1]; [by exists []|]. simpl.
  destruct (space1 a).
  { destruct (IH (length s1) ltac:(subst n; simpl; lia) s1 eq_refl) as (p & Hp).
    exists (a :: p). simpl. by rewrite <- Hp. }
  destruct s1 as [|b s2]; [by exists []|].
  destruct (if backwards then space2 b a else space2 a b).
  { destruct (IH (length s2) ltac:(subst n; simpl; lia) s2 eq_refl) as (p & Hp).
    exists (a :: b :: p). simpl. by rewrite <- Hp. }
  destruct s2 as [|d s3]; [by exists []|].
  destruct (if backwards then space3 d b a else space3 a b d).
  { destruct (IH (length s3) ltac:(subst n; simpl; lia) s3 eq_refl) as (p & Hp).
    exists (a :: b :: d :: p). simpl. by rewrite <- Hp. }
  by exists [].
Qed.

(** A string that starts clean still does when its end is cut off. *)
Lemma clean_prefix backwards s rest :
  starts_clean backwards (s ++ rest) = true → starts_clean backwards s = true.
Proof.
  destruct s as [|a [|b [|d s3]]]; simpl; [done| | |done].
  - intros H. apply andb_true_iff in H as [-> _]. done.
  - intros H. apply andb_true_iff in H as [-> H].
    apply andb_true_iff in H as [-> _]. done.
Qed.

Lemma strip_idempotent text : strip (strip text) = strip text.
Proof.
  unfold strip. rewrite String.list_ascii_of_string_of_list_ascii.
  set (front := drop_space false (String.list_ascii_of_string text)).
  set (back := drop_space true (rev front)).
  destruct (drop_space_suffix true (rev front)) as (dropped & Hdropped).
  fold back in Hdropped.
  assert (front = rev back ++ rev dropped) as Hfront.
  { rewrite <- rev_app_distr, <- Hdropped. by rewrite rev_involutive. }
  assert (starts_clean false (rev back) = true) as Hclean.
  { apply (clean_prefix _ _ (rev dropped)). rewrite <- Hfront.
    apply drop_space_clean. }
  rewrite (clean_fixed _ _ Hclean), rev_involutive.
  assert (starts_clean true back = true) as Hback by apply drop_space_clean.
  by rewrite (clean_fixed _ _ Hback).
Qed.
End StripTwice.

(** X24. White space around the message text never matters: stripping
    a stripped text changes nothing, so the handler does on a text
    exactly what it does on the stripped text. *)
Theorem surrounding_space_is_ignored {tweet post : Type}
    (requests_get_json : string → outcome json)
    (search_recent_tweets : string → nat → outcome (option (list tweet)))
    (subreddit_all_search : string → nat → list post * option exn)
    (text : string) (s : session) :
  Strip.strip (Strip.strip text) = Strip.strip text
  ∧ handle_token_address requests_get_json search_recent_tweets
      subreddit_all_search text s
    = handle_token_address requests_get_json search_recent_tweets
        subreddit_all_search (Strip.strip text) s.
Proof.
  split; [apply strip_idempotent|].
  unfold handle_token_address. by rewrite strip_idempotent.
Qed.

(** ** The mention counter, once more *)

(** X25. The counts the mention counter returns always have exactly
    the two keys [Twitter] and [Reddit], so the text formatted from
    them can always be built; and nothing is logged exactly when
    neither source raised. *)
Theorem mention_counts_have_both_keys {tweet post : Type}
    (search_recent_tweets : string → nat → outcome (option (list tweet)))
    (subreddit_all_search : string → nat → list post * option exn)
    (token_address : string) :
  dom (fetch_social_media_mentions search_recent_tweets subreddit_all_search
         token_address).1 = {["Twitter"; "Reddit"]}
  ∧ ((fetch_social_media_mentions search_recent_tweets subreddit_all_search
        token_address).2 = []
     ↔ raised (search_recent_tweets token_address 5) = false
       ∧ (subreddit_all_search token_address 5).2 = None).
Proof.
  unfold fetch_social_media_mentions.
  destruct (subreddit_all_search token_address 5) as [posts failure].
  assert (∀ counts : gmap string nat,
            dom (foldl (λ counts _, alter S "Reddit" counts) counts posts)
            = dom counts) as Hdom.
  { induction posts as [|p posts IH]; intros counts; simpl; [done|].
    by rewrite IH, dom_alter_L. }
  destruct (search_recent_tweets token_address 5) as [data|e]; simpl.
  - split.
    + rewrite Hdom, !dom_insert_L. set_solver.
    + destruct failure; simpl; split; try done. by intros [_ ?].
  - split.
    + rewrite Hdom, !dom_insert_L. set_solver.
    + split; [done|]. by intros [? _].
Qed.

(** ** Selection in the store, once more *)

(** X26. The selector hands back a reference, not a copy.  For a
    collection that is not empty the reference is one of the
    collection's own, so a change made through it shows in the
    collection.  For the empty collection it refers to a new empty
    [dict], an object the store did not hold before. *)
Theorem selected_pair_is_shared (pairs : Store.loc)
    (h : gmap Store.loc Store.object) (items : list Store.loc) (r : Store.loc) :
  h !! pairs = Some (Store.ListObj items) →
  (Store.get_preferred_dex pairs h).1 = Return r →
  match items with
  | [] => h !! r = None
          ∧ (Store.get_preferred_dex pairs h).2 !! r
            = Some (Store.Obj (JObj ∅))
  | _ :: _ => r ∈ items
              ∧ (Store.get_preferred_dex pairs h).2 !! r = h !! r
  end.
Proof.
  intros Hpairs Hr. destruct items as [|x items].
  - revert Hr. unfold Store.get_preferred_dex. rewrite Hpairs. simpl.
    intros [= <-]. split; [|apply lookup_insert_eq].
    apply not_elem_of_dom. apply is_fresh.
  - pose proof (get_preferred_dex_alias _ _ _ _ _ Hpairs Hr) as Hin.
    split; [done|].
    destruct (h !! r) as [o|] eqn:Ho; [by apply get_preferred_dex_frame|].
    exfalso. revert Hr. unfold Store.get_preferred_dex. rewrite Hpairs.
    destruct (mapM (Store.key_of h) (x :: items)) as [keys|e] eqn:Hkeys; [|done].
    exfalso.
    apply mapM_Return_Forall2 in Hkeys.
    apply list_elem_of_lookup in Hin as (i & Hi).
    destruct (Forall2_lookup_l _ _ _ _ _ Hkeys Hi) as (k & _ & Hk).
    unfold Store.key_of in Hk. by rewrite Ho in Hk.
Qed.

Lemma selected_pair_is_shared_witness :
  ∃ r, (Store.get_preferred_dex 1%positive sample_store).1 = Return r
       ∧ r ∈ [2%positive; 3%positive]
       ∧ (Store.get_preferred_dex 1%positive sample_store).2 !! r
         = sample_store !! r.
Proof.
  exists 3%positive. split; [vm_compute; reflexivity|].
  refine (selected_pair_is_shared 1%positive sample_store
            [2%positive; 3%positive] 3%positive _ _);
    vm_compute; reflexivity.
Defined.
